(** * The SNMP plug-in: request validation, discovery and polling

    The repository keeps several revisions of the same components side by
    side.  Each revision is embedded in a module of its own:

    - [Snmpfetcher] : the first poller, [src/snmp/snmpfetcher.go], which
                      reads the tables of [src/config/oids.go] ([config]);
    - [Handler]     : the worker of [src/handler/zmq.go], which calls it;
    - [Plugin]      : [Discovery] of [src/src/plugin/snmp/discovery.go];
    - [Part003]     : the constants, [ValidateRequest] and [Discovery] of
                      the first [package snmp] of [src/unnamed/part_003]
                      (lines 282 to 447), which work on the request map;
    - [Part005]     : the count-driven poller of [src/unnamed/part_005];
    - [Polling]     : [FetchSNMPData] of [src/src/plugin/snmp/polling.go],
                      whose helper functions have the statements of those
                      of part_005;
    - [Part004]     : the walk-driven poller of [src/unnamed/part_004];
                      both read the tables of
                      [src/src/util/metriccontext.go] ([util]);
    - [Part003b]    : the second [package snmp] of [src/unnamed/part_003]
                      (lines 448 to 598);
    - [Worker003]   : the worker of the [package server] of
                      [src/unnamed/part_003] (lines 1 to 281);
    - [Router]      : the worker of the second [package server] of
                      [src/src/server/server.go] (lines 167 to 365), which
                      passes the request map to the plug-in.

    Go values are modelled by their dynamic type, maps by [gmap], the SNMP
    session of gosnmp by a record of response functions ([gosnmp]), and
    every function that talks to the device or to the log returns the events
    it emitted together with its outcome, a value or a run-time panic. *)

From Stdlib Require Import ZArith List String Ascii Lia Bool QArith Qround.
From stdpp Require Import base gmap strings list pretty.

Local Close Scope Q_scope.
Local Open Scope Z_scope.

(** ** Go values *)

(** An [interface{}] value as found in a request or response map: the
    constructors are the dynamic types that [encoding/json] decodes to and
    that the plug-in stores. *)
#[warnings="-register-all"]
Inductive GoValue : Type :=
| VNil
| VString (s : string)
| VBytes (b : string)
| VInt (z : Z)
| VUint (z : Z)
| VUint32 (z : Z)
| VUint64 (z : Z)
| VFloat64 (q : Q)
| VMap (m : gmap string GoValue)
| VList (l : list GoValue).

(** [v.(string)] with the comma-ok form. *)
Definition asString (v : GoValue) : option string :=
  match v with VString s => Some s | _ => None end.

(** [v == c] for an interface value [v] and a string constant [c]. *)
Definition eqString (v : GoValue) (c : string) : bool :=
  match v with VString s => String.eqb s c | _ => false end.

(** [m[k]] on a [map[string]interface{}]: the zero value when absent. *)
Definition valueAt (m : gmap string GoValue) (k : string) : GoValue :=
  default VNil (m !! k).

(** The integer part of a float64: the fraction is discarded. *)
Definition truncate (q : Q) : Z :=
  if Qle_bool (0 # 1) q then Qfloor q else Qceiling q.

(** [int(v)] for a float64 [v].  When the integer part does not fit an
    [int] the language leaves the value to the implementation; this is the
    value of the amd64 compiler, whose conversion instruction then answers
    the least [int]. *)
Definition toInt (v : Q) : Z :=
  let z := truncate v in
  if (- 2 ^ 63 <=? z) && (z <? 2 ^ 63) then z else - 2 ^ 63.

(** [uint16(v)] for a float64 [v], as the amd64 compiler does it: the value
    is converted to an [int32], the least one when the integer part does not
    fit, and the low 16 bits are kept. *)
Definition toUint16 (v : Q) : Z :=
  let z := truncate v in
  (if (- 2 ^ 31 <=? z) && (z <? 2 ^ 31) then z else - 2 ^ 31) mod 2 ^ 16.

(** ** Strings *)

(** [fmt.Sprintf("%d", n)]. *)
Definition itoa (n : Z) : string := pretty n.

(** [fmt.Sprintf("%02d", n)] for an unsigned [n]. *)
Definition itoa02 (n : Z) : string :=
  if n <? 10 then "0" +:+ pretty n else pretty n.

Definition byteval (c : ascii) : Z := Z.of_N (N_of_ascii c).

Definition isDigit (c : ascii) : bool :=
  (48 <=? byteval c) && (byteval c <=? 57).

(** [strings.Split(s, ".")]. *)
Fixpoint Split (s : string) : list string :=
  match s with
  | EmptyString => [EmptyString]
  | String c r =>
      if Ascii.eqb c "."%char then EmptyString :: Split r
      else match Split r with
           | h :: t => String c h :: t
           | [] => [String c EmptyString]
           end
  end.

(** [oidParts[len(oidParts)-1]]. *)
Definition lastPart (parts : list string) : string :=
  List.last parts EmptyString.

Fixpoint allDigits (s : string) : bool :=
  match s with
  | EmptyString => true
  | String c r => isDigit c && allDigits r
  end.

Fixpoint digitsValue (acc : Z) (s : string) : Z :=
  match s with
  | EmptyString => acc
  | String c r => digitsValue (10 * acc + (byteval c - 48)) r
  end.

(** The sign and the digits of the argument of [strconv.Atoi]. *)
Definition signed (s : string) : bool * string :=
  match s with
  | String c r =>
      if Ascii.eqb c "-"%char then (true, r)
      else if Ascii.eqb c "+"%char then (false, r)
      else (false, s)
  | EmptyString => (false, s)
  end.

Definition wellFormedInt (s : string) : bool :=
  let body := (signed s).2 in
  negb (String.eqb body EmptyString) && allDigits body.

Definition hexDigit (n : Z) : ascii :=
  ascii_of_N (Z.to_N (if n <? 10 then 48 + n else 87 + n)).

Fixpoint isASCII (s : string) : bool :=
  match s with
  | EmptyString => true
  | String c r => (byteval c <? 128) && isASCII r
  end.

(** A backslash and the character [c]. *)
Definition escaped (c : ascii) : string :=
  String (ascii_of_N 92) (String c EmptyString).

(** What [strconv.Quote] writes for one ASCII character: the quote and the
    backslash after a backslash, the control characters by their letter or
    as [\x] and two hexadecimal digits, any other character as it is. *)
Definition quoteByte (c : ascii) : string :=
  let a := byteval c in
  if (a =? 34) || (a =? 92) then escaped c
  else if a =? 7 then escaped "a"%char
  else if a =? 8 then escaped "b"%char
  else if a =? 12 then escaped "f"%char
  else if a =? 10 then escaped "n"%char
  else if a =? 13 then escaped "r"%char
  else if a =? 9 then escaped "t"%char
  else if a =? 11 then escaped "v"%char
  else if (a <? 32) || (a =? 127) then
    escaped "x"%char +:+ String (hexDigit (a / 16)) (String (hexDigit (a mod 16)) EmptyString)
  else String c EmptyString.

(** [strconv.Quote], exact on ASCII text ([isASCII]).  Of the bytes above
    127, which the library decodes as UTF-8 and escapes when the rune is
    not printable, the text keeps the bytes as they are; the statements
    that depend on a quoted text are about ASCII text. *)
Fixpoint quoteBody (s : string) : string :=
  match s with
  | EmptyString => EmptyString
  | String c r => quoteByte c +:+ quoteBody r
  end.

Definition Quote (s : string) : string :=
  String (ascii_of_N 34) (quoteBody s +:+ String (ascii_of_N 34) EmptyString).

(** [strconv.Atoi] on a 64-bit platform: an optional sign, at least one
    decimal digit and nothing else, and a value that fits an [int].  The
    result is the number and the text of the error, if any; with a syntax
    error the number is 0, out of range it is the nearest [int]. *)
Definition Atoi (s : string) : Z * option string :=
  if wellFormedInt s then
    let '(neg, body) := signed s in
    let v := if neg then - digitsValue 0 body else digitsValue 0 body in
    if v <? - 2 ^ 63 then
      (- 2 ^ 63, Some ("strconv.Atoi: parsing " +:+ Quote s +:+ ": value out of range"))
    else if 2 ^ 63 <=? v then
      (2 ^ 63 - 1, Some ("strconv.Atoi: parsing " +:+ Quote s +:+ ": value out of range"))
    else (v, None)
  else (0, Some ("strconv.Atoi: parsing " +:+ Quote s +:+ ": invalid syntax")).

(** [hex.EncodeToString]: two lower-case digits a byte. *)
Fixpoint EncodeToString (b : string) : string :=
  match b with
  | EmptyString => EmptyString
  | String c r =>
      String (hexDigit (byteval c / 16))
        (String (hexDigit (byteval c mod 16)) (EncodeToString r))
  end.

Definition upper (c : ascii) : ascii :=
  if (97 <=? byteval c) && (byteval c <=? 122)
  then ascii_of_N (Z.to_N (byteval c - 32)) else c.

(** [strings.ToUpper], on the ASCII text it is applied to here (the output
    of [hex.EncodeToString]). *)
Fixpoint ToUpper (s : string) : string :=
  match s with
  | EmptyString => EmptyString
  | String c r => String (upper c) (ToUpper r)
  end.

(** [s[i:j]] for [i <= j <= len(s)]. *)
Definition slice (s : string) (i j : nat) : string :=
  String.substring i (j - i) s.

(** White space as [unicode.IsSpace] sees it, on the UTF-8 bytes of the
    string: [spaceRune s] is the number of bytes of the white-space rune
    that starts [s], or [0%nat]. *)
Definition spaceRune (s : string) : nat :=
  match s with
  | String c r =>
      let a := byteval c in
      if ((9 <=? a) && (a <=? 13)) || (a =? 32) then 1%nat
      else match r with
      | String d r' =>
          let b := byteval d in
          if (a =? 194) && ((b =? 133) || (b =? 160)) then 2%nat
          else match r' with
          | String e _ =>
              let x := byteval e in
              if (a =? 225) && (b =? 154) && (x =? 128) then 3%nat
              else if (a =? 226) && (b =? 128) &&
                      (((128 <=? x) && (x <=? 138)) || (x =? 168) ||
                       (x =? 169) || (x =? 175)) then 3%nat
              else if (a =? 226) && (b =? 129) && (x =? 159) then 3%nat
              else if (a =? 227) && (b =? 128) && (x =? 128) then 3%nat
              else 0%nat
          | EmptyString => 0%nat
          end
      | EmptyString => 0%nat
      end
  | EmptyString => 0%nat
  end.

Definition drop_string (n : nat) (s : string) : string :=
  String.substring n (String.length s - n) s.

(** The string with its leading white space removed; [fuel] bounds the
    number of runes and [String.length s] is always enough. *)
Fixpoint trimLeft (fuel : nat) (s : string) : string :=
  match fuel with
  | O => s
  | S fuel' =>
      match spaceRune s with
      | O => s
      | n => trimLeft fuel' (drop_string n s)
      end
  end.

Definition allSpace (s : string) : bool :=
  String.eqb (trimLeft (String.length s) s) EmptyString.

Fixpoint trimRight (s : string) : string :=
  match s with
  | EmptyString => EmptyString
  | String c r => if allSpace s then EmptyString else String c (trimRight r)
  end.

(** [strings.TrimSpace]. *)
Definition TrimSpace (s : string) : string :=
  trimRight (trimLeft (String.length s) s).

Definition lower (c : ascii) : ascii :=
  if (65 <=? byteval c) && (byteval c <=? 90)
  then ascii_of_N (Z.to_N (byteval c + 32)) else c.

(** [strings.ToLower], exact on ASCII text: the bytes of other runes are
    kept as they are.  The statements that depend on it are about requests
    whose fields are ASCII text ([isASCII]). *)
Fixpoint ToLower (s : string) : string :=
  match s with
  | EmptyString => EmptyString
  | String c r => String (lower c) (ToLower r)
  end.

(** ** The gosnmp session

    The device-protocol library is a collaborator: a session is modelled by
    what it answers.  [Decoded] is the Go value gosnmp decodes a variable
    binding to (Integer to [int], OctetString to [[]byte], ObjectIdentifier
    and IPAddress to [string], Counter32 and Gauge32 to [uint], TimeTicks to
    [uint32], Counter64 to [uint64], Null and the no-such markers to [nil]);
    the floating-point payloads of Opaque bindings are left out. *)
Module gosnmp.

Inductive SnmpVersion := Version1 | Version2c | Version3.

Inductive Asn1BER :=
| Integer | OctetString | Null | ObjectIdentifier | IPAddress | Counter32
| Gauge32 | TimeTicks | Opaque | Counter64 | NoSuchObject | NoSuchInstance
| EndOfMibView.

Inductive Decoded :=
| DNil
| DBytes (b : string)
| DString (s : string)
| DInt (z : Z)
| DUint (z : Z)
| DUint32 (z : Z)
| DUint64 (z : Z).

Record SnmpPDU := { Name : string; Type_ : Asn1BER; Value : Decoded }.

(** The fields of [gosnmp.GoSNMP] the plug-in sets; [Timeout] is in
    milliseconds. *)
Record GoSNMP := {
  Target : string;
  Port : Z;
  Community : string;
  Version : SnmpVersion;
  Timeout : Z;
  Retries : Z
}.

(** What the remote device answers to a session [g]: [Connect g] is the
    error of [g.Connect()] if any, [Get g oids] the error or the variables
    of [g.Get(oids)], [Walk g root] the bindings [g.Walk(root, fn)] hands
    to [fn] one after the other and the error that ends the walk, if
    any.  During one job the device answers the same request in the same
    way. *)
Record Device := {
  Connect : GoSNMP -> option string;
  Get : GoSNMP -> list string -> string + list SnmpPDU;
  Walk : GoSNMP -> string -> list SnmpPDU * option string
}.

(** [variable.Value] stored in an [interface{}]. *)
Definition toInterface (v : Decoded) : GoValue :=
  match v with
  | DNil => VNil
  | DBytes b => VBytes b
  | DString s => VString s
  | DInt z => VInt z
  | DUint z => VUint z
  | DUint32 z => VUint32 z
  | DUint64 z => VUint64 z
  end.

(** gosnmp decodes an OctetString binding to a byte slice. *)
Definition octetsAreBytes (p : SnmpPDU) : bool :=
  match Type_ p, Value p with
  | OctetString, DBytes _ => true
  | OctetString, _ => false
  | _, _ => true
  end.

Definition decodes (d : Device) : Prop :=
  forall g oids vars, Get d g oids = inr vars ->
    forallb octetsAreBytes vars = true.

(** A response carries at most one binding for each OID of the request. *)
Definition bounded (d : Device) : Prop :=
  forall g oids vars, Get d g oids = inr vars ->
    (length vars <= length oids)%nat.

End gosnmp.

(** ** Effects: the calls to the device, the log, and run-time panics *)

Inductive Event :=
| Connected (g : gosnmp.GoSNMP)
| Got (g : gosnmp.GoSNMP) (oids : list string)
| Walked (g : gosnmp.GoSNMP) (root : string)
| Closed
| Logged (msg : string).

(** The events that are round trips to the device. *)
Definition isNetwork (e : Event) : bool :=
  match e with
  | Connected _ | Got _ _ | Walked _ _ => true
  | Closed | Logged _ => false
  end.

Definition networkCalls (t : list Event) : list Event := List.filter isNetwork t.

Inductive PanicKind :=
| TypeAssertion | IndexOutOfRange | NilDereference | MakesliceCap.

Inductive Outcome (A : Type) :=
| Done (a : A)
| Panic (k : PanicKind).
Arguments Done {A} a.
Arguments Panic {A} k.

(** A Go computation: its outcome and the events it emitted, oldest
    first. *)
Definition Go (A : Type) : Type := Outcome A * list Event.

Definition ret {A} (a : A) : Go A := (Done a, []).

Definition bind {A B} (m : Go A) (f : A -> Go B) : Go B :=
  match m with
  | (Done a, t) => let '(o, t') := f a in (o, t ++ t')
  | (Panic k, t) => (Panic k, t)
  end.

Definition emit (e : Event) : Go unit := (Done tt, [e]).

Definition panic {A} (k : PanicKind) : Go A := (Panic k, []).

(** [defer g.Conn.Close()] around the rest of the function: the connection
    is closed when the function returns and when it panics. *)
Definition deferClose {A} (body : Go A) : Go A :=
  let '(o, t) := body in (o, t ++ [Closed]).

#[global] Instance go_ret : MRet Go := @ret.
#[global] Instance go_bind : MBind Go := fun A B f m => bind m f.

(** [defer conn.Close()] on a connection that is an interface value: the
    method value is taken when the [defer] statement runs, and taking it
    from the nil interface panics; [conn] tells whether the session has a
    connection at that point. *)
Definition deferCloseOf {A} (conn : bool) (body : Go A) : Go A :=
  if conn then deferClose body else panic NilDereference.

(** The largest size in bytes the run time allocates on a 64-bit
    platform. *)
Definition maxAlloc : Z := 2 ^ 48.

(** [make([]T, 0, cap)] for elements of [size] bytes: "makeslice: cap out
    of range" for a negative capacity and for one whose bytes exceed
    [maxAlloc].  A capacity within the bound is taken to be allocated. *)
Definition makeslice (size cap : Z) : Go unit :=
  if (cap <? 0) || (maxAlloc <? size * cap) then panic MakesliceCap else ret tt.

(** [v.(string)] without the comma-ok form: it panics on any other type. *)
Definition mustString (v : GoValue) : Go string :=
  match v with VString s => ret s | _ => panic TypeAssertion end.

(** [v.(float64)], unchecked. *)
Definition mustFloat64 (v : GoValue) : Go Q :=
  match v with VFloat64 q => ret q | _ => panic TypeAssertion end.

(** [l[i]] on a slice. *)
Definition at_ {A} (l : list A) (i : nat) : Go A :=
  match l !! i with Some a => ret a | None => panic IndexOutOfRange end.

(** ** The OID tables

    A Go map literal; [for ... range] over it visits the keys in an order
    the run time chooses afresh each time, which the functions below take
    as an argument. *)
Module util.

Definition SNMPOids : gmap string string := list_to_map [
  ("1.3.6.1.2.1.1.5.0", "system.name");
  ("1.3.6.1.2.1.1.1.0", "system.description");
  ("1.3.6.1.2.1.1.6.0", "system.location");
  ("1.3.6.1.2.1.1.2.0", "system.objectId");
  ("1.3.6.1.2.1.1.3.0", "system.uptime");
  ("1.3.6.1.2.1.2.1.0", "system.interfaces") ].

Definition InterfaceOids : gmap string string := list_to_map [
  ("1.3.6.1.2.1.2.2.1.1", "interface.index");
  ("1.3.6.1.2.1.31.1.1.1.1", "interface.name");
  ("1.3.6.1.2.1.31.1.1.1.18", "interface.alias");
  ("1.3.6.1.2.1.2.2.1.8", "interface.operational.status");
  ("1.3.6.1.2.1.2.2.1.7", "interface.admin.status");
  ("1.3.6.1.2.1.2.2.1.2", "interface.description");
  ("1.3.6.1.2.1.2.2.1.20", "interface.sent.error.packets");
  ("1.3.6.1.2.1.2.2.1.14", "interface.received.error.packets");
  ("1.3.6.1.2.1.2.2.1.16", "interface.sent.octets");
  ("1.3.6.1.2.1.2.2.1.10", "interface.received.octets");
  ("1.3.6.1.2.1.2.2.1.5", "interface.speed");
  ("1.3.6.1.2.1.2.2.1.6", "interface.physical.address");
  ("1.3.6.1.2.1.2.2.1.13", "interface.discard.packets");
  ("1.3.6.1.2.1.2.2.1.11", "interface.in.packets");
  ("1.3.6.1.2.1.2.2.1.17", "interface.out.packets") ].

End util.

Module config.

Definition SNMPOids : gmap string string := list_to_map [
  ("1.3.6.1.2.1.1.5.0", "system.name");
  ("1.3.6.1.2.1.1.1.0", "system.description");
  ("1.3.6.1.2.1.1.6.0", "system.location");
  ("1.3.6.1.2.1.1.2.0", "system.objectId");
  ("1.3.6.1.2.1.1.3.0", "system.uptime");
  ("1.3.6.1.2.1.2.1.0", "system.interfaces") ].

Definition InterfaceOids : gmap string string := list_to_map [
  ("1.3.6.1.2.1.2.2.1.1", "Index");
  ("1.3.6.1.2.1.31.1.1.1.1", "Name");
  ("1.3.6.1.2.1.31.1.1.1.18", "Alias");
  ("1.3.6.1.2.1.2.2.1.8", "OperationalStatus");
  ("1.3.6.1.2.1.2.2.1.7", "AdminStatus");
  ("1.3.6.1.2.1.2.2.1.2", "Description");
  ("1.3.6.1.2.1.2.2.1.20", "SentErrorPackets");
  ("1.3.6.1.2.1.2.2.1.14", "ReceivedErrorPackets");
  ("1.3.6.1.2.1.2.2.1.16", "SentOctets");
  ("1.3.6.1.2.1.2.2.1.10", "ReceivedOctets");
  ("1.3.6.1.2.1.2.2.1.5", "Speed");
  ("1.3.6.1.2.1.2.2.1.6", "PhysicalAddress");
  ("1.3.6.1.2.1.2.2.1.13", "DiscardPackets");
  ("1.3.6.1.2.1.2.2.1.11", "InPackets");
  ("1.3.6.1.2.1.2.2.1.17", "OutPackets") ].

End config.

(** [table[k]] on a [map[string]string]: the empty string when absent. *)
Definition field (table : gmap string string) (k : string) : string :=
  default EmptyString (table !! k).

(** The choices the Go run time makes in one run: the orders in which the
    keys of the two tables are visited (once for the system table, once per
    interface for the interface table) and, for the concurrent collector of
    [Snmpfetcher], the order in which the goroutines started for a list of
    indices complete. *)
Record Runtime := {
  rangeSNMPOids : list string;
  rangeInterfaceOids : Z -> list string;
  completion : list Z -> list Z
}.

(** Every goroutine that was started completes, once. *)
Definition completes (rt : Runtime) : Prop :=
  forall started, completion rt started ≡ₚ started.

(** The orders Go can choose: every key of the table, once. *)
Definition keysOf (table : gmap string string) (order : list string) : Prop :=
  order ≡ₚ (map_to_list table).*1.

(** ** Statements the revisions share *)

(** The cases of [switch version] that every revision has; [None] is the
    [default:] case, which each revision handles in its own way. *)
Definition switchVersion (version : string) : option gosnmp.SnmpVersion :=
  if String.eqb version "1" then Some gosnmp.Version1
  else if String.eqb version "2" || String.eqb version "2c" then Some gosnmp.Version2c
  else if String.eqb version "3" then Some gosnmp.Version3
  else None.

(** The up-time statements of [FetchSNMPData] (polling.go, part_005 and
    part_004 have the same ones), on a [uint32] tick count. *)
Definition uptimeString (uptime : Z) : string :=
  let uptimeSeconds := uptime / 100 in
  let days := uptimeSeconds / (24 * 3600) in
  let uptimeSeconds := uptimeSeconds mod (24 * 3600) in
  let hours := uptimeSeconds / 3600 in
  let uptimeSeconds := uptimeSeconds mod 3600 in
  let minutes := uptimeSeconds / 60 in
  let seconds := uptimeSeconds mod 60 in
  "Uptime: " +:+ itoa days +:+ " days, " +:+ itoa02 hours +:+ " hours, " +:+
  itoa02 minutes +:+ " minutes, " +:+ itoa02 seconds +:+ " seconds".

(** ** part_003: the request constants, [ValidateRequest], [Discovery]

    The file holds two revisions of the package; this is the first one
    (lines 282 to 447), whose names the pollers of part_004 and part_005
    use. *)
Module Part003.

Definition IP := "ip".
Definition PluginType := "pluginType".
Definition RequestID := "requestId".
Definition Community := "community".
Definition Version := "version".
Definition Status := "status".
Definition Data := "data".
Definition SystemName := "systemName".
Definition SNMPPlugin := "snmp".
Definition Fail := "fail".
Definition Success := "success".
Definition UnsupportedPlugin := "unsupported plugin type".
Definition UnsupportedSNMP := "unsupported SNMP version".
Definition SNMPConnectFail := "SNMP connection failed".
Definition SNMPGetFail := "SNMP get request failed".
Definition SystemNameNotFound := "system name not found".
Definition SysemNameOid := "1.3.6.1.2.1.1.5.0".
Definition Errors := "error".
Definition Port := "port".
(** Declared by the second revision of the constants in the same file
    (line 469). *)
Definition FieldMissing := "field missing".

(** The loop of [ValidateRequest] over the required fields; the request
    map is updated in place, so it is returned with the verdict. *)
Fixpoint validateFields (requiredFields : list string)
    (reqData : gmap string GoValue) : bool * gmap string GoValue :=
  match requiredFields with
  | [] => (true, reqData)
  | field :: rest =>
      match reqData !! field with
      | None => (false, reqData)
      | Some value =>
          if String.eqb field Port then
            validateFields rest
              (match value with
               | VFloat64 v => <[field := VInt (toInt v)]> reqData
               | _ => reqData
               end)
          else
            match value with
            | VString Value =>
                if String.eqb (TrimSpace Value) EmptyString then (false, reqData)
                else validateFields rest reqData
            | _ => (false, reqData)
            end
      end
  end.

Definition ValidateRequest (reqData : gmap string GoValue)
    : bool * gmap string GoValue :=
  validateFields [IP; PluginType; RequestID; Port] reqData.

Definition failWith (err : string) (reqData : gmap string GoValue)
    : gmap string GoValue :=
  <[Status := VString Fail]> (<[Errors := VString err]> reqData).

(** The loop of [Discovery] over [result.Variables]. *)
Fixpoint firstOctetString (variables : list gosnmp.SnmpPDU)
    : Go (option string) :=
  match variables with
  | [] => mret None
  | variable :: rest =>
      match gosnmp.Type_ variable with
      | gosnmp.OctetString =>
          match gosnmp.Value variable with
          | gosnmp.DBytes b => mret (Some b)
          | _ => panic TypeAssertion
          end
      | _ => firstOctetString rest
      end
  end.

Definition Discovery (d : gosnmp.Device) (reqData : gmap string GoValue)
    : Go (gmap string GoValue) :=
  if negb (eqString (valueAt reqData PluginType) SNMPPlugin) then
    emit (Logged UnsupportedPlugin);;
    mret (failWith UnsupportedPlugin reqData)
  else
    target ← mustString (valueAt reqData IP);
    port ← mustFloat64 (valueAt reqData Port);
    community ← mustString (valueAt reqData Community);
    version ← mustString (valueAt reqData Version);
    match switchVersion version with
    | None =>
        emit (Logged UnsupportedSNMP);;
        mret (failWith UnsupportedSNMP reqData)
    | Some v =>
        let snmp := {| gosnmp.Target := target;
                       gosnmp.Port := toUint16 port;
                       gosnmp.Community := community;
                       gosnmp.Version := v;
                       gosnmp.Timeout := 500;
                       gosnmp.Retries := 0 |} in
        ip ← mustString (valueAt reqData IP);
        emit (Logged ("Connecting to SNMP device at " +:+ ip));;
        emit (Connected snmp);;
        match gosnmp.Connect d snmp with
        | Some _ =>
            emit (Logged SNMPConnectFail);;
            mret (failWith SNMPConnectFail reqData)
        | None =>
            deferClose (
              let oid := SysemNameOid in
              emit (Logged ("Performing SNMP GET request on " +:+ oid));;
              emit (Got snmp [oid]);;
              match gosnmp.Get d snmp [oid] with
              | inl _ => mret (failWith SNMPGetFail reqData)
              | inr variables =>
                  name ← firstOctetString variables;
                  match name with
                  | Some name =>
                      mret (<[Status := VString Success]>
                             (<[Data := VMap {[SystemName := VString name]}]>
                                reqData))
                  | None =>
                      emit (Logged SystemNameNotFound);;
                      mret (failWith SystemNameNotFound reqData)
                  end
              end)
        end
    end.

End Part003.

(** ** part_004: the walk-driven poller *)
Module Part004.
Import Part003.

Definition systemName := "system.name".
Definition systemDescription := "system.description".
Definition systemLocation := "system.location".
Definition systemObjectID := "system.objectId".
Definition systemUptime := "system.uptime".
Definition systemInterfaces := "system.interfaces".
Definition interfaces := "interfaces".
Definition Interface_Error := "interfaces.error".
Definition Index := "index".
Definition physicalAddress := "interface.physical.address".
Definition Message := "message".
Definition OID_NOT_FOUND := "no OIDs found in util.SNMPOids".
Definition Nil := "nil".

(** The value [fetchSNMPSystemData] stores for one variable. *)
Definition systemValue (v : gosnmp.Decoded) : GoValue :=
  match v with
  | gosnmp.DNil => VString Nil
  | gosnmp.DBytes bytes => VString bytes
  | _ => gosnmp.toInterface v
  end.

(** [for i, variable := range result.Variables] of
    [fetchSNMPSystemData], from position [i] on. *)
Fixpoint storeSystem (oidArray : list string)
    (variables : list gosnmp.SnmpPDU) (i : nat)
    (snmpData : gmap string GoValue) : Go (gmap string GoValue) :=
  match variables with
  | [] => mret snmpData
  | variable :: rest =>
      let value := systemValue (gosnmp.Value variable) in
      oid ← at_ oidArray i;
      storeSystem oidArray rest (S i)
        (<[field util.SNMPOids oid := value]> snmpData)
  end.

Definition fetchSNMPSystemData (order : list string) (d : gosnmp.Device)
    (g : gosnmp.GoSNMP) : Go (string + gmap string GoValue) :=
  let oidArray := order in
  if (length oidArray =? 0)%nat then mret (inl OID_NOT_FOUND)
  else
    emit (Got g oidArray);;
    match gosnmp.Get d g oidArray with
    | inl err => mret (inl err)
    | inr variables =>
        snmpData ← storeSystem oidArray variables 0 ∅;
        mret (inr snmpData)
    end.

(** The callback [getInterfaceIndexes] gives to [g.Walk], applied to the
    bindings of the walk in turn; it stops at its first error. *)
Fixpoint walkFn (pdus : list gosnmp.SnmpPDU) (indexes : list Z)
    : list Z * option string :=
  match pdus with
  | [] => (indexes, None)
  | pdu :: rest =>
      let oidParts := Split (gosnmp.Name pdu) in
      if (length oidParts =? 0)%nat
      then (indexes, Some ("invalid OID: " +:+ gosnmp.Name pdu))
      else
        let oidSuffix := lastPart oidParts in
        match Atoi oidSuffix with
        | (_, Some err) =>
            (indexes, Some ("failed to parse index: " +:+ err))
        | (index, None) => walkFn rest (indexes ++ [index])
        end
  end.

Definition targetOID := ".1.3.6.1.2.1.31.1.1.1.1".

Definition getInterfaceIndexes (d : gosnmp.Device) (g : gosnmp.GoSNMP)
    : Go (string + list Z) :=
  emit (Walked g targetOID);;
  let '(pdus, walkErr) := gosnmp.Walk d g targetOID in
  let '(indexes, fnErr) := walkFn pdus [] in
  match (match fnErr with Some e => Some e | None => walkErr end) with
  | Some err => mret (inl ("SNMP walk failed: " +:+ err))
  | None => mret (inr indexes)
  end.

(** The text stored for a physical address. *)
Definition formatMac (bytes : string) : string :=
  let mac := EncodeToString bytes in
  let formattedMac := ToUpper mac in
  if (12 <=? String.length formattedMac)%nat then
    slice formattedMac 0 2 +:+ ":" +:+ slice formattedMac 2 4 +:+ ":" +:+
    slice formattedMac 4 6 +:+ ":" +:+ slice formattedMac 6 8 +:+ ":" +:+
    slice formattedMac 8 10 +:+ ":" +:+ slice formattedMac 10 12
  else formattedMac.

(** The value [getInterface] stores under [field] for a non-nil
    variable. *)
Definition interfaceValue (field : string) (v : gosnmp.Decoded) : GoValue :=
  match v with
  | gosnmp.DBytes bytes =>
      if String.eqb field physicalAddress then VString (formatMac bytes)
      else VString bytes
  | _ => gosnmp.toInterface v
  end.

(** [for k, variable := range result.Variables] of [getInterface], from
    position [k] on. *)
Fixpoint storeInterface (fields : list string)
    (variables : list gosnmp.SnmpPDU) (k : nat)
    (interfaceData : gmap string GoValue) : Go (gmap string GoValue) :=
  match variables with
  | [] => mret interfaceData
  | variable :: rest =>
      match gosnmp.Value variable with
      | gosnmp.DNil => storeInterface fields rest (S k) interfaceData
      | v =>
          field ← at_ fields k;
          storeInterface fields rest (S k)
            (<[field := interfaceValue field v]> interfaceData)
      end
  end.

(** The OIDs [getInterface] asks for, in the order of its [range]. *)
Definition interfaceOids (order : list string) (index : Z) : list string :=
  (fun oid => oid +:+ "." +:+ itoa index) <$> order.

Definition getInterface (order : list string) (d : gosnmp.Device)
    (index : Z) (g : gosnmp.GoSNMP)
    : Go (gmap string GoValue * option string) :=
  let interfaceData : gmap string GoValue := {[Index := VString (itoa index)]} in
  let oids := interfaceOids order index in
  let fields := field util.InterfaceOids <$> order in
  emit (Got g oids);;
  match gosnmp.Get d g oids with
  | inl err =>
      mret (<[Interface_Error := VString ("SNMP get failed: " +:+ err)]>
              interfaceData, Some err)
  | inr variables =>
      interfaceData ← storeInterface fields variables 0 interfaceData;
      mret (interfaceData, None)
  end.

(** [for _, index := range indexes] of [getInterfaces]. *)
Fixpoint collect (rt : Runtime) (d : gosnmp.Device) (g : gosnmp.GoSNMP)
    (indexes : list Z) (interfacesData : list (gmap string GoValue))
    : Go (list (gmap string GoValue)) :=
  match indexes with
  | [] => mret interfacesData
  | index :: rest =>
      r ← getInterface (rangeInterfaceOids rt index) d index g;
      match r.2 with
      | Some err =>
          emit (Logged ("Error fetching interface " +:+ itoa index +:+ ": "
                        +:+ err +:+ " (continuing)"));;
          collect rt d g rest interfacesData
      | None => collect rt d g rest (interfacesData ++ [r.1])
      end
  end.

Definition getInterfaces (rt : Runtime) (d : gosnmp.Device)
    (g : gosnmp.GoSNMP) (indexes : list Z)
    : Go (list (gmap string GoValue) * option string) :=
  interfacesData ← collect rt d g indexes [];
  mret (interfacesData, None).

Definition FetchSNMPData (rt : Runtime) (d : gosnmp.Device)
    (reqData : gmap string GoValue) : Go (gmap string GoValue) :=
  let '(valid, reqData) := ValidateRequest reqData in
  if negb valid then
    mret (<[Status := VString Fail]> (<[Errors := VString FieldMissing]> reqData))
  else
    ip ← mustString (valueAt reqData IP);
    community ← mustString (valueAt reqData Community);
    version ← mustString (valueAt reqData Version);
    match switchVersion version with
    | None =>
        mret (<[Status := VString Fail]>
               (<[Errors := VString UnsupportedSNMP]> reqData))
    | Some v =>
        let g := {| gosnmp.Target := ip;
                    gosnmp.Port := 161;
                    gosnmp.Community := community;
                    gosnmp.Version := v;
                    gosnmp.Timeout := 500;
                    gosnmp.Retries := 1 |} in
        emit (Connected g);;
        match gosnmp.Connect d g with
        | Some err =>
            mret (<[Status := VString Fail]>
                   (<[Data := VMap (<[Message := VString err]>
                                     {[Errors := VString SNMPConnectFail]})]>
                      reqData))
        | None =>
            deferClose (
              systemData ← fetchSNMPSystemData (rangeSNMPOids rt) d g;
              match systemData with
              | inl err =>
                  mret (<[Status := VString Success]>
                         (<[Data := VMap (<[Message := VString err]>
                                           {[Errors := VString SNMPConnectFail]})]>
                            reqData))
              | inr systemData =>
                  let data : gmap string GoValue :=
                    <[systemObjectID := valueAt systemData systemObjectID]>
                    (<[systemLocation := valueAt systemData systemLocation]>
                    (<[systemDescription := valueAt systemData systemDescription]>
                    {[systemName := valueAt systemData systemName]})) in
                  let data :=
                    match valueAt systemData systemUptime with
                    | VUint32 uptime =>
                        <[systemUptime := VString (uptimeString uptime)]> data
                    | _ => data
                    end in
                  indexes ← getInterfaceIndexes d g;
                  data ←
                    match indexes with
                    | inl err =>
                        mret (<[systemInterfaces := VInt 0]>
                               (<[Interface_Error :=
                                    VString ("Error fetching interface indexes: "
                                             +:+ err)]> data))
                    | inr indexes =>
                        let data :=
                          <[systemInterfaces := VInt (Z.of_nat (length indexes))]>
                            data in
                        r ← getInterfaces rt d g indexes;
                        match r.2 with
                        | Some err =>
                            mret (<[Interface_Error :=
                                      VString ("Error fetching interface data: "
                                               +:+ err)]> data)
                        | None =>
                            mret (<[interfaces := VList (VMap <$> r.1)]> data)
                        end
                    end;
                  mret (<[Status := VString Success]> (<[Data := VMap data]> reqData))
              end)
        end
    end.

End Part004.

(** [for i := 1; i <= n; i++]: the values [i] takes. *)
Definition upTo (n : Z) : list Z := Z.of_nat <$> seq 1 (Z.to_nat n).

(** ** part_005: the count-driven poller *)
Module Part005.
Import Part003.

Definition systemName := "system.name".
Definition systemDescription := "system.description".
Definition systemLocation := "system.location".
Definition systemObjectID := "system.objectId".
Definition systemUptime := "system.uptime".
Definition systemInterfaces := "system.interfaces".
Definition interfaces := "interfaces".
Definition Interface_Error := "interfaces.error".
Definition index := "index".
Definition physicalAddress := "interface.physical.address".
Definition Message := "message".
Definition OID_NOT_FOUND := "no OIDs found in util.SNMPOids".
Definition Nil := "nil".

Definition systemValue (v : gosnmp.Decoded) : GoValue :=
  match v with
  | gosnmp.DNil => VString Nil
  | gosnmp.DBytes bytes => VString bytes
  | _ => gosnmp.toInterface v
  end.

Fixpoint storeSystem (oidArray : list string)
    (variables : list gosnmp.SnmpPDU) (i : nat)
    (snmpData : gmap string GoValue) : Go (gmap string GoValue) :=
  match variables with
  | [] => mret snmpData
  | variable :: rest =>
      let valueStr := systemValue (gosnmp.Value variable) in
      oidKey ← at_ oidArray i;
      storeSystem oidArray rest (S i)
        (<[field util.SNMPOids oidKey := valueStr]> snmpData)
  end.

Definition fetchSNMPSystemData (order : list string) (d : gosnmp.Device)
    (g : gosnmp.GoSNMP) : Go (string + gmap string GoValue) :=
  let oidArray := order in
  if (length oidArray =? 0)%nat then mret (inl OID_NOT_FOUND)
  else
    emit (Got g oidArray);;
    match gosnmp.Get d g oidArray with
    | inl err => mret (inl err)
    | inr variables =>
        snmpData ← storeSystem oidArray variables 0 ∅;
        mret (inr snmpData)
    end.

(** [for i := 0; i < len(mac); i += 2] of [getInterface]; [mac] is the
    output of [hex.EncodeToString] and has an even length. *)
Fixpoint spacedPairs (mac : string) : string :=
  match mac with
  | String a (String b r) =>
      ToUpper (String a (String b EmptyString)) +:+ " " +:+ spacedPairs r
  | _ => EmptyString
  end.

Definition interfaceValue (field : string) (v : gosnmp.Decoded) : GoValue :=
  match v with
  | gosnmp.DBytes bytes =>
      if String.eqb field physicalAddress
      then VString (TrimSpace (spacedPairs (EncodeToString bytes)))
      else VString bytes
  | _ => gosnmp.toInterface v
  end.

Fixpoint storeInterface (fields : list string)
    (variables : list gosnmp.SnmpPDU) (k : nat)
    (interfaceData : gmap string GoValue) : Go (gmap string GoValue) :=
  match variables with
  | [] => mret interfaceData
  | variable :: rest =>
      match gosnmp.Value variable with
      | gosnmp.DNil => storeInterface fields rest (S k) interfaceData
      | v =>
          field ← at_ fields k;
          storeInterface fields rest (S k)
            (<[field := interfaceValue field v]> interfaceData)
      end
  end.

Definition interfaceOids (order : list string) (i : Z) : list string :=
  (fun oid => oid +:+ "." +:+ itoa i) <$> order.

Definition getInterface (order : list string) (d : gosnmp.Device)
    (i : Z) (g : gosnmp.GoSNMP)
    : Go (gmap string GoValue * option string) :=
  let interfaceData : gmap string GoValue := {[index := VString (itoa i)]} in
  let oids := interfaceOids order i in
  let fields := field util.InterfaceOids <$> order in
  emit (Got g oids);;
  match gosnmp.Get d g oids with
  | inl err =>
      emit (Logged ("Failed to fetch data for interface " +:+ itoa i +:+ ": "
                    +:+ err));;
      mret (<[Interface_Error := VString ("Failed to fetch data: " +:+ err)]>
              interfaceData, Some err)
  | inr variables =>
      interfaceData ← storeInterface fields variables 0 interfaceData;
      mret (interfaceData, None)
  end.

(** The loop of [getInterfaces] over the values [ivals] of [i]: it returns
    at the first error. *)
Fixpoint collect (rt : Runtime) (d : gosnmp.Device) (g : gosnmp.GoSNMP)
    (ivals : list Z) (interfacesData : list (gmap string GoValue))
    : Go (option (list (gmap string GoValue)) * option string) :=
  match ivals with
  | [] => mret (Some interfacesData, None)
  | i :: rest =>
      r ← getInterface (rangeInterfaceOids rt i) d i g;
      match r.2 with
      | Some err => mret (None, Some err)
      | None => collect rt d g rest (interfacesData ++ [r.1])
      end
  end.

Definition getInterfaces (rt : Runtime) (d : gosnmp.Device)
    (g : gosnmp.GoSNMP) (numInterfaces : Z)
    : Go (option (list (gmap string GoValue)) * option string) :=
  makeslice 8 numInterfaces;;
  collect rt d g (upTo numInterfaces) [].

Definition FetchSNMPData (rt : Runtime) (d : gosnmp.Device)
    (reqData : gmap string GoValue) : Go (gmap string GoValue) :=
  let '(valid, reqData) := ValidateRequest reqData in
  if valid then
    mret (<[Status := VString Fail]> (<[Errors := VString FieldMissing]> reqData))
  else
    let ip := valueAt reqData IP in
    let community := valueAt reqData Community in
    let version := valueAt reqData Version in
    target ← mustString ip;
    community ← mustString community;
    match from_option switchVersion None (asString version) with
    | None =>
        mret (<[Status := VString Fail]>
               (<[Errors := VString UnsupportedSNMP]> reqData))
    | Some v =>
        let g := {| gosnmp.Target := target;
                    gosnmp.Port := 161;
                    gosnmp.Community := community;
                    gosnmp.Version := v;
                    gosnmp.Timeout := 500;
                    gosnmp.Retries := 0 |} in
        emit (Connected g);;
        match gosnmp.Connect d g with
        | Some err =>
            mret (<[Status := VString Fail]>
                   (<[Data := VMap (<[Message := VString err]>
                                     {[Errors := VString SNMPConnectFail]})]>
                      reqData))
        | None =>
            deferClose (
              systemData ← fetchSNMPSystemData (rangeSNMPOids rt) d g;
              match systemData with
              | inl err =>
                  mret (<[Status := VString Success]>
                         (<[Data := VMap (<[Message := VString err]>
                                           {[Errors := VString SNMPConnectFail]})]>
                            reqData))
              | inr systemData =>
                  let numberOfInterface :=
                    match valueAt systemData systemInterfaces with
                    | VInt n => n
                    | _ => 0
                    end in
                  let data : gmap string GoValue :=
                    <[systemObjectID := valueAt systemData systemObjectID]>
                    (<[systemLocation := valueAt systemData systemLocation]>
                    (<[systemDescription := valueAt systemData systemDescription]>
                    {[systemName := valueAt systemData systemName]})) in
                  uptime ←
                    match valueAt systemData systemUptime with
                    | VUint32 uptime => mret uptime
                    | _ => panic TypeAssertion
                    end;
                  let uptimeString := uptimeString uptime in
                  let data := <[systemUptime := VString uptimeString]> data in
                  let data :=
                    <[systemInterfaces := valueAt systemData systemInterfaces]>
                      data in
                  data ←
                    (if 0 <? numberOfInterface then
                       r ← getInterfaces rt d g numberOfInterface;
                       match r with
                       | (_, Some err) =>
                           mret (<[Interface_Error :=
                                     VString ("Error fetching interface data: "
                                              +:+ err)]> data)
                       | (interfacesData, None) =>
                           mret (<[interfaces :=
                                     VList (VMap <$> default [] interfacesData)]>
                                   data)
                       end
                     else mret (<[interfaces := VList []]> data));
                  mret (<[Status := VString Success]> (<[Data := VMap data]> reqData))
              end)
        end
    end.

End Part005.

(** ** src/src/plugin/snmp/polling.go: the poller on three strings

    [fetchSNMPSystemData], [getInterface] and [getInterfaces] of the file
    have the statements of the functions of part_005 with these names, which
    are used for them.  [FetchSNMPData] registers the deferred close at line
    55, before the session is connected (line 57): the connection of the
    session is still the nil interface there. *)
Module Polling.

Definition systemName := "system.name".
Definition systemDescription := "system.description".
Definition systemLocation := "system.location".
Definition systemObjectID := "system.objectId".
Definition systemUptime := "system.uptime".
Definition systemInterfaces := "system.interfaces".
Definition interfaces := "interfaces".
Definition Error := "interfaces.error".

Definition FetchSNMPData (rt : Runtime)
    (d : gosnmp.Device) (ip community version : string)
    : Go (gmap string GoValue) :=
  v ← match switchVersion version with
      | Some v => mret v
      | None =>
          emit (Logged ("Unsupported SNMP version: " +:+ version +:+
                        ". Defaulting to Version2c"));;
          mret gosnmp.Version2c
      end;
  let g := {| gosnmp.Target := ip;
              gosnmp.Port := 161;
              gosnmp.Community := community;
              gosnmp.Version := v;
              gosnmp.Timeout := 2000;
              gosnmp.Retries := 2 |} in
  let connected := false in
  deferCloseOf connected (
    emit (Connected g);;
    match gosnmp.Connect d g with
    | Some err =>
        mret {["error" := VString ("Error connecting to SNMP target: " +:+ err)]}
    | None =>
        systemData ← Part005.fetchSNMPSystemData (rangeSNMPOids rt) d g;
        match systemData with
        | inl err =>
            mret {["error" :=
                     VString ("Error fetching SNMP system data: " +:+ err)]}
        | inr systemData =>
            let numberOfInterface :=
              match valueAt systemData systemInterfaces with
              | VInt n => n
              | _ => 0
              end in
            let data : gmap string GoValue :=
              <[systemObjectID := valueAt systemData systemObjectID]>
              (<[systemLocation := valueAt systemData systemLocation]>
              (<[systemDescription := valueAt systemData systemDescription]>
              {[systemName := valueAt systemData systemName]})) in
            uptimeCentiseconds ←
              match valueAt systemData systemUptime with
              | VUint32 uptime => mret uptime
              | _ => panic TypeAssertion
              end;
            let uptimeString := uptimeString uptimeCentiseconds in
            let data := <[systemUptime := VString uptimeString]> data in
            let data :=
              <[systemInterfaces := valueAt systemData systemInterfaces]> data in
            if 0 <? numberOfInterface then
              r ← Part005.getInterfaces rt d g numberOfInterface;
              match r with
              | (_, Some err) =>
                  mret (<[Error := VString ("Error fetching interface data: "
                                            +:+ err)]> data)
              | (interfacesData, None) =>
                  mret (<[interfaces := VList (VMap <$> default [] interfacesData)]>
                          data)
              end
            else mret (<[interfaces := VList []]> data)
        end
    end).

End Polling.

(** ** src/src/plugin/snmp/discovery.go *)
Module Plugin.

(** The loop of [Discovery] over [result.Variables]. *)
Fixpoint firstOctetString (variables : list gosnmp.SnmpPDU)
    : Go (option string) :=
  match variables with
  | [] => mret None
  | variable :: rest =>
      match gosnmp.Type_ variable with
      | gosnmp.OctetString =>
          match gosnmp.Value variable with
          | gosnmp.DBytes b => mret (Some b)
          | _ => panic TypeAssertion
          end
      | _ => firstOctetString rest
      end
  end.

Definition failed : gmap string GoValue :=
  <["systemName" := VString EmptyString]> {["status" := VString "fail"]}.

Definition Discovery (d : gosnmp.Device) (ip community version : string)
    : Go (gmap string GoValue) :=
  v ← match switchVersion version with
      | Some v => mret v
      | None =>
          emit (Logged ("Unsupported SNMP version: " +:+ version +:+
                        ". Defaulting to Version2c"));;
          mret gosnmp.Version2c
      end;
  let snmp := {| gosnmp.Target := ip;
                 gosnmp.Port := 161;
                 gosnmp.Community := community;
                 gosnmp.Version := v;
                 gosnmp.Timeout := 2000;
                 gosnmp.Retries := 3 |} in
  emit (Connected snmp);;
  match gosnmp.Connect d snmp with
  | Some _ => mret failed
  | None =>
      deferClose (
        let oid := "1.3.6.1.2.1.1.5.0" in
        emit (Got snmp [oid]);;
        match gosnmp.Get d snmp [oid] with
        | inl _ => mret failed
        | inr variables =>
            name ← firstOctetString variables;
            match name with
            | Some name =>
                mret (<["systemName" := VString name]>
                        {["status" := VString "success"]})
            | None => mret failed
            end
        end)
  end.

End Plugin.

(** ** src/snmp/snmpfetcher.go: the first poller *)
Module Snmpfetcher.

(** The text [FetchSNMPSystemData] stores for one variable; the last two
    cases are the [default:] of its type switch. *)
Definition systemValue (v : gosnmp.Decoded) : string :=
  match v with
  | gosnmp.DNil => "nil"
  | gosnmp.DString v => v
  | gosnmp.DInt v => itoa v
  | gosnmp.DUint v => itoa v
  | gosnmp.DBytes v => v
  | gosnmp.DUint32 v => itoa v
  | gosnmp.DUint64 v => itoa v
  end.

Fixpoint storeSystem (oidArray : list string)
    (variables : list gosnmp.SnmpPDU) (i : nat)
    (snmpData : gmap string string) : Go (gmap string string) :=
  match variables with
  | [] => mret snmpData
  | variable :: rest =>
      let valueStr := systemValue (gosnmp.Value variable) in
      oidKey ← at_ oidArray i;
      storeSystem oidArray rest (S i)
        (<[field config.SNMPOids oidKey := valueStr]> snmpData)
  end.

Definition FetchSNMPSystemData (order : list string) (d : gosnmp.Device)
    (g : gosnmp.GoSNMP) : Go (string + gmap string string) :=
  let oidArray := order in
  if (length oidArray =? 0)%nat then mret (inl "no OIDs found in config.SNMPOids")
  else
    emit (Got g oidArray);;
    match gosnmp.Get d g oidArray with
    | inl err => mret (inl err)
    | inr variables =>
        snmpData ← storeSystem oidArray variables 0 ∅;
        mret (inr snmpData)
    end.

(** The text [getInterface] stores under [field] for a non-nil
    variable. *)
Definition interfaceValue (field : string) (v : gosnmp.Decoded) : string :=
  match v with
  | gosnmp.DBytes v =>
      if String.eqb field "PhysicalAddress" then EncodeToString v else v
  | gosnmp.DString v => v
  | gosnmp.DInt v => itoa v
  | gosnmp.DUint v => itoa v
  | gosnmp.DUint32 v => itoa v
  | gosnmp.DUint64 v => itoa v
  | gosnmp.DNil => "<nil>"
  end.

Fixpoint storeInterface (fields : list string)
    (variables : list gosnmp.SnmpPDU) (k : nat)
    (interfaceData : gmap string string) : Go (gmap string string) :=
  match variables with
  | [] => mret interfaceData
  | variable :: rest =>
      match gosnmp.Value variable with
      | gosnmp.DNil => storeInterface fields rest (S k) interfaceData
      | v =>
          field ← at_ fields k;
          storeInterface fields rest (S k)
            (<[field := interfaceValue field v]> interfaceData)
      end
  end.

Definition interfaceOids (order : list string) (i : Z) : list string :=
  (fun oid => oid +:+ "." +:+ itoa i) <$> order.

(** One goroutine [getInterface(i, g, &interfacesData, wg)]: the map it
    appends to the shared slice. *)
Definition getInterface (order : list string) (d : gosnmp.Device)
    (i : Z) (g : gosnmp.GoSNMP) : Go (gmap string string) :=
  let interfaceData : gmap string string := {["Index" := itoa i]} in
  let oids := interfaceOids order i in
  let fields := field config.InterfaceOids <$> order in
  emit (Got g oids);;
  match gosnmp.Get d g oids with
  | inl err =>
      emit (Logged ("Failed  to fetch data for interface : " +:+ err));;
      mret (<["Error" := "Failed to fetch data : " +:+ err]> interfaceData)
  | inr variables => storeInterface fields variables 0 interfaceData
  end.

(** [GetInterfaces] starts one goroutine for each [i] from 1 to
    [numInterfaces] and waits for all of them.  [mutexForSnmp] and
    [mutexForData] make each [g.Get] and each [append] atomic, so a run is
    described by the order in which the goroutines append, which the run
    time chooses; the slice is built in that order.  [appendAll] runs the
    goroutines [done] in the order they complete. *)
Fixpoint appendAll (rt : Runtime) (d : gosnmp.Device) (g : gosnmp.GoSNMP)
    (done : list Z) (interfacesData : list (gmap string string))
    : Go (list (gmap string string)) :=
  match done with
  | [] => mret interfacesData
  | i :: rest =>
      interfaceData ← getInterface (rangeInterfaceOids rt i) d i g;
      appendAll rt d g rest (interfacesData ++ [interfaceData])
  end.

Definition GetInterfaces (rt : Runtime) (d : gosnmp.Device)
    (g : gosnmp.GoSNMP) (numInterfaces : Z)
    : Go (list (gmap string string) * option string) :=
  makeslice 8 numInterfaces;;
  interfacesData ← appendAll rt d g (completion rt (upTo numInterfaces)) [];
  mret (interfacesData, None).

Definition FetchSNMPData (rt : Runtime)
    (d : gosnmp.Device) (ip community version : string)
    : Go (gmap string GoValue) :=
  v ← match switchVersion version with
      | Some v => mret v
      | None =>
          emit (Logged ("Unsupported SNMP version: " +:+ version +:+
                        ". Defaulting to Version2c"));;
          mret gosnmp.Version2c
      end;
  let g := {| gosnmp.Target := ip;
              gosnmp.Port := 161;
              gosnmp.Community := community;
              gosnmp.Version := v;
              gosnmp.Timeout := 2000;
              gosnmp.Retries := 2 |} in
  emit (Connected g);;
  match gosnmp.Connect d g with
  | Some err =>
      mret {["error" := VString ("Error connecting to SNMP target: " +:+ err)]}
  | None =>
      deferClose (
        systemData ← FetchSNMPSystemData (rangeSNMPOids rt) d g;
        match systemData with
        | inl err =>
            mret {["error" :=
                     VString ("Error fetching SNMP system data: " +:+ err)]}
        | inr systemData =>
            let str := field systemData "system.interfaces" in
            let '(numberOfInterface, err) := Atoi str in
            match err with
            | Some err => emit (Logged ("Error converting string to int: " +:+ err))
            | None => mret tt
            end;;
            let data : gmap string GoValue :=
              <["system.interfaces" := VString (field systemData "system.interfaces")]>
              (<["system.uptime" := VString (field systemData "system.uptime")]>
              (<["system.objectId" := VString (field systemData "system.objectId")]>
              (<["system.location" := VString (field systemData "system.location")]>
              (<["system.description" := VString (field systemData "system.description")]>
              {["system.name" := VString (field systemData "system.name")]})))) in
            if 0 <? numberOfInterface then
              r ← GetInterfaces rt d g numberOfInterface;
              match r.2 with
              | Some err =>
                  mret (<["interfaces.error" :=
                            VString ("Error fetching interface data: " +:+ err)]>
                          data)
              | None =>
                  mret (<["interfaces" :=
                            VList ((fun m => VMap (VString <$> m)) <$> r.1)]> data)
              end
            else mret (<["interfaces" := VList []]> data)
        end)
  end.

End Snmpfetcher.

(** ** src/handler/zmq.go: the worker *)
Module Handler.

Definition errorKey := "error".
Definition detailKey := "details".
Definition ipKey := "ip".
Definition communityKey := "community".
Definition versionKey := "version".
Definition ErrorMissingField := "Missing or null field".

(** The loop of [validateRequest] over the required fields. *)
Fixpoint checkFields (fields : list string) (reqData : gmap string string)
    (values missingFields : gmap string string)
    : gmap string string * gmap string string :=
  match fields with
  | [] => (values, missingFields)
  | field :: rest =>
      match reqData !! field with
      | Some value =>
          if String.eqb value EmptyString
          then checkFields rest reqData values
                 (<[field := ErrorMissingField]> missingFields)
          else checkFields rest reqData (<[field := value]> values) missingFields
      | None =>
          checkFields rest reqData values
            (<[field := ErrorMissingField]> missingFields)
      end
  end.

Definition validateRequest (reqData : gmap string string)
    : gmap string string * gmap string string :=
  checkFields [ipKey; communityKey; versionKey] reqData ∅ ∅.

(** One turn of the loop of [startWorker] on a request that parsed as a
    JSON object: the reply that is marshalled and sent. *)
Definition serve (rt : Runtime) (d : gosnmp.Device)
    (reqData : gmap string string) : Go (gmap string GoValue) :=
  let '(_, missingFields) := validateRequest reqData in
  if (0 <? size missingFields)%nat then
    mret (<[detailKey := VMap (VString <$> missingFields)]>
            {[errorKey := VString ErrorMissingField]})
  else
    let ip := field reqData ipKey in
    let community := field reqData communityKey in
    let version := field reqData versionKey in
    Snmpfetcher.FetchSNMPData rt d ip community version.

End Handler.

(** ** part_003, lines 448 to 598: the second revision of the package

    [Discovery] checks the request with its own [ValidateRequest], and the
    request identifier is spelled "requestID". *)
Module Part003b.

Definition IP := "ip".
Definition PluginType := "pluginType".
Definition RequestID := "requestID".
Definition Community := "community".
Definition Version := "version".
Definition Status := "status".
Definition Data := "data".
Definition SystemName := "systemName".
Definition SNMPPlugin := "snmp".
Definition Fail := "fail".
Definition Success := "success".
Definition FieldMissing := "field missing".
Definition UnsupportedPlugin := "unsupported plugin type".
Definition UnsupportedSNMP := "unsupported SNMP version".
Definition SNMPConnectFail := "SNMP connection failed".
Definition SNMPGetFail := "SNMP get request failed".
Definition SystemNameNotFound := "system name not found".
Definition SysemNameOid := "1.3.6.1.2.1.1.5.0".
Definition Error_ := "error".

(** The loop of [ValidateRequest]: the value of [hasMissingFields] after
    the fields [fields]. *)
Fixpoint anyMissing (fields : list string) (reqData : gmap string GoValue)
    (hasMissingFields : bool) : bool :=
  match fields with
  | [] => hasMissingFields
  | field :: rest =>
      match reqData !! field with
      | Some value =>
          if eqString value EmptyString then anyMissing rest reqData true
          else anyMissing rest reqData hasMissingFields
      | None => anyMissing rest reqData true
      end
  end.

Definition ValidateRequest (reqData : gmap string GoValue) : bool :=
  negb (anyMissing [IP; PluginType; RequestID] reqData false).

Definition failWith (err : string) (reqData : gmap string GoValue)
    : gmap string GoValue :=
  <[Status := VString Fail]> (<[Error_ := VString err]> reqData).

Definition Discovery (d : gosnmp.Device) (reqData : gmap string GoValue)
    : Go (gmap string GoValue) :=
  if ValidateRequest reqData then mret (failWith FieldMissing reqData)
  else if negb (eqString (valueAt reqData PluginType) SNMPPlugin) then
    emit (Logged UnsupportedPlugin);;
    mret (failWith UnsupportedPlugin reqData)
  else
    ip ← mustString (valueAt reqData IP);
    community ← mustString (valueAt reqData Community);
    version ← mustString (valueAt reqData Version);
    match switchVersion version with
    | None =>
        emit (Logged UnsupportedSNMP);;
        mret (failWith UnsupportedSNMP reqData)
    | Some v =>
        let snmp := {| gosnmp.Target := ip;
                       gosnmp.Port := 161;
                       gosnmp.Community := community;
                       gosnmp.Version := v;
                       gosnmp.Timeout := 2000;
                       gosnmp.Retries := 3 |} in
        emit (Logged ("Connecting to SNMP device at " +:+ ip));;
        emit (Connected snmp);;
        match gosnmp.Connect d snmp with
        | Some _ =>
            emit (Logged SNMPConnectFail);;
            mret (failWith SNMPConnectFail reqData)
        | None =>
            deferClose (
              let oid := SysemNameOid in
              emit (Logged ("Performing SNMP GET request on " +:+ oid));;
              emit (Got snmp [oid]);;
              match gosnmp.Get d snmp [oid] with
              | inl _ =>
                  emit (Logged SNMPGetFail);;
                  mret (failWith SNMPGetFail reqData)
              | inr variables =>
                  name ← Part003.firstOctetString variables;
                  match name with
                  | Some name =>
                      mret (<[Status := VString Success]>
                             (<[Data := VMap {[SystemName := VString name]}]>
                                reqData))
                  | None =>
                      emit (Logged SystemNameNotFound);;
                      mret (failWith SystemNameNotFound reqData)
                  end
              end)
        end
    end.

End Part003b.

(** ** part_003, lines 1 to 281: the worker that reads the plug-in and the
    request type

    [serve] is one turn of the loop of [startWorker] on a request that
    parsed as a JSON object of strings: the reply that is marshalled and
    sent.  The lines the worker writes to its own logger are left out.  The
    package the worker imports has several revisions of the poller
    [FetchSNMPData(ip, community, version)]; the worker is given the one it
    calls. *)
Module Worker003.

Definition errorKey := "error".
Definition detailKey := "details".
Definition ipKey := "ip".
Definition communityKey := "community".
Definition versionKey := "version".
Definition errorMissingField := "Missing or null field".
Definition pluginTypeKey := "pluginType".
Definition requestTypeKey := "requestType".
Definition snmpKey := "snmp".
Definition discoveryKey := "discovery".
Definition pollingKey := "pollingKey".

(** The loop of [validateRequest] over the required fields. *)
Fixpoint checkFields (fields : list string) (reqData : gmap string string)
    (values missingFields : gmap string string)
    : gmap string string * gmap string string :=
  match fields with
  | [] => (values, missingFields)
  | field :: rest =>
      match reqData !! field with
      | Some value =>
          if String.eqb value EmptyString
          then checkFields rest reqData values
                 (<[field := errorMissingField]> missingFields)
          else checkFields rest reqData (<[field := value]> values) missingFields
      | None =>
          checkFields rest reqData values
            (<[field := errorMissingField]> missingFields)
      end
  end.

Definition validateRequest (reqData : gmap string string)
    : gmap string string * gmap string string :=
  checkFields [ipKey; communityKey; versionKey; pluginTypeKey; requestTypeKey]
    reqData ∅ ∅.

Definition notSupported (message : string) : gmap string GoValue :=
  <["message" := VString message]> {["status" := VString "fail"]}.

Definition serve
    (FetchSNMPData : string -> string -> string -> Go (gmap string GoValue))
    (d : gosnmp.Device) (reqData : gmap string string)
    : Go (gmap string GoValue) :=
  let '(_, missingFields) := validateRequest reqData in
  if (0 <? size missingFields)%nat then
    mret (<[detailKey := VMap (VString <$> missingFields)]>
            {[errorKey := VString errorMissingField]})
  else
    let ip := field reqData ipKey in
    let community := field reqData communityKey in
    let version := field reqData versionKey in
    let pluginType := field reqData pluginTypeKey in
    let requestType := field reqData requestTypeKey in
    if negb (String.eqb (ToLower pluginType) snmpKey) then
      mret (notSupported "System type not supported")
    else
      let requestType := ToLower requestType in
      if String.eqb requestType discoveryKey then
        Plugin.Discovery d ip community version
      else if String.eqb requestType pollingKey then
        FetchSNMPData ip community version
      else mret (notSupported "Request type not supported currently").

End Worker003.

(** ** src/src/server/server.go, lines 167 to 365: the worker on maps

    [serve] is one turn of the loop of [startWorker] on the message [req],
    given what [json.Unmarshal] made of it: the error [err], if any, and the
    map [reqData] it left.  A message that is not JSON leaves the map nil,
    which reads as the empty map; an error found while the members are
    stored (a number that no float64 holds) leaves the members stored.  The
    result is the reply that is sent: the text "ok", or a map that is
    marshalled.  The worker is given the [Discovery] and the [FetchSNMPData]
    of the package it imports. *)
Module Router.

Definition errors := "error".
Definition details := "details".
Definition invalidRequest := "Invalid request format".
Definition requestType := "requestType".
Definition discovery := "discovery".
Definition polling := "polling".
Definition requestID := "request_id".
Definition status := "status".
Definition fail := "fail".

Definition serve
    (Discovery FetchSNMPData : gmap string GoValue -> Go (gmap string GoValue))
    (req : string) (err : option string) (reqData : gmap string GoValue)
    : Go (string + gmap string GoValue) :=
  if String.eqb req "health_check" then mret (inl "ok")
  else
    match err with
    | Some err =>
        id ← mustString (valueAt reqData requestID);
        mret (inr (<[status := VString fail]>
                  (<[details := VString err]>
                  (<[errors := VString invalidRequest]>
                  {[requestID := VString id]}))))
    | None =>
        let requestType := valueAt reqData requestType in
        t ← mustString requestType;
        let t := ToLower t in
        if String.eqb t discovery then
          reqData ← Discovery reqData; mret (inr reqData)
        else if String.eqb t polling then
          reqData ← FetchSNMPData reqData; mret (inr reqData)
        else
          mret (inr (<[status := VString fail]>
                    (<[errors := VString "request type not supported"]>
                       reqData)))
    end.

End Router.

(** ** Sample devices and runs, for the concrete statements below *)
Module Lab.

Definition pdu (name : string) (ty : gosnmp.Asn1BER) (v : gosnmp.Decoded)
    : gosnmp.SnmpPDU :=
  {| gosnmp.Name := name; gosnmp.Type_ := ty; gosnmp.Value := v |}.

(** The binding an agent returns for one OID: the system scalars of a
    switch that has been up for 864005900 ticks and reports two
    interfaces; for a column of the interface table, the number of the
    row; [uptime] is what it returns for the up-time scalar. *)
Definition answer (uptime : gosnmp.SnmpPDU) (oid : string) : gosnmp.SnmpPDU :=
  if String.eqb oid "1.3.6.1.2.1.1.5.0"
  then pdu oid gosnmp.OctetString (gosnmp.DBytes "core-sw1")
  else if String.eqb oid "1.3.6.1.2.1.1.1.0"
  then pdu oid gosnmp.OctetString (gosnmp.DBytes "24-port switch")
  else if String.eqb oid "1.3.6.1.2.1.1.6.0"
  then pdu oid gosnmp.OctetString (gosnmp.DBytes "rack 4")
  else if String.eqb oid "1.3.6.1.2.1.1.2.0"
  then pdu oid gosnmp.ObjectIdentifier (gosnmp.DString ".1.3.6.1.4.1.9.1.1")
  else if String.eqb oid "1.3.6.1.2.1.1.3.0" then uptime
  else if String.eqb oid "1.3.6.1.2.1.2.1.0"
  then pdu oid gosnmp.Integer (gosnmp.DInt 2)
  else pdu oid gosnmp.Integer (gosnmp.DInt (Atoi (lastPart (Split oid))).1).

Definition ticks : gosnmp.SnmpPDU :=
  pdu "1.3.6.1.2.1.1.3.0" gosnmp.TimeTicks (gosnmp.DUint32 864005900).

(** The agent answers every request; a walk of the interface names
    returns the rows [rows]. *)
Definition agent (uptime : gosnmp.SnmpPDU) (rows : list Z) : gosnmp.Device :=
  {| gosnmp.Connect := fun _ => None;
     gosnmp.Get := fun _ oids => inr (answer uptime <$> oids);
     gosnmp.Walk := fun _ root =>
       ((fun i => pdu (root +:+ "." +:+ itoa i) gosnmp.OctetString
                    (gosnmp.DBytes ("port" +:+ itoa i))) <$> rows, None) |}.

(** The same agent, except that a request for a column of row [bad]
    times out. *)
Definition asksRow (bad : Z) (oids : list string) : bool :=
  existsb (fun oid => String.eqb (lastPart (Split oid)) (itoa bad)) oids.

Definition flaky (bad : Z) (rows : list Z) : gosnmp.Device :=
  {| gosnmp.Connect := fun _ => None;
     gosnmp.Get := fun _ oids =>
       if asksRow bad oids then inl "request timeout"
       else inr (answer ticks <$> oids);
     gosnmp.Walk := gosnmp.Walk (agent ticks rows) |}.

(** Nothing listens at the address. *)
Definition unreachable : gosnmp.Device :=
  {| gosnmp.Connect := fun _ => Some "dial udp: no route to host";
     gosnmp.Get := fun _ _ => inl "not connected";
     gosnmp.Walk := fun _ _ => ([], Some "not connected") |}.

(** The socket opens, and every request times out. *)
Definition silent : gosnmp.Device :=
  {| gosnmp.Connect := fun _ => None;
     gosnmp.Get := fun _ _ => inl "request timeout";
     gosnmp.Walk := fun _ _ => ([], Some "request timeout") |}.

Definition systemOrder : list string :=
  [ "1.3.6.1.2.1.1.3.0"; "1.3.6.1.2.1.1.5.0"; "1.3.6.1.2.1.2.1.0";
    "1.3.6.1.2.1.1.1.0"; "1.3.6.1.2.1.1.6.0"; "1.3.6.1.2.1.1.2.0" ].

Definition interfaceOrder : list string :=
  [ "1.3.6.1.2.1.2.2.1.8"; "1.3.6.1.2.1.2.2.1.1"; "1.3.6.1.2.1.31.1.1.1.1";
    "1.3.6.1.2.1.31.1.1.1.18"; "1.3.6.1.2.1.2.2.1.7"; "1.3.6.1.2.1.2.2.1.2";
    "1.3.6.1.2.1.2.2.1.20"; "1.3.6.1.2.1.2.2.1.14"; "1.3.6.1.2.1.2.2.1.16";
    "1.3.6.1.2.1.2.2.1.10"; "1.3.6.1.2.1.2.2.1.5"; "1.3.6.1.2.1.2.2.1.6";
    "1.3.6.1.2.1.2.2.1.13"; "1.3.6.1.2.1.2.2.1.11"; "1.3.6.1.2.1.2.2.1.17" ].

(** A run in which the goroutines complete in the order they were
    started, and one in which the last started completes first. *)
Definition inOrder : Runtime :=
  {| rangeSNMPOids := systemOrder;
     rangeInterfaceOids := fun _ => interfaceOrder;
     completion := fun started => started |}.

Definition lastFirst : Runtime :=
  {| rangeSNMPOids := systemOrder;
     rangeInterfaceOids := fun _ => interfaceOrder;
     completion := @rev Z |}.

(** The system scalars [fetchSNMPSystemData] of part_004 makes of the
    answers of the agent whose up-time is [ticks]. *)
Definition scalars : gmap string GoValue :=
  list_to_map [
    ("system.name", VString "core-sw1");
    ("system.description", VString "24-port switch");
    ("system.location", VString "rack 4");
    ("system.objectId", VString ".1.3.6.1.4.1.9.1.1");
    ("system.uptime", VUint32 864005900);
    ("system.interfaces", VInt 2) ].

(** An up-time scalar the agent does not have. *)
Definition noUptime : gosnmp.SnmpPDU :=
  pdu "1.3.6.1.2.1.1.3.0" gosnmp.NoSuchObject gosnmp.DNil.

(** A polling request as [encoding/json] decodes it. *)
Definition request (version : string) : gmap string GoValue :=
  list_to_map [
    ("requestId", VString "42"); ("requestType", VString "polling");
    ("pluginType", VString "snmp"); ("ip", VString "192.0.2.7");
    ("port", VFloat64 (161 # 1)); ("community", VString "public");
    ("version", VString version) ].

End Lab.

(** ** More sample devices and requests *)
Module Cases.

(** The agent of [Lab], except that the walk of the interface names times
    out before it returns a binding. *)
Definition noWalk : gosnmp.Device :=
  {| gosnmp.Connect := fun _ => None;
     gosnmp.Get := gosnmp.Get (Lab.agent Lab.ticks []);
     gosnmp.Walk := fun _ _ => ([], Some "request timeout") |}.

(** An agent whose walk returns a name that does not end in a number,
    between two that do. *)
Definition oddWalk : gosnmp.Device :=
  {| gosnmp.Connect := fun _ => None;
     gosnmp.Get := gosnmp.Get (Lab.agent Lab.ticks []);
     gosnmp.Walk := fun _ root =>
       ([Lab.pdu (root +:+ ".1") gosnmp.OctetString (gosnmp.DBytes "port1");
         Lab.pdu (root +:+ ".x") gosnmp.OctetString (gosnmp.DBytes "portx");
         Lab.pdu (root +:+ ".3") gosnmp.OctetString (gosnmp.DBytes "port3")],
        None) |}.

(** An agent that returns one binding more than it was asked for. *)
Definition chatty : gosnmp.Device :=
  {| gosnmp.Connect := fun _ => None;
     gosnmp.Get := fun _ oids =>
       inr ((Lab.answer Lab.ticks <$> oids) ++ [Lab.ticks]);
     gosnmp.Walk := fun _ _ => ([], None) |}.

(** An agent that reports no interface. *)
Definition bare : gosnmp.Device :=
  {| gosnmp.Connect := fun _ => None;
     gosnmp.Get := fun _ oids =>
       inr ((fun oid => Lab.pdu oid gosnmp.NoSuchObject gosnmp.DNil) <$> oids);
     gosnmp.Walk := fun _ _ => ([], None) |}.




(** A run in which the keys of the tables are listed in the opposite
    order. *)
Definition backwards : Runtime :=
  {| rangeSNMPOids := rev Lab.systemOrder;
     rangeInterfaceOids := fun _ => rev Lab.interfaceOrder;
     completion := fun started => started |}.

(** A request as the workers that decode to a map of strings see it. *)
Definition job (requestType : string) : gmap string string :=
  list_to_map [
    ("ip", "192.0.2.7"); ("community", "public"); ("version", "2c");
    ("pluginType", "SNMP"); ("requestType", requestType) ].

(** The session the first poller opens for the sample request. *)
Definition g2 : gosnmp.GoSNMP :=
  {| gosnmp.Target := "192.0.2.7"; gosnmp.Port := 161;
     gosnmp.Community := "public"; gosnmp.Version := gosnmp.Version2c;
     gosnmp.Timeout := 2000; gosnmp.Retries := 2 |}.

End Cases.

(** * Properties *)

(** ** Vocabulary *)

(** [runs m a t]: [m] returns [a] without panicking, having emitted [t]. *)
Definition runs {A} (m : Go A) (a : A) (t : list Event) : Prop :=
  m = (Done a, t).

(** What the device answers to the batched fetch of part_004 for the
    interface [index], and whether it is an answer or an error. *)
Definition fetched (rt : Runtime) (d : gosnmp.Device) (g : gosnmp.GoSNMP)
    (index : Z) : string + list gosnmp.SnmpPDU :=
  gosnmp.Get d g (Part004.interfaceOids (rangeInterfaceOids rt index) index).

Definition answered (rt : Runtime) (d : gosnmp.Device) (g : gosnmp.GoSNMP)
    (index : Z) : bool :=
  match fetched rt d g index with inr _ => true | inl _ => false end.

(** The session [FetchSNMPData] of part_004 opens. *)
Definition session (ip community : string) (v : gosnmp.SnmpVersion)
    : gosnmp.GoSNMP :=
  {| gosnmp.Target := ip; gosnmp.Port := 161; gosnmp.Community := community;
     gosnmp.Version := v; gosnmp.Timeout := 500; gosnmp.Retries := 1 |}.

(** The session of the sample request, and the sample request as
    [ValidateRequest] leaves it. *)
Definition g2c : gosnmp.GoSNMP := session "192.0.2.7" "public" gosnmp.Version2c.

Definition validated (version : string) : gmap string GoValue :=
  <["port" := VInt 161]> (Lab.request version).

(** The suffix [getInterfaceIndexes] reads the index from. *)
Definition suffix (pdu : gosnmp.SnmpPDU) : string :=
  lastPart (Split (gosnmp.Name pdu)).

(** The value a record holds under the key "index". *)
Definition indexOf (record : gmap string GoValue) : option GoValue :=
  record !! Part004.Index.

(** The line [getInterfaces] of part_004 logs for a failed fetch. *)
Definition skipped (index : Z) (err : string) : Event :=
  Logged ("Error fetching interface " +:+ itoa index +:+ ": " +:+ err +:+
          " (continuing)").

(** The loop that [fetchSNMPSystemData] and [FetchSNMPSystemData] run over
    the variables of a response, for any table and any conversion of the
    values: the functions [storeSystem] above are instances of it. *)
Section ByPosition.
Context {V : Type} (table : gmap string string) (conv : gosnmp.Decoded -> V).

Fixpoint storeByPosition (oidArray : list string)
    (variables : list gosnmp.SnmpPDU) (i : nat)
    (data : gmap string V) : Go (gmap string V) :=
  match variables with
  | [] => mret data
  | variable :: rest =>
      let value := conv (gosnmp.Value variable) in
      oid ← at_ oidArray i;
      storeByPosition oidArray rest (S i) (<[field table oid := value]> data)
  end.

End ByPosition.

(** The loop that the three [getInterface] run over the variables of a
    response, for any conversion of the values: the functions
    [storeInterface] above are instances of it. *)
Section NonNil.
Context {V : Type} (conv : string -> gosnmp.Decoded -> V).

Fixpoint storeNonNil (fields : list string)
    (variables : list gosnmp.SnmpPDU) (k : nat)
    (data : gmap string V) : Go (gmap string V) :=
  match variables with
  | [] => mret data
  | variable :: rest =>
      match gosnmp.Value variable with
      | gosnmp.DNil => storeNonNil fields rest (S k) data
      | v =>
          field ← at_ fields k;
          storeNonNil fields rest (S k) (<[field := conv field v]> data)
      end
  end.

End NonNil.

(** The value of the answer of a job under the key [k], if the job was
    answered and the answer has the key; and the same for the map the answer
    holds under "data". *)
Definition answerAt (m : Go (gmap string GoValue)) (k : string) : option GoValue :=
  match m.1 with
  | Done out => out !! k
  | Panic _ => None
  end.

Definition dataAt (m : Go (gmap string GoValue)) (k : string) : option GoValue :=
  match answerAt m "data" with
  | Some (VMap data) => data !! k
  | _ => None
  end.

(** Whether the request of a worker of zmq.go has a non-empty value for
    [field]. *)
Definition present (reqData : gmap string string) (field : string) : bool :=
  match reqData !! field with
  | Some value => negb (String.eqb value EmptyString)
  | None => false
  end.

(** The shape of the events of a job.  [onlyLogs]: lines of the log and
    nothing else.  [requests]: requests to the device and lines of the log.
    [closedAtEnd]: requests and lines, and then the close of the session
    as the last event. *)
Definition onlyLogs (t : list Event) : bool :=
  forallb (fun e => match e with Logged _ => true | _ => false end) t.

Definition requests (t : list Event) : bool :=
  forallb (fun e => match e with
                    | Got _ _ | Walked _ _ | Logged _ => true
                    | _ => false
                    end) t.

Fixpoint closedAtEnd (t : list Event) : bool :=
  match t with
  | [] => false
  | Closed :: rest => match rest with [] => true | _ => false end
  | (Got _ _ | Walked _ _ | Logged _) :: rest => closedAtEnd rest
  | Connected _ :: _ => false
  end.

(** [hygienic d t]: nothing is asked of the device before a session is
    opened, and at most one session is opened; when the device refuses
    the connection, nothing is asked after it either; a session that was
    opened is closed, once, and by the last event. *)
Fixpoint hygienic (d : gosnmp.Device) (t : list Event) : bool :=
  match t with
  | [] => true
  | Logged _ :: rest => hygienic d rest
  | Connected g :: rest =>
      match gosnmp.Connect d g with
      | Some _ => onlyLogs rest
      | None => closedAtEnd rest
      end
  | _ => false
  end.

(** Whether a request holds, under the key [k], a string that is not
    blank; and whether it holds anything at all. *)
Definition nonBlank (m : gmap string GoValue) (k : string) : bool :=
  match m !! k with
  | Some (VString s) => negb (String.eqb (TrimSpace s) EmptyString)
  | _ => false
  end.

Definition hasKey {V} (m : gmap string V) (k : string) : bool :=
  match m !! k with Some _ => true | None => false end.

(** Whether a request holds a string under the key [k]. *)
Definition hasString (m : gmap string GoValue) (k : string) : bool :=
  match m !! k with Some (VString _) => true | _ => false end.

(** The two upper-case hexadecimal digits of a byte. *)
Definition hexPair (c : ascii) : string :=
  String (upper (hexDigit (byteval c / 16)))
    (String (upper (hexDigit (byteval c mod 16))) EmptyString).

(** The bytes of an address as pairs of upper-case hexadecimal digits with
    one space between two pairs. *)
Fixpoint spaced (bytes : string) : string :=
  match bytes with
  | EmptyString => EmptyString
  | String c EmptyString => hexPair c
  | String c r => hexPair c +:+ " " +:+ spaced r
  end.

(** Whether a computation returns, rather than panics. *)
Definition returns {A} (m : Go A) : bool :=
  match m.1 with Done _ => true | Panic _ => false end.

(** Whether a request holds a [float64] under the key [k]. *)
Definition hasFloat64 (m : gmap string GoValue) (k : string) : bool :=
  match m !! k with Some (VFloat64 _) => true | _ => false end.

(** Whether a request holds, under the key [k], something other than the
    empty string. *)
Definition notEmpty (m : gmap string GoValue) (k : string) : bool :=
  match m !! k with
  | Some v => negb (eqString v EmptyString)
  | None => false
  end.

(** A device that answers every request, each OID on its own: the binding
    it returns for an OID does not depend on the other OIDs of the request
    or on their order. *)
Definition answersEachOid (d : gosnmp.Device) : Prop :=
  exists answer : gosnmp.GoSNMP -> string -> gosnmp.SnmpPDU,
    forall g oids, gosnmp.Get d g oids = inr (answer g <$> oids).

(** The orders the run time may choose for the two tables. *)
Definition listsTheKeys (rt : Runtime) : Prop :=
  keysOf util.SNMPOids (rangeSNMPOids rt) /\
  forall index, keysOf util.InterfaceOids (rangeInterfaceOids rt index).

(** What the loop of [getInterface] leaves under the field [f] for a
    variable, [before] being what the record held: nothing new for a nil
    value. *)
Definition stored {V} (conv : string -> gosnmp.Decoded -> V) (f : string)
    (variable : gosnmp.SnmpPDU) (before : option V) : option V :=
  match gosnmp.Value variable with
  | gosnmp.DNil => before
  | v => Some (conv f v)
  end.

(** ** Running a computation *)

Lemma runs_ret {A} (a : A) : runs (mret a) a [].
Proof. reflexivity. Qed.

Lemma runs_emit (e : Event) : runs (emit e) tt [e].
Proof. reflexivity. Qed.

Lemma runs_bind {A B} (m : Go A) (f : A -> Go B) a t b t' :
  runs m a t -> runs (f a) b t' -> runs (m ≫= f) b (t ++ t').
Proof.
  unfold runs, mbind, go_bind, bind. intros -> ->. reflexivity.
Qed.

Lemma runs_deferClose {A} (body : Go A) a t :
  runs body a t -> runs (deferClose body) a (t ++ [Closed]).
Proof. unfold runs, deferClose. intros ->. reflexivity. Qed.

Lemma runs_inj {A} (m : Go A) a t a' t' :
  runs m a t -> runs m a' t' -> a = a' /\ t = t'.
Proof. unfold runs. intros -> [= -> ->]. done. Qed.

Lemma runs_mustString (s : string) : runs (mustString (VString s)) s [].
Proof. reflexivity. Qed.

Lemma runs_at {A} (l : list A) (i : nat) (a : A) :
  l !! i = Some a -> runs (at_ l i) a [].
Proof. unfold runs, at_. intros ->. reflexivity. Qed.


Lemma makeslice_allocates (size cap : Z) :
  0 <= cap -> size * cap <= maxAlloc -> makeslice size cap = mret tt.
Proof.
  intros Hcap Hmem. unfold makeslice.
  rewrite (proj2 (Z.ltb_ge cap 0)), (proj2 (Z.ltb_ge maxAlloc (size * cap))) by lia.
  reflexivity.
Qed.

Lemma makeslice_panics {A} (size cap : Z) (k : unit -> Go A) :
  cap < 0 \/ maxAlloc < size * cap ->
  makeslice size cap ≫= k = (Panic MakesliceCap, []).
Proof.
  intros Hcap. unfold makeslice.
  assert ((cap <? 0) || (maxAlloc <? size * cap) = true) as ->; [|reflexivity].
  apply orb_true_iff. destruct Hcap; [left|right]; by apply Z.ltb_lt.
Qed.

Lemma length_upTo (n : Z) : length (upTo n) = Z.to_nat n.
Proof. unfold upTo. by rewrite length_fmap, length_seq. Qed.

(** Two ways of writing the same list of events. *)
Ltac same_events :=
  cbn [app]; rewrite ?app_nil_r, <- ?app_assoc; cbn [app]; reflexivity.

(** The network calls of a trace, piecewise. *)
Lemma networkCalls_app (t t' : list Event) :
  networkCalls (t ++ t') = networkCalls t ++ networkCalls t'.
Proof.
  unfold networkCalls. induction t as [|e t IH]; simpl; [done|].
  destruct (isNetwork e); simpl; by rewrite IH.
Qed.

(** ** The version switch *)

Lemma switchVersion_supported (version : string) :
  is_Some (switchVersion version) <->
  version = "1" \/ version = "2" \/ version = "2c" \/ version = "3".
Proof.
  unfold switchVersion.
  destruct (String.eqb_spec version "1");
    [split; [by left | by eexists] |].
  destruct (String.eqb_spec version "2");
    [split; [by right; left | by eexists] |].
  destruct (String.eqb_spec version "2c");
    [split; [by right; right; left | by eexists] |].
  destruct (String.eqb_spec version "3");
    [split; [by right; right; right | by eexists] |].
  simpl. split; [by intros [? [=]] | intros [?|[?|[?|?]]]; congruence].
Qed.

Lemma switchVersion_unsupported (version : string) :
  version <> "1" -> version <> "2" -> version <> "2c" -> version <> "3" ->
  switchVersion version = None.
Proof.
  intros H1 H2 H3 H4.
  destruct (switchVersion version) eqn:E; [|done].
  assert (is_Some (switchVersion version)) as Hs by (rewrite E; by eexists).
  apply switchVersion_supported in Hs.
  destruct Hs as [?|[?|[?|?]]]; congruence.
Qed.

(** ** discovery.go *)

Lemma firstOctetString_decoded (variables : list gosnmp.SnmpPDU) :
  forallb gosnmp.octetsAreBytes variables = true ->
  exists name, runs (Plugin.firstOctetString variables) name [].
Proof.
  induction variables as [|variable rest IH]; simpl.
  - intros _. by exists None.
  - intros [Hv Hrest]%andb_prop. unfold gosnmp.octetsAreBytes in Hv.
    destruct (gosnmp.Type_ variable); try by apply IH.
    destruct (gosnmp.Value variable); try discriminate. by eexists.
Qed.

(** C10. For every address, community and version, [Discovery] of
    discovery.go returns a map (given that the library decodes OctetString
    bindings to byte slices, as gosnmp does); the map has a "status" key
    whose value is "success" or "fail" and a "systemName" key, and when the
    status is "fail" the system name is the empty string. *)
Theorem discovery_status_and_name (d : gosnmp.Device)
    (ip community version : string) :
  gosnmp.decodes d ->
  exists m t,
    runs (Plugin.Discovery d ip community version) m t /\
    (m !! "status" = Some (VString "success") \/
     m !! "status" = Some (VString "fail")) /\
    is_Some (m !! "systemName") /\
    (m !! "status" = Some (VString "fail") ->
     m !! "systemName" = Some (VString EmptyString)).
Proof.
  intros Hdec. unfold Plugin.Discovery.
  set (g := fun v => {| gosnmp.Target := ip; gosnmp.Port := 161;
                        gosnmp.Community := community; gosnmp.Version := v;
                        gosnmp.Timeout := 2000; gosnmp.Retries := 3 |}).
  assert (exists v t0,
    runs (match switchVersion version with
          | Some v => mret v
          | None =>
              emit (Logged ("Unsupported SNMP version: " +:+ version +:+
                            ". Defaulting to Version2c"));;
              mret gosnmp.Version2c
          end) v t0) as (v & t0 & Hv).
  { destruct (switchVersion version); do 2 eexists; reflexivity. }
  assert (forall m : gmap string GoValue,
            m = Plugin.failed ->
            (m !! "status" = Some (VString "success") \/
             m !! "status" = Some (VString "fail")) /\
            is_Some (m !! "systemName") /\
            (m !! "status" = Some (VString "fail") ->
             m !! "systemName" = Some (VString EmptyString))) as Hfailed.
  { intros m ->. unfold Plugin.failed.
    split; [right; reflexivity|]. split; [by eexists|done]. }
  destruct (gosnmp.Connect d (g v)) as [err|] eqn:Hconn.
  - exists Plugin.failed. eexists. split; [|by apply Hfailed].
    eapply runs_bind; [exact Hv|]. cbn beta.
    eapply runs_bind; [apply runs_emit|]. fold (g v). rewrite Hconn.
    apply runs_ret.
  - destruct (gosnmp.Get d (g v) ["1.3.6.1.2.1.1.5.0"]) as [err|variables] eqn:Hget.
    + exists Plugin.failed. eexists. split; [|by apply Hfailed].
      eapply runs_bind; [exact Hv|]. cbn beta.
      eapply runs_bind; [apply runs_emit|]. fold (g v). rewrite Hconn.
      apply runs_deferClose. cbn zeta.
      eapply runs_bind; [apply runs_emit|]. rewrite Hget. apply runs_ret.
    + destruct (firstOctetString_decoded variables) as [name Hname].
      { eapply Hdec. exact Hget. }
      destruct name as [name|].
      * eexists. eexists. split.
        { eapply runs_bind; [exact Hv|]. cbn beta.
          eapply runs_bind; [apply runs_emit|]. fold (g v). rewrite Hconn.
          apply runs_deferClose. cbn zeta.
          eapply runs_bind; [apply runs_emit|]. rewrite Hget.
          eapply runs_bind; [exact Hname|]. apply runs_ret. }
        split; [left; reflexivity|]. split; [by eexists|].
        intros [=].
      * exists Plugin.failed. eexists. split; [|by apply Hfailed].
        eapply runs_bind; [exact Hv|]. cbn beta.
        eapply runs_bind; [apply runs_emit|]. fold (g v). rewrite Hconn.
        apply runs_deferClose. cbn zeta.
        eapply runs_bind; [apply runs_emit|]. rewrite Hget.
        eapply runs_bind; [exact Hname|]. apply runs_ret.
Qed.

Lemma agent_decodes (rows : list Z) : gosnmp.decodes (Lab.agent Lab.ticks rows).
Proof.
  intros g oids vars [= <-]. induction oids as [|oid oids IH]; [done|].
  rewrite fmap_cons. simpl. rewrite IH, andb_true_r. unfold Lab.answer.
  repeat (case_match; [reflexivity|]). reflexivity.
Qed.

Lemma discovery_status_and_name_witness :
  gosnmp.decodes (Lab.agent Lab.ticks [1; 2]) /\
  exists m t,
    runs (Plugin.Discovery (Lab.agent Lab.ticks [1; 2]) "192.0.2.7" "public" "2c") m t /\
    (m !! "status" = Some (VString "success") \/
     m !! "status" = Some (VString "fail")) /\
    is_Some (m !! "systemName") /\
    (m !! "status" = Some (VString "fail") ->
     m !! "systemName" = Some (VString EmptyString)).
Proof.
  split; [apply agent_decodes|].
  apply (discovery_status_and_name (Lab.agent Lab.ticks [1; 2])), agent_decodes.
Defined.

(** ** Request validation (part_003) *)
Section Validation.
Import Part003.

Lemma validateFields_other (fields : list string) (m : gmap string GoValue) (k : string) :
  k <> Port -> (validateFields fields m).2 !! k = m !! k.
Proof.
  intros Hk. revert m. induction fields as [|f rest IH]; intros m; simpl; [done|].
  destruct (m !! f) as [value|] eqn:Hf; [|done].
  destruct (String.eqb_spec f Port) as [->|Hne].
  - rewrite IH. destruct value; try done. by rewrite lookup_insert_ne.
  - destruct value; try done. destruct (String.eqb _ _); [done|]. apply IH.
Qed.

Lemma validateFields_string (fields : list string) (m : gmap string GoValue) (f : string) :
  (validateFields fields m).1 = true -> f ∈ fields -> f <> Port ->
  exists s, m !! f = Some (VString s) /\ TrimSpace s <> EmptyString.
Proof.
  intros Hv Hin Hne. revert m Hv.
  induction fields as [|f' rest IH]; intros m Hv; [by apply elem_of_nil in Hin|].
  simpl in Hv. destruct (m !! f') as [value|] eqn:Hf'; [|done].
  destruct (String.eqb_spec f' Port) as [->|Hne'].
  - apply elem_of_cons in Hin as [->|Hin]; [done|].
    destruct (IH Hin _ Hv) as (s & Hs & Ht). exists s. split; [|done].
    destruct value; try done. by rewrite lookup_insert_ne in Hs.
  - destruct value; try done.
    destruct (String.eqb_spec (TrimSpace s) EmptyString) as [|Hs]; [done|].
    apply elem_of_cons in Hin as [->|Hin]; [by exists s|]. by apply IH.
Qed.

(** What a request that passes [ValidateRequest] looks like, and what the
    call leaves of it. *)
Lemma ValidateRequest_true (reqData reqData' : gmap string GoValue) :
  ValidateRequest reqData = (true, reqData') ->
  (exists ip, reqData' !! IP = Some (VString ip)) /\
  (forall k, k <> Port -> reqData' !! k = reqData !! k).
Proof.
  intros Hv.
  assert (forall k, k <> Port -> reqData' !! k = reqData !! k) as Hother.
  { intros k Hk. unfold ValidateRequest in Hv.
    rewrite <- (validateFields_other [IP; PluginType; RequestID; Port] reqData k Hk).
    by rewrite Hv. }
  split; [|done].
  destruct (validateFields_string [IP; PluginType; RequestID; Port] reqData IP)
    as (ip & Hip & _).
  - unfold ValidateRequest in Hv. by rewrite Hv.
  - apply elem_of_cons. by left.
  - done.
  - exists ip. by rewrite Hother.
Qed.

End Validation.

(** ** The loop over the variables of an interface *)
Section NonNilFacts.
Context {V : Type} (conv : string -> gosnmp.Decoded -> V).

Lemma storeNonNil_runs (fields : list string) (variables : list gosnmp.SnmpPDU)
    (k : nat) (data : gmap string V) :
  (length variables + k <= length fields)%nat ->
  exists m, runs (storeNonNil conv fields variables k data) m [] /\
    forall key, key ∉ fields -> m !! key = data !! key.
Proof.
  revert k data.
  induction variables as [|variable rest IH]; intros k data Hlen.
  - exists data. split; [apply runs_ret|done].
  - simpl in Hlen.
    destruct (lookup_lt_is_Some_2 fields k) as [f Hf]; [lia|].
    assert (exists m,
      runs (f' ← at_ fields k;
            storeNonNil conv fields rest (S k)
              (<[f' := conv f' (gosnmp.Value variable)]> data)) m [] /\
      forall key, key ∉ fields -> m !! key = data !! key) as Hstep.
    { destruct (IH (S k) (<[f := conv f (gosnmp.Value variable)]> data))
        as (m & Hm & Hkeep); [lia|].
      exists m. split.
      - eapply (runs_bind _ _ f [] _ []); [by apply runs_at|exact Hm].
      - intros key Hkey. rewrite Hkeep by done. apply lookup_insert_ne.
        intros ->. apply Hkey. by eapply list_elem_of_lookup_2. }
    cbn [storeNonNil]. destruct (gosnmp.Value variable); try exact Hstep.
    apply IH. lia.
Qed.

End NonNilFacts.

(** ** The interface collector of part_004 *)
Section Collector004.
Import Part003 Part004.

Lemma storeInterface_runs (fields : list string) (variables : list gosnmp.SnmpPDU)
    (k : nat) (interfaceData : gmap string GoValue) :
  (length variables + k <= length fields)%nat ->
  exists m, runs (storeInterface fields variables k interfaceData) m [] /\
    forall key, key ∉ fields -> m !! key = interfaceData !! key.
Proof. apply (storeNonNil_runs interfaceValue). Qed.

(** No field name of the interface table is the key of the index. *)
Lemma Index_not_a_field (order : list string) :
  Index ∉ field util.InterfaceOids <$> order.
Proof.
  intros (oid & Heq & _)%list_elem_of_fmap. unfold field in Heq.
  destruct (util.InterfaceOids !! oid) as [f|] eqn:Hf; simpl in Heq; [|done].
  subst f. revert Hf.
  assert (map_Forall (fun _ f => f <> Index) util.InterfaceOids) as Hall.
  { apply map_Forall_to_list. vm_compute. repeat constructor; done. }
  intros Hf. by apply Hall in Hf.
Qed.

Lemma getInterface_failed (order : list string) (d : gosnmp.Device) (index : Z)
    (g : gosnmp.GoSNMP) (err : string) :
  gosnmp.Get d g (interfaceOids order index) = inl err ->
  exists data,
    runs (getInterface order d index g) (data, Some err)
         [Got g (interfaceOids order index)].
Proof.
  intros Hget. unfold getInterface. eexists.
  eapply (runs_bind _ _ tt [_] _ []); [apply runs_emit|].
  rewrite Hget. apply runs_ret.
Qed.

Lemma getInterface_fetched (order : list string) (d : gosnmp.Device) (index : Z)
    (g : gosnmp.GoSNMP) (variables : list gosnmp.SnmpPDU) :
  gosnmp.Get d g (interfaceOids order index) = inr variables ->
  (length variables <= length order)%nat ->
  exists data,
    runs (getInterface order d index g) (data, None)
         [Got g (interfaceOids order index)] /\
    data !! Index = Some (VString (itoa index)).
Proof.
  intros Hget Hlen. unfold getInterface.
  destruct (storeInterface_runs (field util.InterfaceOids <$> order) variables 0
              {[Index := VString (itoa index)]}) as (data & Hdata & Hkeep).
  { rewrite length_fmap. lia. }
  exists data. split.
  - eapply (runs_bind _ _ tt [_] _ []); [apply runs_emit|].
    rewrite Hget. eapply (runs_bind _ _ _ [] _ []); [exact Hdata|apply runs_ret].
  - rewrite Hkeep by apply Index_not_a_field. apply lookup_singleton_eq.
Qed.

Lemma collect_cons (rt : Runtime) (d : gosnmp.Device) (g : gosnmp.GoSNMP)
    (index : Z) (rest : list Z) (acc : list (gmap string GoValue)) :
  collect rt d g (index :: rest) acc =
  (r ← getInterface (rangeInterfaceOids rt index) d index g;
   match r.2 with
   | Some err => emit (skipped index err);; collect rt d g rest acc
   | None => collect rt d g rest (acc ++ [r.1])
   end).
Proof. reflexivity. Qed.

Lemma collect_runs (rt : Runtime) (d : gosnmp.Device) (g : gosnmp.GoSNMP) :
  gosnmp.bounded d ->
  forall (indexes : list Z) (acc : list (gmap string GoValue)),
  exists recs t,
    runs (collect rt d g indexes acc) (acc ++ recs) t /\
    indexOf <$> recs =
      (fun i => Some (VString (itoa i))) <$> List.filter (answered rt d g) indexes /\
    networkCalls t =
      (fun i => Got g (interfaceOids (rangeInterfaceOids rt i) i)) <$> indexes /\
    (forall i err, i ∈ indexes -> fetched rt d g i = inl err -> skipped i err ∈ t).
Proof.
  intros Hb. induction indexes as [|index rest IH]; intros acc.
  - exists [], []. rewrite app_nil_r. split; [apply runs_ret|].
    split; [done|]. split; [done|]. intros i err Hi. by apply elem_of_nil in Hi.
  - rewrite collect_cons. cbn [List.filter]. unfold answered at 1.
    destruct (fetched rt d g index) as [err|variables] eqn:Hget.
    + destruct (getInterface_failed _ d index g err Hget) as (data & Hrun).
      destruct (IH acc) as (recs & t & Hrest & Hidx & Hnet & Hlog).
      exists recs, ([Got g (interfaceOids (rangeInterfaceOids rt index) index)]
                     ++ ([skipped index err] ++ t)).
      split; [|split; [done|split]].
      * eapply runs_bind; [exact Hrun|]. cbv beta. cbn [fst snd].
        eapply runs_bind; [apply runs_emit|exact Hrest].
      * rewrite networkCalls_app, fmap_cons. cbn [networkCalls List.filter isNetwork app].
        f_equal. exact Hnet.
      * intros i err' [->|Hi]%elem_of_cons Hi'.
        -- rewrite Hget in Hi'. injection Hi' as <-.
           apply elem_of_cons. right. apply elem_of_cons. by left.
        -- apply elem_of_cons. right. apply elem_of_cons. right. by eapply Hlog.
    + destruct (getInterface_fetched _ d index g variables Hget)
        as (data & Hrun & Hindex).
      { etrans; [by eapply Hb|]. unfold interfaceOids. by rewrite length_fmap. }
      destruct (IH (acc ++ [data])) as (recs & t & Hrest & Hidx & Hnet & Hlog).
      exists (data :: recs),
        ([Got g (interfaceOids (rangeInterfaceOids rt index) index)] ++ t).
      split; [|split; [|split]].
      * eapply runs_bind; [exact Hrun|]. cbv beta. cbn [fst snd].
        by rewrite <- app_assoc in Hrest.
      * rewrite !fmap_cons. f_equal; [exact Hindex|exact Hidx].
      * rewrite networkCalls_app, fmap_cons. cbn [networkCalls List.filter isNetwork app].
        f_equal. exact Hnet.
      * intros i err' [->|Hi]%elem_of_cons Hi'.
        -- by rewrite Hget in Hi'.
        -- apply elem_of_cons. right. by eapply Hlog.
Qed.

End Collector004.

(** ** The positional zip of the scalar fetch *)
Section ByPositionFacts.
Context {V : Type} (table : gmap string string) (conv : gosnmp.Decoded -> V).

Lemma later_fields_differ (oidArray : list string) (i : nat) (oid : string) :
  NoDup (field table <$> oidArray) -> oidArray !! i = Some oid ->
  field table oid ∉ field table <$> drop (S i) oidArray.
Proof.
  intros Hnd Hi. rewrite <- (take_drop_middle oidArray i oid Hi) in Hnd.
  rewrite fmap_app, fmap_cons in Hnd.
  apply NoDup_app in Hnd as (_ & _ & Hnd). by apply NoDup_cons in Hnd as [? _].
Qed.

Lemma storeByPosition_runs (oidArray : list string)
    (variables : list gosnmp.SnmpPDU) (i : nat) (data : gmap string V) :
  (length variables + i <= length oidArray)%nat ->
  exists m,
    runs (storeByPosition table conv oidArray variables i data) m [] /\
    (forall key, key ∉ field table <$> drop i oidArray -> m !! key = data !! key) /\
    (NoDup (field table <$> oidArray) ->
     forall j oid variable,
       variables !! j = Some variable -> oidArray !! (i + j)%nat = Some oid ->
       m !! field table oid = Some (conv (gosnmp.Value variable))).
Proof.
  revert i data. induction variables as [|variable rest IH]; intros i data Hlen.
  - exists data. split; [apply runs_ret|]. split; [done|]. intros _ j ? ? Hj.
    by rewrite lookup_nil in Hj.
  - simpl in Hlen.
    destruct (lookup_lt_is_Some_2 oidArray i) as [oid Hoid]; [lia|].
    destruct (IH (S i) (<[field table oid := conv (gosnmp.Value variable)]> data))
      as (m & Hm & Hkeep & Hpos); [lia|].
    exists m. split; [|split].
    + cbn [storeByPosition]. cbv zeta.
      eapply (runs_bind _ _ oid [] _ []); [by apply runs_at|exact Hm].
    + intros key Hkey. rewrite (drop_S _ _ _ Hoid), fmap_cons in Hkey.
      apply not_elem_of_cons in Hkey as [Hne Hkey].
      rewrite Hkeep by done. by apply lookup_insert_ne.
    + intros Hnd j oid' variable' Hj Hoid'. destruct j as [|j].
      * rewrite Nat.add_0_r in Hoid'. simpl in Hj.
        assert (oid' = oid) as -> by congruence. injection Hj as <-.
        rewrite Hkeep by by apply later_fields_differ.
        apply lookup_insert_eq.
      * simpl in Hj. apply (Hpos Hnd j); [done|].
        by replace (S i + j)%nat with (i + S j)%nat by lia.
Qed.

End ByPositionFacts.

Lemma keysOf_SNMPOids_NoDup (order : list string) :
  keysOf util.SNMPOids order -> NoDup (field util.SNMPOids <$> order).
Proof.
  unfold keysOf. intros ->. apply (bool_decide_unpack _). vm_compute. reflexivity.
Qed.

Lemma keysOf_nonempty (order : list string) :
  keysOf util.SNMPOids order -> (length order =? 0)%nat = false.
Proof.
  unfold keysOf. intros Hp. apply Permutation_length in Hp. rewrite Hp.
  reflexivity.
Qed.

(** C8. In the batched scalar fetch the variable at position [i] of the
    response is stored under the field name the table gives for the OID
    at position [i] of the list that was sent, for every [i], whatever the
    order in which the run time listed the keys of the table; the list that
    is sent is the list that is used to store.  This holds for
    [fetchSNMPSystemData] of part_004 and for [FetchSNMPSystemData] of
    snmpfetcher.go, and in particular for the six OIDs of the table and a
    response of six variables. *)
Theorem scalars_stored_by_position (order : list string) (d : gosnmp.Device)
    (g : gosnmp.GoSNMP) (variables : list gosnmp.SnmpPDU) :
  keysOf util.SNMPOids order ->
  gosnmp.Get d g order = inr variables ->
  (length variables <= length order)%nat ->
  (exists snmpData,
     runs (Part004.fetchSNMPSystemData order d g) (inr snmpData) [Got g order] /\
     forall i oid variable,
       order !! i = Some oid -> variables !! i = Some variable ->
       snmpData !! field util.SNMPOids oid =
         Some (Part004.systemValue (gosnmp.Value variable))) /\
  (exists snmpData,
     runs (Snmpfetcher.FetchSNMPSystemData order d g) (inr snmpData) [Got g order] /\
     forall i oid variable,
       order !! i = Some oid -> variables !! i = Some variable ->
       snmpData !! field config.SNMPOids oid =
         Some (Snmpfetcher.systemValue (gosnmp.Value variable))).
Proof.
  intros Hkeys Hget Hlen.
  pose proof (keysOf_SNMPOids_NoDup order Hkeys) as Hnd.
  pose proof (keysOf_nonempty order Hkeys) as Hne.
  split.
  - destruct (storeByPosition_runs util.SNMPOids Part004.systemValue order
                variables 0 ∅) as (m & Hm & _ & Hpos); [lia|].
    exists m. split.
    + unfold Part004.fetchSNMPSystemData. rewrite Hne.
      eapply (runs_bind _ _ tt [_] _ []); [apply runs_emit|]. rewrite Hget.
      eapply (runs_bind _ _ m [] _ []); [exact Hm|apply runs_ret].
    + intros i oid variable Hoid Hvar. by apply (Hpos Hnd i).
  - destruct (storeByPosition_runs config.SNMPOids Snmpfetcher.systemValue order
                variables 0 ∅) as (m & Hm & _ & Hpos); [lia|].
    exists m. split.
    + unfold Snmpfetcher.FetchSNMPSystemData. rewrite Hne.
      eapply (runs_bind _ _ tt [_] _ []); [apply runs_emit|]. rewrite Hget.
      eapply (runs_bind _ _ m [] _ []); [exact Hm|apply runs_ret].
    + intros i oid variable Hoid Hvar. by apply (Hpos Hnd i).
Qed.

(** ** The walk of part_004 *)
Section Walk004.
Import Part003 Part004.

Lemma Split_length (s : string) : (length (Split s) =? 0)%nat = false.
Proof.
  destruct s as [|c r]; [done|]. simpl.
  destruct (Ascii.eqb c _); [done|]. by destruct (Split r).
Qed.

Lemma getInterfaceIndexes_runs (d : gosnmp.Device) (g : gosnmp.GoSNMP) :
  exists r, runs (getInterfaceIndexes d g) r [Walked g targetOID].
Proof.
  unfold getInterfaceIndexes.
  destruct (gosnmp.Walk d g targetOID) as [pdus walkErr].
  destruct (walkFn pdus []) as [indexes fnErr].
  destruct fnErr as [e|]; [|destruct walkErr as [e|]]; eexists;
    (eapply (runs_bind _ _ tt [_] _ []); [apply runs_emit|apply runs_ret]).
Qed.

Lemma walkFn_parsed (pdus : list gosnmp.SnmpPDU) (indexes : list Z) :
  Forall (fun pdu => (Atoi (suffix pdu)).2 = None) pdus ->
  walkFn pdus indexes =
    (indexes ++ ((fun pdu => (Atoi (suffix pdu)).1) <$> pdus), None).
Proof.
  intros Hall. revert indexes.
  induction Hall as [|pdu rest Hpdu _ IH]; intros indexes.
  - by rewrite app_nil_r.
  - cbn [walkFn]. cbv zeta. fold (suffix pdu).
    rewrite Split_length.
    destruct (Atoi (suffix pdu)) as [index err] eqn:Hatoi. simpl in Hpdu.
    subst err. rewrite IH, fmap_cons, Hatoi. cbn [fst]. by rewrite <- app_assoc.
Qed.

End Walk004.

(** ** The pipeline of part_004 *)
Section Pipeline004.
Import Part003 Part004.

Lemma valueAt_lookup (m : gmap string GoValue) (k : string) (v : GoValue) :
  m !! k = Some v -> valueAt m k = v.
Proof. unfold valueAt. by intros ->. Qed.

Lemma runs_events {A} (m : Go A) (a : A) (t t' : list Event) :
  runs m a t -> t = t' -> runs m a t'.
Proof. by intros ? <-. Qed.

(** A job that passes the checks, connects and gets its system scalars is
    answered with status "success"; the lemma describes the data of the
    answer and the events of the run. *)
Lemma FetchSNMPData_polls (rt : Runtime) (d : gosnmp.Device)
    (reqData reqData' : gmap string GoValue) (ip community version : string)
    (v : gosnmp.SnmpVersion) (systemData : gmap string GoValue)
    (t1 : list Event) :
  let g := session ip community v in
  ValidateRequest reqData = (true, reqData') ->
  reqData !! IP = Some (VString ip) ->
  reqData !! Community = Some (VString community) ->
  reqData !! Version = Some (VString version) ->
  switchVersion version = Some v ->
  gosnmp.Connect d g = None ->
  runs (fetchSNMPSystemData (rangeSNMPOids rt) d g) (inr systemData) t1 ->
  gosnmp.bounded d ->
  exists data t2,
    runs (FetchSNMPData rt d reqData)
      (<[Status := VString Success]> (<[Data := VMap data]> reqData'))
      ([Connected g] ++ t1 ++ [Walked g targetOID] ++ t2 ++ [Closed]) /\
    data !! systemUptime =
      match valueAt systemData systemUptime with
      | VUint32 uptime => Some (VString (uptimeString uptime))
      | _ => None
      end /\
    (forall indexes,
       runs (getInterfaceIndexes d g) (inr indexes) [Walked g targetOID] ->
       exists recs,
         runs (collect rt d g indexes []) recs t2 /\
         data !! interfaces = Some (VList (VMap <$> recs)) /\
         data !! systemInterfaces = Some (VInt (Z.of_nat (length indexes))) /\
         data !! Interface_Error = None) /\
    (forall err,
       runs (getInterfaceIndexes d g) (inl err) [Walked g targetOID] ->
       t2 = [] /\ data !! interfaces = None /\
       data !! systemInterfaces = Some (VInt 0)).
Proof.
  intros g Hv Hip Hc Hver Hs Hconn Hsys Hb.
  destruct (ValidateRequest_true _ _ Hv) as [_ Hsame].
  rewrite <- Hsame in Hip, Hc, Hver by done.
  set (base := (<[systemObjectID := valueAt systemData systemObjectID]>
               (<[systemLocation := valueAt systemData systemLocation]>
               (<[systemDescription := valueAt systemData systemDescription]>
               {[systemName := valueAt systemData systemName]}))) : gmap string GoValue).
  set (timed := match valueAt systemData systemUptime with
                | VUint32 uptime => <[systemUptime := VString (uptimeString uptime)]> base
                | _ => base
                end).
  assert (timed !! systemUptime =
          match valueAt systemData systemUptime with
          | VUint32 uptime => Some (VString (uptimeString uptime))
          | _ => None
          end /\ timed !! interfaces = None /\ timed !! Interface_Error = None)
    as (Htimed & Hnoif & Hnoerr).
  { unfold timed. destruct (valueAt systemData systemUptime); done. }
  destruct (getInterfaceIndexes_runs d g) as [[err|indexes] Hwalk].
  - exists (<[systemInterfaces := VInt 0]>
             (<[Interface_Error := VString ("Error fetching interface indexes: " +:+ err)]>
                timed)), [].
    split; [|split; [|split]].
    + unfold FetchSNMPData. rewrite Hv. cbn [negb].
      rewrite (valueAt_lookup _ _ _ Hip), (valueAt_lookup _ _ _ Hc),
        (valueAt_lookup _ _ _ Hver).
      eapply runs_events.
      * eapply runs_bind; [apply runs_mustString|]. cbv beta.
        eapply runs_bind; [apply runs_mustString|]. cbv beta.
        eapply runs_bind; [apply runs_mustString|]. cbv beta.
        rewrite Hs. cbv zeta. fold (session ip community v). fold g.
        eapply runs_bind; [apply runs_emit|]. rewrite Hconn.
        apply runs_deferClose.
        eapply runs_bind; [exact Hsys|]. cbv beta iota zeta. fold base. fold timed.
        eapply runs_bind; [exact Hwalk|]. cbv beta iota.
        eapply runs_bind; [apply runs_ret|]. apply runs_ret.
      * same_events.
    + by rewrite !lookup_insert_ne.
    + intros indexes Hwalk'. destruct (runs_inj _ _ _ _ _ Hwalk Hwalk') as [[=] _].
    + intros err' _. split; [done|]. split; [by rewrite !lookup_insert_ne|].
      apply lookup_insert_eq.
  - destruct (collect_runs rt d g Hb indexes []) as (recs & t2 & Hrecs & _).
    exists (<[interfaces := VList (VMap <$> recs)]>
             (<[systemInterfaces := VInt (Z.of_nat (length indexes))]> timed)), t2.
    split; [|split; [|split]].
    + unfold FetchSNMPData. rewrite Hv. cbn [negb].
      rewrite (valueAt_lookup _ _ _ Hip), (valueAt_lookup _ _ _ Hc),
        (valueAt_lookup _ _ _ Hver).
      eapply runs_events.
      * eapply runs_bind; [apply runs_mustString|]. cbv beta.
        eapply runs_bind; [apply runs_mustString|]. cbv beta.
        eapply runs_bind; [apply runs_mustString|]. cbv beta.
        rewrite Hs. cbv zeta. fold (session ip community v). fold g.
        eapply runs_bind; [apply runs_emit|]. rewrite Hconn.
        apply runs_deferClose.
        eapply runs_bind; [exact Hsys|]. cbv beta iota zeta. fold base. fold timed.
        eapply runs_bind; [exact Hwalk|]. cbv beta iota zeta.
        eapply runs_bind.
        { unfold getInterfaces. eapply runs_bind.
          - eapply runs_bind; [exact Hrecs|apply runs_ret].
          - cbv beta. cbn [fst snd]. apply runs_ret. }
        apply runs_ret.
      * same_events.
    + by rewrite !lookup_insert_ne.
    + intros indexes' Hwalk'.
      destruct (runs_inj _ _ _ _ _ Hwalk Hwalk') as [[= <-] _].
      exists recs. split; [done|]. split; [apply lookup_insert_eq|].
      split; [rewrite lookup_insert_ne by done; apply lookup_insert_eq|].
      by rewrite !lookup_insert_ne.
    + intros err Hwalk'. destruct (runs_inj _ _ _ _ _ Hwalk Hwalk') as [[=] _].
Qed.

End Pipeline004.

(** ** The sample devices *)

Lemma agent_bounded (uptime : gosnmp.SnmpPDU) (rows : list Z) :
  gosnmp.bounded (Lab.agent uptime rows).
Proof. intros g oids vars [= <-]. by rewrite length_fmap. Qed.

Lemma flaky_bounded (bad : Z) (rows : list Z) : gosnmp.bounded (Lab.flaky bad rows).
Proof.
  intros g oids vars. simpl. destruct (Lab.asksRow bad oids); [done|].
  intros [= <-]. by rewrite length_fmap.
Qed.

Lemma rev_completes : completes Lab.lastFirst.
Proof. intros started. simpl. symmetry. apply Permutation_rev. Qed.

(** ** The concurrent collector of snmpfetcher.go *)

Lemma Snmpfetcher_getInterface_runs (order : list string) (d : gosnmp.Device)
    (i : Z) (g : gosnmp.GoSNMP) :
  gosnmp.bounded d ->
  exists record t, runs (Snmpfetcher.getInterface order d i g) record t.
Proof.
  intros Hb. unfold Snmpfetcher.getInterface.
  destruct (gosnmp.Get d g (Snmpfetcher.interfaceOids order i)) as [err|variables] eqn:Hget.
  - do 2 eexists. eapply runs_bind; [apply runs_emit|].
    eapply runs_bind; [apply runs_emit|apply runs_ret].
  - destruct (storeNonNil_runs Snmpfetcher.interfaceValue
                (field config.InterfaceOids <$> order) variables 0
                {["Index" := itoa i]}) as (m & Hm & _).
    { rewrite length_fmap. apply Hb in Hget. unfold Snmpfetcher.interfaceOids in Hget.
      rewrite length_fmap in Hget. lia. }
    do 2 eexists. eapply runs_bind; [apply runs_emit|exact Hm].
Qed.

Lemma Snmpfetcher_appendAll_runs (rt : Runtime) (d : gosnmp.Device) (g : gosnmp.GoSNMP) :
  gosnmp.bounded d ->
  forall (done : list Z) (acc : list (gmap string string)),
  exists recs t,
    runs (Snmpfetcher.appendAll rt d g done acc) (acc ++ recs) t /\
    Forall2 (fun i record => exists t',
               runs (Snmpfetcher.getInterface (rangeInterfaceOids rt i) d i g) record t')
            done recs.
Proof.
  intros Hb. induction done as [|i rest IH]; intros acc.
  - exists [], []. rewrite app_nil_r. split; [apply runs_ret|constructor].
  - destruct (Snmpfetcher_getInterface_runs (rangeInterfaceOids rt i) d i g Hb)
      as (record & t & Hrecord).
    destruct (IH (acc ++ [record])) as (recs & t' & Hrest & Hall).
    exists (record :: recs), (t ++ t'). split.
    + cbn [Snmpfetcher.appendAll]. eapply runs_bind; [exact Hrecord|].
      by rewrite <- app_assoc in Hrest.
    + constructor; [by exists t|exact Hall].
Qed.

(** ** Properties of the poller of part_004 *)
Section Claims004.
Import Part003 Part004.

(** C5 (as amended: the poller of part_004).  When the batched fetch for
    some of the enumerated interfaces fails, each failure is written to the
    log, the failing interfaces are left out of the list, every enumerated
    interface is still asked for, the others are returned in the order of
    the enumeration, and the answer of the job has status "success". *)
Theorem failed_interface_is_skipped (rt : Runtime) (d : gosnmp.Device)
    (reqData reqData' : gmap string GoValue) (ip community version : string)
    (v : gosnmp.SnmpVersion) (systemData : gmap string GoValue)
    (t1 : list Event) (indexes : list Z) :
  let g := session ip community v in
  ValidateRequest reqData = (true, reqData') ->
  reqData !! IP = Some (VString ip) ->
  reqData !! Community = Some (VString community) ->
  reqData !! Version = Some (VString version) ->
  switchVersion version = Some v ->
  gosnmp.Connect d g = None ->
  runs (fetchSNMPSystemData (rangeSNMPOids rt) d g) (inr systemData) t1 ->
  runs (getInterfaceIndexes d g) (inr indexes) [Walked g targetOID] ->
  gosnmp.bounded d ->
  exists out data recs t,
    runs (FetchSNMPData rt d reqData) out t /\
    out !! Status = Some (VString Success) /\
    out !! Data = Some (VMap data) /\
    data !! interfaces = Some (VList (VMap <$> recs)) /\
    data !! Interface_Error = None /\
    indexOf <$> recs =
      (fun i => Some (VString (itoa i))) <$> List.filter (answered rt d g) indexes /\
    (forall i, i ∈ indexes ->
       Got g (interfaceOids (rangeInterfaceOids rt i) i) ∈ t) /\
    (forall i err, i ∈ indexes -> fetched rt d g i = inl err -> skipped i err ∈ t).
Proof.
  intros g Hv Hip Hc Hver Hs Hconn Hsys Hwalk Hb.
  destruct (FetchSNMPData_polls rt d reqData reqData' ip community version v
              systemData t1 Hv Hip Hc Hver Hs Hconn Hsys Hb)
    as (data & t2 & Hrun & _ & Hif & _).
  destruct (Hif indexes Hwalk) as (recs & Hrecs & Hlist & _ & Hnoerr).
  destruct (collect_runs rt d g Hb indexes [])
    as (recs' & t2' & Hrecs' & Hidx & Hnet & Hlog).
  destruct (runs_inj _ _ _ _ _ Hrecs Hrecs') as [-> ->].
  eexists _, data, recs', _. split; [exact Hrun|].
  split; [apply lookup_insert_eq|].
  split; [rewrite lookup_insert_ne by done; apply lookup_insert_eq|].
  split; [exact Hlist|]. split; [exact Hnoerr|]. split; [exact Hidx|]. split.
  - intros i Hi. apply elem_of_cons. right. apply elem_of_app. right.
    apply elem_of_cons. right. apply elem_of_app. left.
    assert (Got g (interfaceOids (rangeInterfaceOids rt i) i) ∈ networkCalls t2')
      as Hin.
    { rewrite Hnet. apply list_elem_of_fmap. by exists i. }
    unfold networkCalls in Hin. apply list_elem_of_In in Hin.
    apply filter_In in Hin as [Hin _]. by apply list_elem_of_In.
  - intros i err Hi Herr. apply elem_of_cons. right. apply elem_of_app. right.
    apply elem_of_cons. right. apply elem_of_app. left. by eapply Hlog.
Qed.

(** C6 (as amended: the poller of part_004).  The interfaces are enumerated
    by one walk of the column of the interface names, and by nothing else;
    when the walk ends without an error and the last component of every
    returned identifier is a number, the indices are these numbers, in the
    order of the walk; and the interfaces the job then asks for are the
    enumerated ones, whose number is what the answer reports as the number
    of interfaces, whatever the device reports as its interface count. *)
Theorem interfaces_enumerated_by_walk (rt : Runtime) (d : gosnmp.Device)
    (reqData reqData' : gmap string GoValue) (ip community version : string)
    (v : gosnmp.SnmpVersion) (systemData : gmap string GoValue)
    (t1 : list Event) (pdus : list gosnmp.SnmpPDU) :
  let g := session ip community v in
  let indexes := (fun pdu => (Atoi (suffix pdu)).1) <$> pdus in
  ValidateRequest reqData = (true, reqData') ->
  reqData !! IP = Some (VString ip) ->
  reqData !! Community = Some (VString community) ->
  reqData !! Version = Some (VString version) ->
  switchVersion version = Some v ->
  gosnmp.Connect d g = None ->
  runs (fetchSNMPSystemData (rangeSNMPOids rt) d g) (inr systemData) t1 ->
  gosnmp.Walk d g targetOID = (pdus, None) ->
  Forall (fun pdu => (Atoi (suffix pdu)).2 = None) pdus ->
  gosnmp.bounded d ->
  targetOID = "." +:+ "1.3.6.1.2.1.31.1.1.1.1" /\
  util.InterfaceOids !! "1.3.6.1.2.1.31.1.1.1.1" = Some "interface.name" /\
  runs (getInterfaceIndexes d g) (inr indexes) [Walked g targetOID] /\
  exists out data t,
    runs (FetchSNMPData rt d reqData) out t /\
    out !! Data = Some (VMap data) /\
    data !! systemInterfaces = Some (VInt (Z.of_nat (length pdus))) /\
    networkCalls t =
      [Connected g] ++ networkCalls t1 ++ [Walked g targetOID] ++
      ((fun i => Got g (interfaceOids (rangeInterfaceOids rt i) i)) <$> indexes).
Proof.
  intros g indexes Hv Hip Hc Hver Hs Hconn Hsys Hwalked Hnum Hb.
  assert (runs (getInterfaceIndexes d g) (inr indexes) [Walked g targetOID])
    as Hwalk.
  { unfold getInterfaceIndexes.
    eapply (runs_bind _ _ tt [_] _ []); [apply runs_emit|].
    rewrite Hwalked, (walkFn_parsed _ _ Hnum). apply runs_ret. }
  split; [reflexivity|]. split; [reflexivity|]. split; [exact Hwalk|].
  destruct (FetchSNMPData_polls rt d reqData reqData' ip community version v
              systemData t1 Hv Hip Hc Hver Hs Hconn Hsys Hb)
    as (data & t2 & Hrun & _ & Hif & _).
  destruct (Hif indexes Hwalk) as (recs & Hrecs & _ & Hcount & _).
  destruct (collect_runs rt d g Hb indexes []) as (recs' & t2' & Hrecs' & _ & Hnet & _).
  destruct (runs_inj _ _ _ _ _ Hrecs Hrecs') as [_ ->].
  eexists _, data, _. split; [exact Hrun|].
  split; [rewrite lookup_insert_ne by done; apply lookup_insert_eq|].
  split.
  - rewrite Hcount. unfold indexes. by rewrite length_fmap.
  - rewrite !networkCalls_app, Hnet. cbn [networkCalls List.filter isNetwork].
    by rewrite app_nil_r.
Qed.

(** C7 (as amended).  When every per-interface fetch succeeds, the list has
    one record for each enumerated index.  In part_004 the interfaces are
    fetched one after the other and the records are in the order of the
    enumeration.  In snmpfetcher.go the indices are 1 to the count: for a
    count from 0 up to what [make] accepts as a capacity (8 bytes an
    element, [maxAlloc] in all) they are fetched concurrently and the
    records, as many as the count, are in the order in which the fetches
    complete; for any other count [GetInterfaces] panics in [make] and
    asks for nothing.  Neither sorts the list. *)
Theorem one_record_per_index (rt : Runtime) (d : gosnmp.Device)
    (g : gosnmp.GoSNMP) :
  gosnmp.bounded d ->
  (forall indexes,
     (forall i, i ∈ indexes -> answered rt d g i = true) ->
     exists recs t,
       runs (getInterfaces rt d g indexes) (recs, None) t /\
       length recs = length indexes /\
       indexOf <$> recs = (fun i => Some (VString (itoa i))) <$> indexes) /\
  (forall numInterfaces,
     0 <= numInterfaces -> 8 * numInterfaces <= maxAlloc ->
     completes rt ->
     exists recs t,
       runs (Snmpfetcher.GetInterfaces rt d g numInterfaces) (recs, None) t /\
       length recs = Z.to_nat numInterfaces /\
       Forall2 (fun i record => exists t',
                  runs (Snmpfetcher.getInterface (rangeInterfaceOids rt i) d i g)
                       record t')
               (completion rt (upTo numInterfaces)) recs) /\
  (forall numInterfaces,
     numInterfaces < 0 \/ maxAlloc < 8 * numInterfaces ->
     Snmpfetcher.GetInterfaces rt d g numInterfaces = (Panic MakesliceCap, [])).
Proof.
  intros Hb. split; [|split].
  - intros indexes Hall.
    destruct (collect_runs rt d g Hb indexes []) as (recs & t & Hrecs & Hidx & _).
    assert (List.filter (answered rt d g) indexes = indexes) as Hfilter.
    { clear Hidx Hrecs. induction indexes as [|i rest IH]; [done|].
      cbn [List.filter]. rewrite Hall by (apply elem_of_cons; by left).
      f_equal. apply IH. intros j Hj. apply Hall, elem_of_cons. by right. }
    rewrite Hfilter in Hidx. exists recs, (t ++ []).
    split; [|split; [|exact Hidx]].
    + unfold getInterfaces. eapply runs_bind; [exact Hrecs|apply runs_ret].
    + apply (f_equal length) in Hidx. by rewrite !length_fmap in Hidx.
  - intros numInterfaces Hpos Hcap Hcomp.
    destruct (Snmpfetcher_appendAll_runs rt d g Hb (completion rt (upTo numInterfaces)) [])
      as (recs & t & Hrecs & Hall).
    exists recs, ([] ++ t ++ []). split; [|split; [|exact Hall]].
    + unfold Snmpfetcher.GetInterfaces. rewrite makeslice_allocates by done.
      eapply runs_bind; [apply runs_ret|].
      eapply runs_bind; [exact Hrecs|apply runs_ret].
    + apply Forall2_length in Hall. rewrite <- Hall, <- length_upTo.
      apply Permutation_length, Hcomp.
  - intros numInterfaces Hcap. unfold Snmpfetcher.GetInterfaces.
    by apply makeslice_panics.
Qed.

End Claims004.

Lemma bind_emit {B} (e : Event) (k : Go B) :
  (emit e;; k) = (let '(o, t) := k in (o, e :: t)).
Proof. unfold mbind, go_bind, bind. cbn [emit]. by destruct k. Qed.

Lemma bind_emit_ret {A B} (e : Event) (a : A) (f : A -> Go B) :
  (emit e;; mret a) ≫= f = (let '(o, t) := f a in (o, e :: t)).
Proof.
  unfold mbind, go_bind, bind, mret, go_ret, ret. cbn [emit app].
  by destruct (f a).
Qed.

(** ** The collector of part_005 *)




(** ** The answers of part_004 and part_005 *)
Section Answers.
Import Part003.


(** C4 (as amended).  In part_004, when the up-time scalar that was fetched
    is not a [uint32] tick count (it is absent, nil, text, or a number of
    another type), the job does not panic: it is answered with status
    "success" and the data of the answer have no up-time. *)
Theorem uptime_that_is_not_ticks_is_left_out (rt : Runtime) (d : gosnmp.Device)
    (reqData reqData' : gmap string GoValue) (ip community version : string)
    (v : gosnmp.SnmpVersion) (systemData : gmap string GoValue)
    (t1 : list Event) :
  let g := session ip community v in
  ValidateRequest reqData = (true, reqData') ->
  reqData !! IP = Some (VString ip) ->
  reqData !! Community = Some (VString community) ->
  reqData !! Version = Some (VString version) ->
  switchVersion version = Some v ->
  gosnmp.Connect d g = None ->
  runs (Part004.fetchSNMPSystemData (rangeSNMPOids rt) d g) (inr systemData) t1 ->
  (forall uptime, systemData !! Part004.systemUptime <> Some (VUint32 uptime)) ->
  gosnmp.bounded d ->
  exists out data t,
    runs (Part004.FetchSNMPData rt d reqData) out t /\
    out !! Status = Some (VString Success) /\
    out !! Data = Some (VMap data) /\
    data !! Part004.systemUptime = None.
Proof.
  intros g Hv Hip Hc Hver Hs Hconn Hsys Hup Hb.
  destruct (FetchSNMPData_polls rt d reqData reqData' ip community version v
              systemData t1 Hv Hip Hc Hver Hs Hconn Hsys Hb)
    as (data & t2 & Hrun & Huptime & _).
  eexists _, data, _. split; [exact Hrun|].
  split; [apply lookup_insert_eq|].
  split; [rewrite lookup_insert_ne by done; apply lookup_insert_eq|].
  rewrite Huptime. unfold valueAt.
  destruct (systemData !! Part004.systemUptime) as [[]|] eqn:E; try done.
  by destruct (Hup z).
Qed.

(** C2 (the defect).  In part_004, a job whose session opens and whose
    system fetch fails is answered with status "success", and what failed
    is told under "data", with the error text of a failed connection. *)
Theorem fetch_error_answered_as_success (rt : Runtime) (d : gosnmp.Device)
    (reqData reqData' : gmap string GoValue) (ip community version : string)
    (v : gosnmp.SnmpVersion) (err : string) (t1 : list Event) :
  let g := session ip community v in
  ValidateRequest reqData = (true, reqData') ->
  reqData !! IP = Some (VString ip) ->
  reqData !! Community = Some (VString community) ->
  reqData !! Version = Some (VString version) ->
  switchVersion version = Some v ->
  gosnmp.Connect d g = None ->
  runs (Part004.fetchSNMPSystemData (rangeSNMPOids rt) d g) (inl err) t1 ->
  exists out data,
    runs (Part004.FetchSNMPData rt d reqData) out ([Connected g] ++ t1 ++ [Closed]) /\
    out !! Status = Some (VString Success) /\
    out !! Data = Some (VMap data) /\
    data !! Errors = Some (VString SNMPConnectFail) /\
    data !! Part004.Message = Some (VString err).
Proof.
  intros g Hv Hip Hc Hver Hs Hconn Hsys.
  destruct (ValidateRequest_true _ _ Hv) as [_ Hsame].
  rewrite <- Hsame in Hip, Hc, Hver by done.
  eexists _, _. split; [|split; [|split; [|split]]].
  - unfold Part004.FetchSNMPData. rewrite Hv. cbn [negb].
    rewrite (valueAt_lookup _ _ _ Hip), (valueAt_lookup _ _ _ Hc),
      (valueAt_lookup _ _ _ Hver).
    eapply runs_events.
    + eapply runs_bind; [apply runs_mustString|]. cbv beta.
      eapply runs_bind; [apply runs_mustString|]. cbv beta.
      eapply runs_bind; [apply runs_mustString|]. cbv beta.
      rewrite Hs. cbv zeta. fold (session ip community v). fold g.
      eapply runs_bind; [apply runs_emit|]. rewrite Hconn.
      apply runs_deferClose.
      eapply runs_bind; [exact Hsys|]. cbv beta iota. apply runs_ret.
    + same_events.
  - apply lookup_insert_eq.
  - rewrite lookup_insert_ne by done. apply lookup_insert_eq.
  - rewrite lookup_insert_ne by done. apply lookup_singleton_eq.
  - apply lookup_insert_eq.
Qed.

(** C3 (the defect).  In part_005, every request that passes
    [ValidateRequest], that is, every request that has all the required
    fields, is answered with status "fail" and error "field missing", and
    nothing is asked of the device. *)
Theorem complete_request_rejected (rt : Runtime) (d : gosnmp.Device)
    (reqData reqData' : gmap string GoValue) :
  ValidateRequest reqData = (true, reqData') ->
  runs (Part005.FetchSNMPData rt d reqData)
    (<[Status := VString Fail]> (<[Errors := VString FieldMissing]> reqData')) [].
Proof. intros Hv. unfold Part005.FetchSNMPData. rewrite Hv. apply runs_ret. Qed.

(** C1 (as amended).  For a version other than "1", "2", "2c" and "3": the
    poller of part_004 answers every job that passes the checks on its
    fields with status "fail" and error "unsupported SNMP version", and the
    discovery of part_003 does the same for every job for the SNMP plug-in;
    neither asks anything of the device.  The functions of snmpfetcher.go
    and of discovery.go, which take the version as an argument, write the
    version to the log and go on with version 2c: their first call is a
    connection with that version. *)
Theorem unsupported_version (version : string) :
  version <> "1" -> version <> "2" -> version <> "2c" -> version <> "3" ->
  (forall rt d reqData reqData' community,
     ValidateRequest reqData = (true, reqData') ->
     reqData !! Community = Some (VString community) ->
     reqData !! Version = Some (VString version) ->
     runs (Part004.FetchSNMPData rt d reqData)
       (<[Status := VString Fail]> (<[Errors := VString UnsupportedSNMP]> reqData'))
       []) /\
  (forall d (reqData : gmap string GoValue) ip port community,
     reqData !! PluginType = Some (VString SNMPPlugin) ->
     reqData !! IP = Some (VString ip) ->
     reqData !! Port = Some (VFloat64 port) ->
     reqData !! Community = Some (VString community) ->
     reqData !! Version = Some (VString version) ->
     runs (Part003.Discovery d reqData)
       (<[Status := VString Fail]> (<[Errors := VString UnsupportedSNMP]> reqData))
       [Logged UnsupportedSNMP]) /\
  (forall rt d ip community,
     exists o t g,
       Snmpfetcher.FetchSNMPData rt d ip community version =
         (o, Logged ("Unsupported SNMP version: " +:+ version +:+
                     ". Defaulting to Version2c") :: Connected g :: t) /\
       gosnmp.Version g = gosnmp.Version2c) /\
  (forall d ip community,
     exists o t g,
       Plugin.Discovery d ip community version =
         (o, Logged ("Unsupported SNMP version: " +:+ version +:+
                     ". Defaulting to Version2c") :: Connected g :: t) /\
       gosnmp.Version g = gosnmp.Version2c).
Proof.
  intros H1 H2 H2c H3.
  pose proof (switchVersion_unsupported version H1 H2 H2c H3) as Hs.
  split; [|split; [|split]].
  - intros rt d reqData reqData' community Hv Hc Hver.
    destruct (ValidateRequest_true _ _ Hv) as [[ip Hip] Hsame].
    rewrite <- Hsame in Hc, Hver by done.
    unfold Part004.FetchSNMPData. rewrite Hv. cbn [negb].
    rewrite (valueAt_lookup _ _ _ Hip), (valueAt_lookup _ _ _ Hc),
      (valueAt_lookup _ _ _ Hver).
    eapply runs_events.
    + eapply runs_bind; [apply runs_mustString|]. cbv beta.
      eapply runs_bind; [apply runs_mustString|]. cbv beta.
      eapply runs_bind; [apply runs_mustString|]. cbv beta.
      rewrite Hs. apply runs_ret.
    + reflexivity.
  - intros d reqData ip port community Hp Hip Hport Hc Hver.
    unfold Part003.Discovery.
    rewrite (valueAt_lookup _ _ _ Hp), (valueAt_lookup _ _ _ Hip),
      (valueAt_lookup _ _ _ Hport), (valueAt_lookup _ _ _ Hc),
      (valueAt_lookup _ _ _ Hver).
    cbn [eqString SNMPPlugin String.eqb Ascii.eqb Bool.eqb negb].
    eapply runs_events.
    + eapply runs_bind; [apply runs_mustString|]. cbv beta.
      eapply runs_bind; [reflexivity|]. cbv beta.
      eapply runs_bind; [apply runs_mustString|]. cbv beta.
      eapply runs_bind; [apply runs_mustString|]. cbv beta.
      rewrite Hs. eapply runs_bind; [apply runs_emit|apply runs_ret].
    + reflexivity.
  - intros rt d ip community. unfold Snmpfetcher.FetchSNMPData.
    rewrite Hs, bind_emit_ret, bind_emit.
    match goal with
    | |- context [Connected ?g0] => set (g := g0)
    end.
    destruct (match gosnmp.Connect d g with Some _ => _ | None => _ end)
      as [o t].
    by exists o, t, g.
  - intros d ip community. unfold Plugin.Discovery.
    rewrite Hs, bind_emit_ret, bind_emit.
    match goal with
    | |- context [Connected ?g0] => set (g := g0)
    end.
    destruct (match gosnmp.Connect d g with Some _ => _ | None => _ end)
      as [o t].
    by exists o, t, g.
Qed.

End Answers.

(** ** The statements above on the sample devices *)
Section Samples.
Import Part003 Lab.

Lemma request_validated (version : string) :
  ValidateRequest (request version) = (true, validated version).
Proof. reflexivity. Qed.

Lemma systemOrder_keys : keysOf util.SNMPOids systemOrder.
Proof. unfold keysOf. apply (bool_decide_unpack _). vm_compute. reflexivity. Qed.

Lemma agent_scalars (rows : list Z) (g : gosnmp.GoSNMP) :
  runs (Part004.fetchSNMPSystemData systemOrder (agent ticks rows) g)
       (inr scalars) [Got g systemOrder].
Proof. reflexivity. Qed.

Lemma flaky_scalars (rows : list Z) (g : gosnmp.GoSNMP) :
  runs (Part004.fetchSNMPSystemData systemOrder (flaky 3 rows) g)
       (inr scalars) [Got g systemOrder].
Proof. reflexivity. Qed.

Lemma flaky_walk (g : gosnmp.GoSNMP) :
  runs (Part004.getInterfaceIndexes (flaky 3 [1; 2; 3; 4; 5]) g)
       (inr [1; 2; 3; 4; 5]) [Walked g Part004.targetOID].
Proof. reflexivity. Qed.

Lemma scalars_stored_by_position_witness :
  keysOf util.SNMPOids systemOrder /\
  exists snmpData,
    runs (Part004.fetchSNMPSystemData systemOrder (agent ticks [1; 2]) g2c)
         (inr snmpData) [Got g2c systemOrder] /\
    snmpData !! "system.uptime" = Some (VUint32 864005900) /\
    snmpData !! "system.name" = Some (VString "core-sw1") /\
    snmpData !! "system.interfaces" = Some (VInt 2) /\
    snmpData !! "system.description" = Some (VString "24-port switch") /\
    snmpData !! "system.location" = Some (VString "rack 4") /\
    snmpData !! "system.objectId" = Some (VString ".1.3.6.1.4.1.9.1.1").
Proof.
  split; [apply systemOrder_keys|].
  destruct (scalars_stored_by_position systemOrder (agent ticks [1; 2]) g2c
              (answer ticks <$> systemOrder) systemOrder_keys eq_refl
              (Nat.le_refl _)) as [(snmpData & Hrun & Hpos) _].
  exists snmpData. split; [exact Hrun|].
  split; [exact (Hpos 0%nat _ _ eq_refl eq_refl)|].
  split; [exact (Hpos 1%nat _ _ eq_refl eq_refl)|].
  split; [exact (Hpos 2%nat _ _ eq_refl eq_refl)|].
  split; [exact (Hpos 3%nat _ _ eq_refl eq_refl)|].
  split; [exact (Hpos 4%nat _ _ eq_refl eq_refl)|].
  exact (Hpos 5%nat _ _ eq_refl eq_refl).
Defined.

Lemma failed_interface_is_skipped_witness :
  fetched inOrder (flaky 3 [1; 2; 3; 4; 5]) g2c 3 = inl "request timeout" /\
  exists out data recs t,
    runs (Part004.FetchSNMPData inOrder (flaky 3 [1; 2; 3; 4; 5]) (request "2c"))
         out t /\
    out !! "status" = Some (VString "success") /\
    out !! "data" = Some (VMap data) /\
    data !! "interfaces" = Some (VList (VMap <$> recs)) /\
    data !! "interfaces.error" = None /\
    indexOf <$> recs =
      [Some (VString "1"); Some (VString "2"); Some (VString "4");
       Some (VString "5")] /\
    (forall i, i ∈ [1; 2; 3; 4; 5] ->
       Got g2c (Part004.interfaceOids interfaceOrder i) ∈ t) /\
    skipped 3 "request timeout" ∈ t.
Proof.
  split; [reflexivity|].
  destruct (failed_interface_is_skipped inOrder (flaky 3 [1; 2; 3; 4; 5])
              (request "2c") (validated "2c") "192.0.2.7" "public" "2c"
              gosnmp.Version2c scalars [Got g2c systemOrder] [1; 2; 3; 4; 5]
              (request_validated "2c") eq_refl eq_refl eq_refl eq_refl eq_refl
              (flaky_scalars _ _) (flaky_walk _) (flaky_bounded _ _))
    as (out & data & recs & t & Hrun & Hstatus & Hdata & Hif & Hnoerr & Hidx &
        Hgot & Hlog).
  exists out, data, recs, t.
  split; [exact Hrun|]. split; [exact Hstatus|]. split; [exact Hdata|].
  split; [exact Hif|]. split; [exact Hnoerr|]. split; [exact Hidx|].
  split; [exact Hgot|].
  apply (Hlog 3 "request timeout"); [|reflexivity].
  apply elem_of_cons. right. apply elem_of_cons. right. apply elem_of_cons. by left.
Defined.

Lemma agent_walk_sparse (g : gosnmp.GoSNMP) :
  gosnmp.Walk (agent ticks [5; 9]) g Part004.targetOID =
    ([pdu ".1.3.6.1.2.1.31.1.1.1.1.5" gosnmp.OctetString (gosnmp.DBytes "port5");
      pdu ".1.3.6.1.2.1.31.1.1.1.1.9" gosnmp.OctetString (gosnmp.DBytes "port9")],
     None).
Proof. reflexivity. Qed.

Lemma interfaces_enumerated_by_walk_witness :
  dataAt (Part004.FetchSNMPData inOrder (agent ticks [5; 9]) (request "2c"))
         "system.interfaces" = Some (VInt 2) /\
  exists out data t,
    runs (Part004.FetchSNMPData inOrder (agent ticks [5; 9]) (request "2c")) out t /\
    out !! "data" = Some (VMap data) /\
    data !! "system.interfaces" = Some (VInt 2) /\
    networkCalls t =
      [Connected g2c; Got g2c systemOrder; Walked g2c ".1.3.6.1.2.1.31.1.1.1.1";
       Got g2c (Part004.interfaceOids interfaceOrder 5);
       Got g2c (Part004.interfaceOids interfaceOrder 9)].
Proof.
  split; [reflexivity|].
  destruct (interfaces_enumerated_by_walk inOrder (agent ticks [5; 9])
              (request "2c") (validated "2c") "192.0.2.7" "public" "2c"
              gosnmp.Version2c scalars [Got g2c systemOrder] _
              (request_validated "2c") eq_refl eq_refl eq_refl eq_refl eq_refl
              (agent_scalars _ _) (agent_walk_sparse _)
              ltac:(repeat constructor) (agent_bounded _ _))
    as (_ & _ & _ & out & data & t & Hrun & Hdata & Hcount & Hnet).
  exists out, data, t. split; [exact Hrun|]. split; [exact Hdata|].
  split; [exact Hcount|exact Hnet].
Defined.

Lemma agent_answered (uptime : gosnmp.SnmpPDU) (rows : list Z)
    (rt : Runtime) (g : gosnmp.GoSNMP) (i : Z) :
  answered rt (agent uptime rows) g i = true.
Proof. reflexivity. Qed.

Lemma one_record_per_index_witness :
  gosnmp.bounded (agent ticks [2; 7]) /\
  completes lastFirst /\
  (exists recs t,
     runs (Part004.getInterfaces lastFirst (agent ticks [2; 7]) g2c [2; 7])
          (recs, None) t /\
     length recs = 2%nat /\
     indexOf <$> recs = [Some (VString "2"); Some (VString "7")]) /\
  (exists recs t,
     runs (Snmpfetcher.GetInterfaces lastFirst (agent ticks [2; 7]) g2c 2)
          (recs, None) t /\
     length recs = 2%nat) /\
  Snmpfetcher.GetInterfaces lastFirst (agent ticks [2; 7]) g2c (2 ^ 63 - 1) =
    (Panic MakesliceCap, []).
Proof.
  split; [apply agent_bounded|]. split; [apply rev_completes|].
  destruct (one_record_per_index lastFirst (agent ticks [2; 7]) g2c
              (agent_bounded _ _)) as (Hseq & Hconc & Hmake).
  split; [|split].
  - destruct (Hseq [2; 7]) as (recs & t & Hrun & Hlen & Hidx).
    { intros i _. apply agent_answered. }
    exists recs, t. split; [exact Hrun|]. split; [exact Hlen|exact Hidx].
  - destruct (Hconc 2) as (recs & t & Hrun & Hlen & _);
      [lia|unfold maxAlloc; lia|apply rev_completes|].
    exists recs, t. split; [exact Hrun|exact Hlen].
  - apply Hmake. right. unfold maxAlloc. lia.
Defined.


Lemma noUptime_scalars (rows : list Z) (g : gosnmp.GoSNMP) :
  runs (Part004.fetchSNMPSystemData systemOrder (agent noUptime rows) g)
       (inr (<["system.uptime" := VString "nil"]> scalars)) [Got g systemOrder].
Proof. reflexivity. Qed.

Lemma uptime_that_is_not_ticks_is_left_out_witness :
  (<["system.uptime" := VString "nil"]> scalars) !! "system.uptime" =
    Some (VString "nil") /\
  exists out data t,
    runs (Part004.FetchSNMPData inOrder (agent noUptime [1; 2]) (request "2c")) out t /\
    out !! "status" = Some (VString "success") /\
    out !! "data" = Some (VMap data) /\
    data !! "system.uptime" = None.
Proof.
  split; [reflexivity|].
  apply (uptime_that_is_not_ticks_is_left_out inOrder (agent noUptime [1; 2])
           (request "2c") (validated "2c") "192.0.2.7" "public" "2c"
           gosnmp.Version2c (<["system.uptime" := VString "nil"]> scalars)
           [Got g2c systemOrder]
           (request_validated "2c") eq_refl eq_refl eq_refl eq_refl eq_refl
           (noUptime_scalars _ _)); [|apply agent_bounded].
  intros uptime H. discriminate H.
Defined.

Lemma fetch_error_answered_as_success_witness :
  runs (Part004.fetchSNMPSystemData systemOrder silent g2c)
       (inl "request timeout") [Got g2c systemOrder] /\
  exists out data,
    runs (Part004.FetchSNMPData inOrder silent (request "2c")) out
         [Connected g2c; Got g2c systemOrder; Closed] /\
    out !! "status" = Some (VString "success") /\
    out !! "data" = Some (VMap data) /\
    data !! "error" = Some (VString "SNMP connection failed") /\
    data !! "message" = Some (VString "request timeout").
Proof.
  split; [reflexivity|].
  apply (fetch_error_answered_as_success inOrder silent
           (request "2c") (validated "2c") "192.0.2.7" "public" "2c"
           gosnmp.Version2c "request timeout" [Got g2c systemOrder]
           (request_validated "2c") eq_refl eq_refl eq_refl eq_refl eq_refl
           eq_refl).
Defined.

Lemma complete_request_rejected_witness :
  ValidateRequest (request "2c") = (true, validated "2c") /\
  runs (Part005.FetchSNMPData inOrder (agent ticks [1; 2]) (request "2c"))
    (<["status" := VString "fail"]>
       (<["error" := VString "field missing"]> (validated "2c"))) [].
Proof.
  split; [apply request_validated|].
  apply (complete_request_rejected inOrder (agent ticks [1; 2])
           (request "2c") (validated "2c") (request_validated "2c")).
Defined.

Lemma unsupported_version_witness :
  runs (Part004.FetchSNMPData inOrder (agent ticks [1; 2]) (request "4"))
    (<["status" := VString "fail"]>
       (<["error" := VString "unsupported SNMP version"]> (validated "4"))) [] /\
  runs (Part003.Discovery (agent ticks [1; 2]) (request "4"))
    (<["status" := VString "fail"]>
       (<["error" := VString "unsupported SNMP version"]> (request "4")))
    [Logged "unsupported SNMP version"].
Proof.
  destruct (unsupported_version "4" ltac:(discriminate) ltac:(discriminate)
              ltac:(discriminate) ltac:(discriminate)) as (Hpoll & Hdisc & _).
  split.
  - apply (Hpoll inOrder (agent ticks [1; 2]) (request "4") (validated "4")
             "public" (request_validated "4") eq_refl eq_refl).
  - apply (Hdisc (agent ticks [1; 2]) (request "4") "192.0.2.7" (161 # 1)%Q
             "public" eq_refl eq_refl eq_refl eq_refl eq_refl).
Defined.

(** ** The checks on the fields of a request *)

Lemma size_insert_positive (m : gmap string string) (k v : string) :
  (0 <? size (<[k := v]> m))%nat = true.
Proof.
  apply Nat.ltb_lt. destruct (size (<[k := v]> m)) eqn:Hsize; [|lia].
  apply map_size_empty_iff in Hsize. by apply insert_non_empty in Hsize.
Qed.

(** The worker of zmq.go answers a request that lacks the address, the
    community or the version with the error "Missing or null field",
    without calling the poller. *)
Lemma serve_incomplete (rt : Runtime) (d : gosnmp.Device)
    (reqData : gmap string string) :
  present reqData "ip" && present reqData "community" &&
    present reqData "version" = false ->
  exists details,
    runs (Handler.serve rt d reqData)
      (<["details" := VMap details]> {["error" := VString "Missing or null field"]})
      [].
Proof.
  unfold present, Handler.serve, Handler.validateRequest, Handler.checkFields,
    Handler.ipKey, Handler.communityKey, Handler.versionKey.
  destruct (reqData !! "ip") as [ip|];
    [destruct (String.eqb ip EmptyString)|];
    (destruct (reqData !! "community") as [community|];
      [destruct (String.eqb community EmptyString)|]);
    (destruct (reqData !! "version") as [version|];
      [destruct (String.eqb version EmptyString)|]);
    cbn [negb andb]; intros Hmissing; try discriminate Hmissing;
    cbv iota beta; rewrite size_insert_positive; eexists; apply runs_ret.
Qed.

(** It hands every other request to the poller. *)
Lemma serve_complete (rt : Runtime) (d : gosnmp.Device)
    (reqData : gmap string string) :
  present reqData "ip" && present reqData "community" &&
    present reqData "version" = true ->
  Handler.serve rt d reqData =
    Snmpfetcher.FetchSNMPData rt d (field reqData "ip") (field reqData "community")
      (field reqData "version").
Proof.
  unfold present, Handler.serve, Handler.validateRequest, Handler.checkFields,
    Handler.ipKey, Handler.communityKey, Handler.versionKey.
  destruct (reqData !! "ip") as [ip|] eqn:Hip;
    [destruct (String.eqb ip EmptyString)|];
    (destruct (reqData !! "community") as [community|] eqn:Hc;
      [destruct (String.eqb community EmptyString)|]);
    (destruct (reqData !! "version") as [version|] eqn:Hv;
      [destruct (String.eqb version EmptyString)|]);
    cbn [negb andb]; intros Hall; try discriminate Hall.
  reflexivity.
Qed.

(** The poller of part_004 answers a request that fails [ValidateRequest]
    with status "fail" and error "field missing", and asks nothing of the
    device. *)
Lemma incomplete_request_rejected (rt : Runtime) (d : gosnmp.Device)
    (reqData reqData' : gmap string GoValue) :
  ValidateRequest reqData = (false, reqData') ->
  runs (Part004.FetchSNMPData rt d reqData)
    (<[Status := VString Fail]> (<[Errors := VString FieldMissing]> reqData')) [].
Proof. intros Hv. unfold Part004.FetchSNMPData. rewrite Hv. apply runs_ret. Qed.

(** The poller of part_005 polls a request that has no request identifier. *)
Lemma incomplete_request_polled :
  let r := Part005.FetchSNMPData inOrder (agent ticks [1; 2])
             (delete "requestId" (request "2c")) in
  (ValidateRequest (delete "requestId" (request "2c"))).1 = false /\
  answerAt r "status" = Some (VString "success") /\
  answerAt r "error" = None /\
  length (networkCalls r.2) = 4%nat /\
  dataAt r "system.uptime" =
    Some (VString "Uptime: 100 days, 00 hours, 00 minutes, 59 seconds").
Proof. cbv zeta. repeat split; reflexivity. Qed.

(** ** Other answers on the sample devices *)

(** A job of part_004 whose session cannot be opened is answered with
    status "fail"; what failed is told under "data", and there is no
    "error". *)
Lemma connection_failure_answered_with_data :
  let r := Part004.FetchSNMPData inOrder unreachable (request "2c") in
  answerAt r "status" = Some (VString "fail") /\
  answerAt r "error" = None /\
  dataAt r "error" = Some (VString "SNMP connection failed") /\
  dataAt r "message" = Some (VString "dial udp: no route to host").
Proof. cbv zeta. repeat split; reflexivity. Qed.

(** The type assertion of part_005 (and of polling.go) on the up-time
    scalar is unchecked: an agent without the scalar makes the job panic. *)
Lemma unchecked_uptime_panics :
  (Part005.FetchSNMPData inOrder (agent noUptime [1; 2])
     (delete "requestId" (request "2c"))).1 = Panic TypeAssertion.
Proof. reflexivity. Qed.

(** A job of part_004 that has no community panics. *)
Lemma absent_community_panics :
  (ValidateRequest (delete "community" (request "2c"))).1 = true /\
  Part004.FetchSNMPData inOrder (agent ticks [1; 2])
    (delete "community" (request "2c")) = (Panic TypeAssertion, []).
Proof. split; reflexivity. Qed.

(** ** Where the statements of the specification fail *)

(** Counterexample to C1.  Version "4" in snmpfetcher.go: the job is not
    refused; the session is opened with version 2c, four requests go to the
    device, and the answer is the data of the device, without an error. *)
Lemma unsupported_version_defaulted :
  let r := Snmpfetcher.FetchSNMPData inOrder (agent ticks [1; 2])
             "192.0.2.7" "public" "4" in
  switchVersion "4" = None /\
  head (networkCalls r.2) =
    Some (Connected {| gosnmp.Target := "192.0.2.7"; gosnmp.Port := 161;
                       gosnmp.Community := "public";
                       gosnmp.Version := gosnmp.Version2c;
                       gosnmp.Timeout := 2000; gosnmp.Retries := 2 |}) /\
  length (networkCalls r.2) = 4%nat /\
  answerAt r "error" = None /\
  answerAt r "system.name" = Some (VString "core-sw1").
Proof. cbv zeta. repeat split; reflexivity. Qed.

(** Counterexample to C4.  An agent without the up-time scalar, in
    part_004: the job is answered with status "success", not "fail". *)
Lemma absent_uptime_answered_as_success :
  let r := Part004.FetchSNMPData inOrder (agent noUptime [1; 2]) (request "2c") in
  answerAt r "status" = Some (VString "success") /\
  answerAt r "status" <> Some (VString "fail") /\
  dataAt r "system.uptime" = None.
Proof. cbv zeta. split; [reflexivity|]. split; [discriminate|reflexivity]. Qed.

(** Counterexample to C5.  Five interfaces of which the third times out, in
    [getInterfaces] of polling.go and part_005: the function returns no list
    at all, and interfaces 4 and 5 are never asked for. *)
Lemma failed_interface_aborts_the_list :
  let g := g2c in
  Part005.getInterfaces inOrder (flaky 3 []) g 5 =
    (Done (None, Some "request timeout"),
     [Got g (Part005.interfaceOids interfaceOrder 1);
      Got g (Part005.interfaceOids interfaceOrder 2);
      Got g (Part005.interfaceOids interfaceOrder 3);
      Logged "Failed to fetch data for interface 3: request timeout"]).
Proof. reflexivity. Qed.

(** Counterexample to C6.  An agent with the interfaces 5 and 9, which
    reports two interfaces, in snmpfetcher.go: there is no walk, and the
    interfaces asked for are 1 and 2. *)
Lemma interfaces_enumerated_by_count :
  let g := {| gosnmp.Target := "192.0.2.7"; gosnmp.Port := 161;
              gosnmp.Community := "public"; gosnmp.Version := gosnmp.Version2c;
              gosnmp.Timeout := 2000; gosnmp.Retries := 2 |} in
  networkCalls (Snmpfetcher.FetchSNMPData inOrder (agent ticks [5; 9])
                  "192.0.2.7" "public" "2c").2 =
    [Connected g; Got g systemOrder;
     Got g (Snmpfetcher.interfaceOids interfaceOrder 1);
     Got g (Snmpfetcher.interfaceOids interfaceOrder 2)].
Proof. reflexivity. Qed.

(** Counterexample to C7.  Two interfaces whose fetches both succeed, in
    snmpfetcher.go, in a run where the fetch for interface 2 completes
    first: the list has the record of interface 2 before the record of
    interface 1. *)
Lemma completion_order_is_kept :
  completes lastFirst /\
  exists recs t,
    runs (Snmpfetcher.GetInterfaces lastFirst (agent ticks [1; 2]) g2c 2)
         (recs, None) t /\
    (fun record : gmap string string => record !! "Index") <$> recs =
      [Some "2"; Some "1"].
Proof.
  split; [apply rev_completes|].
  eexists _, _. split; reflexivity.
Qed.


End Samples.

(** * Further properties of the code *)

Section Validation2.
Import Part003.

(** X1. [ValidateRequest] of part_003 accepts a request exactly when "ip",
    "pluginType" and "requestId" are strings that are not blank and "port"
    is present, whatever its type.  The only change it makes to the
    request is to replace a [float64] port by its conversion to [int]
    ([toInt]: the integer part when an [int] holds it, and the least [int]
    otherwise), and a request it refuses is left as it was. *)
Theorem ValidateRequest_characterised (reqData : gmap string GoValue) :
  let complete :=
    nonBlank reqData IP && nonBlank reqData PluginType &&
    nonBlank reqData RequestID && hasKey reqData Port in
  ValidateRequest reqData =
    (complete,
     if complete then
       match reqData !! Port with
       | Some (VFloat64 v) => <[Port := VInt (toInt v)]> reqData
       | _ => reqData
       end
     else reqData) /\
  (forall v : Q,
     - 2 ^ 63 <= toInt v < 2 ^ 63 /\
     (- 2 ^ 63 <= truncate v < 2 ^ 63 -> toInt v = truncate v) /\
     (truncate v < - 2 ^ 63 \/ 2 ^ 63 <= truncate v -> toInt v = - 2 ^ 63)).
Proof.
  split.
  2: { intros v. unfold toInt. cbv zeta.
       destruct (Z.leb_spec (- 2 ^ 63) (truncate v)),
         (Z.ltb_spec (truncate v) (2 ^ 63)); cbn [andb]; lia. }
  cbv zeta. unfold ValidateRequest, nonBlank, hasKey.
  cbn [validateFields String.eqb Ascii.eqb Bool.eqb IP PluginType RequestID Port].
  repeat match goal with
  | |- context [reqData !! ?k] =>
      destruct (reqData !! k) as [[]|]; try reflexivity
  | |- context [String.eqb (TrimSpace ?s) EmptyString] =>
      destruct (String.eqb (TrimSpace s) EmptyString); try reflexivity
  end.
Qed.

End Validation2.

Lemma runs_bind_inv {A B} (m : Go A) (f : A -> Go B) (b : B) (t : list Event) :
  runs (m ≫= f) b t ->
  exists a t1 t2, runs m a t1 /\ runs (f a) b t2 /\ t = t1 ++ t2.
Proof.
  unfold runs, mbind, go_bind, bind. destruct m as [[a|k] t1]; [|done].
  destruct (f a) as [o t2] eqn:Hf. intros [= -> <-]. by exists a, t1, t2.
Qed.

Lemma runs_deferClose_inv {A} (body : Go A) (a : A) (t : list Event) :
  runs (deferClose body) a t -> exists t', runs body a t' /\ t = t' ++ [Closed].
Proof.
  unfold runs, deferClose. destruct body as [o t']. intros [= -> <-]. by exists t'.
Qed.

Lemma runs_ret_inv {A} (a b : A) (t : list Event) :
  runs (mret a) b t -> b = a /\ t = [].
Proof. by intros [= -> ->]. Qed.

Lemma runs_mustString_inv (v : GoValue) (s : string) (t : list Event) :
  runs (mustString v) s t -> v = VString s /\ t = [].
Proof. destruct v; try done. by intros [= -> ->]. Qed.

Lemma bind_ret_l {A B} (a : A) (f : A -> Go B) : mret a ≫= f = f a.
Proof.
  unfold mbind, go_bind, bind, mret, go_ret, ret. by destruct (f a).
Qed.

Lemma trace_bind {A B} (m : Go A) (f : A -> Go B) :
  (m ≫= f).2 = m.2 ++ match m.1 with Done a => (f a).2 | Panic _ => [] end.
Proof.
  unfold mbind, go_bind, bind. destruct m as [[a|k] t]; simpl.
  - by destruct (f a).
  - by rewrite app_nil_r.
Qed.

Lemma trace_deferClose {A} (body : Go A) : (deferClose body).2 = body.2 ++ [Closed].
Proof. unfold deferClose. by destruct body. Qed.

(** ** The events of a job *)

Lemma requests_app (t t' : list Event) :
  requests (t ++ t') = requests t && requests t'.
Proof. apply forallb_app. Qed.

Lemma requests_bind {A B} (m : Go A) (f : A -> Go B) :
  requests m.2 = true -> (forall a, requests (f a).2 = true) ->
  requests (m ≫= f).2 = true.
Proof.
  intros Hm Hf. rewrite trace_bind, requests_app, Hm.
  destruct m.1; [apply Hf|reflexivity].
Qed.

Lemma closedAtEnd_requests (t : list Event) :
  requests t = true -> closedAtEnd (t ++ [Closed]) = true.
Proof.
  induction t as [|e t IH]; [done|]. simpl.
  destruct e; try done; intros H; by apply IH.
Qed.

Lemma requests_at {A B} (l : list A) (i : nat) (f : A -> Go B) :
  (forall a, requests (f a).2 = true) -> requests (at_ l i ≫= f).2 = true.
Proof.
  intros Hf. apply requests_bind; [|done]. unfold at_. by destruct (l !! i).
Qed.

Lemma requests_storeByPosition {V} (table : gmap string string)
    (conv : gosnmp.Decoded -> V) (oidArray : list string)
    (variables : list gosnmp.SnmpPDU) (i : nat) (data : gmap string V) :
  requests (storeByPosition table conv oidArray variables i data).2 = true.
Proof.
  revert i data. induction variables as [|variable rest IH]; intros i data; [done|].
  cbn [storeByPosition]. cbv zeta. apply requests_at. intros oid. apply IH.
Qed.

Lemma requests_storeNonNil {V} (conv : string -> gosnmp.Decoded -> V)
    (fields : list string) (variables : list gosnmp.SnmpPDU) (k : nat)
    (data : gmap string V) :
  requests (storeNonNil conv fields variables k data).2 = true.
Proof.
  revert k data. induction variables as [|variable rest IH]; intros k data; [done|].
  cbn [storeNonNil].
  destruct (gosnmp.Value variable); try apply IH;
    apply requests_at; intros f; apply IH.
Qed.

Lemma requests_emit {B} (e : Event) (k : Go B) :
  requests [e] = true -> requests k.2 = true -> requests (emit e;; k).2 = true.
Proof. intros He Hk. apply requests_bind; [exact He|by intros _]. Qed.

Section Hygiene.

Lemma requests_fetchSNMPSystemData004 (order : list string) (d : gosnmp.Device)
    (g : gosnmp.GoSNMP) :
  requests (Part004.fetchSNMPSystemData order d g).2 = true.
Proof.
  unfold Part004.fetchSNMPSystemData. cbv zeta.
  destruct (length order =? 0)%nat; [done|].
  apply requests_emit; [done|].
  destruct (gosnmp.Get d g order); [done|].
  apply requests_bind; [|done].
  apply (requests_storeByPosition util.SNMPOids Part004.systemValue).
Qed.

Lemma requests_getInterfaceIndexes (d : gosnmp.Device) (g : gosnmp.GoSNMP) :
  requests (Part004.getInterfaceIndexes d g).2 = true.
Proof.
  destruct (getInterfaceIndexes_runs d g) as [r Hr]. by rewrite Hr.
Qed.

Lemma requests_getInterface004 (order : list string) (d : gosnmp.Device)
    (index : Z) (g : gosnmp.GoSNMP) :
  requests (Part004.getInterface order d index g).2 = true.
Proof.
  unfold Part004.getInterface. cbv zeta. apply requests_emit; [done|].
  destruct (gosnmp.Get d g _); [done|].
  apply requests_bind; [|done].
  apply (requests_storeNonNil Part004.interfaceValue).
Qed.

Lemma requests_collect004 (rt : Runtime) (d : gosnmp.Device) (g : gosnmp.GoSNMP)
    (indexes : list Z) (acc : list (gmap string GoValue)) :
  requests (Part004.collect rt d g indexes acc).2 = true.
Proof.
  revert acc. induction indexes as [|index rest IH]; intros acc; [done|].
  cbn [Part004.collect]. apply requests_bind; [apply requests_getInterface004|].
  intros [data [err|]]; cbn [snd fst]; [|apply IH].
  apply requests_emit; [done|apply IH].
Qed.

Lemma hygienic_session {A} (d : gosnmp.Device) (g : gosnmp.GoSNMP)
    (refused : string -> Go A) (body : Go A) :
  (forall err, onlyLogs (refused err).2 = true) ->
  requests body.2 = true ->
  hygienic d (emit (Connected g);;
              match gosnmp.Connect d g with
              | Some err => refused err
              | None => deferClose body
              end).2 = true.
Proof.
  intros Hrefused Hbody. rewrite trace_bind. cbn [emit fst snd app hygienic].
  destruct (gosnmp.Connect d g) as [err|]; [apply Hrefused|].
  rewrite trace_deferClose. by apply closedAtEnd_requests.
Qed.

Lemma hygienic_mustString {A} (d : gosnmp.Device) (v : GoValue)
    (f : string -> Go A) :
  (forall s, hygienic d (f s).2 = true) ->
  hygienic d (mustString v ≫= f).2 = true.
Proof.
  intros Hf. destruct v; try reflexivity. cbn [mustString].
  change (ret s) with (mret s : Go string). rewrite bind_ret_l. apply Hf.
Qed.


Lemma requests_fetchSNMPSystemData005 (order : list string) (d : gosnmp.Device)
    (g : gosnmp.GoSNMP) :
  requests (Part005.fetchSNMPSystemData order d g).2 = true.
Proof.
  unfold Part005.fetchSNMPSystemData. cbv zeta.
  destruct (length order =? 0)%nat; [done|].
  apply requests_emit; [done|].
  destruct (gosnmp.Get d g order); [done|].
  apply requests_bind; [|done].
  apply (requests_storeByPosition util.SNMPOids Part005.systemValue).
Qed.

Lemma requests_makeslice (size cap : Z) : requests (makeslice size cap).2 = true.
Proof. unfold makeslice. by destruct (_ || _). Qed.

Lemma requests_getInterface005 (order : list string) (d : gosnmp.Device)
    (i : Z) (g : gosnmp.GoSNMP) :
  requests (Part005.getInterface order d i g).2 = true.
Proof.
  unfold Part005.getInterface. cbv zeta. apply requests_emit; [done|].
  destruct (gosnmp.Get d g _); [by apply requests_emit|].
  apply requests_bind; [|done].
  apply (requests_storeNonNil Part005.interfaceValue).
Qed.

Lemma requests_collect005 (rt : Runtime) (d : gosnmp.Device) (g : gosnmp.GoSNMP)
    (ivals : list Z) (acc : list (gmap string GoValue)) :
  requests (Part005.collect rt d g ivals acc).2 = true.
Proof.
  revert acc. induction ivals as [|i rest IH]; intros acc; [done|].
  cbn [Part005.collect]. apply requests_bind; [apply requests_getInterface005|].
  intros [data [err|]]; cbn [snd fst]; [done|apply IH].
Qed.

Lemma requests_FetchSNMPSystemData (order : list string) (d : gosnmp.Device)
    (g : gosnmp.GoSNMP) :
  requests (Snmpfetcher.FetchSNMPSystemData order d g).2 = true.
Proof.
  unfold Snmpfetcher.FetchSNMPSystemData. cbv zeta.
  destruct (length order =? 0)%nat; [done|].
  apply requests_emit; [done|].
  destruct (gosnmp.Get d g order); [done|].
  apply requests_bind; [|done].
  apply (requests_storeByPosition config.SNMPOids Snmpfetcher.systemValue).
Qed.

Lemma requests_getInterface_fetcher (order : list string) (d : gosnmp.Device)
    (i : Z) (g : gosnmp.GoSNMP) :
  requests (Snmpfetcher.getInterface order d i g).2 = true.
Proof.
  unfold Snmpfetcher.getInterface. cbv zeta. apply requests_emit; [done|].
  destruct (gosnmp.Get d g _); [by apply requests_emit|].
  apply (requests_storeNonNil Snmpfetcher.interfaceValue).
Qed.

Lemma requests_appendAll (rt : Runtime) (d : gosnmp.Device) (g : gosnmp.GoSNMP)
    (done : list Z) (acc : list (gmap string string)) :
  requests (Snmpfetcher.appendAll rt d g done acc).2 = true.
Proof.
  revert acc. induction done as [|i rest IH]; intros acc; [done|].
  cbn [Snmpfetcher.appendAll].
  apply requests_bind; [apply requests_getInterface_fetcher|]. intros data. apply IH.
Qed.

Lemma requests_firstOctetString (variables : list gosnmp.SnmpPDU) :
  requests (Part003.firstOctetString variables).2 = true /\
  requests (Plugin.firstOctetString variables).2 = true.
Proof.
  induction variables as [|variable rest [IH1 IH2]]; [done|]. simpl.
  destruct (gosnmp.Type_ variable); try done.
  by destruct (gosnmp.Value variable).
Qed.

Lemma hygienic_logged {A} (d : gosnmp.Device) (msg : string) (k : Go A) :
  hygienic d (emit (Logged msg);; k).2 = hygienic d k.2.
Proof. by rewrite trace_bind. Qed.

Lemma hygienic_defaulted {A B} (d : gosnmp.Device) (msg : string) (a : A)
    (f : A -> Go B) :
  hygienic d ((emit (Logged msg);; mret a) ≫= f).2 = hygienic d (f a).2.
Proof. rewrite bind_emit_ret. by destruct (f a). Qed.

(** X2. Whatever the request and the device, and also when the job panics,
    the events of a polling job are [hygienic]: nothing is asked of the
    device before the session is opened, nothing is asked after a
    connection that was refused, and a session that was opened is closed
    exactly once, by the last thing the job does.  This holds for the
    pollers of part_004 and of part_005.  The poller of snmpfetcher.go asks
    for the interfaces in goroutines of their own, and a panic in one of
    them ends the program: of that poller the same is stated for the jobs
    that return. *)
Theorem session_of_a_polling_job_is_closed (rt : Runtime) (d : gosnmp.Device) :
  (forall reqData, hygienic d (Part004.FetchSNMPData rt d reqData).2 = true) /\
  (forall reqData, hygienic d (Part005.FetchSNMPData rt d reqData).2 = true) /\
  (forall ip community version out t,
     runs (Snmpfetcher.FetchSNMPData rt d ip community version) out t ->
     hygienic d t = true).
Proof.
  split; [|split].
  - intros reqData. unfold Part004.FetchSNMPData.
    destruct (Part003.ValidateRequest reqData) as [[] reqData']; [|reflexivity].
    cbn [negb]. apply hygienic_mustString. intros ip.
    apply hygienic_mustString. intros community.
    apply hygienic_mustString. intros version.
    destruct (switchVersion version) as [v|]; [|reflexivity].
    cbv zeta. apply hygienic_session; [done|].
    apply requests_bind; [apply requests_fetchSNMPSystemData004|].
    intros [err|systemData]; [done|]. cbv zeta.
    apply requests_bind; [apply requests_getInterfaceIndexes|].
    intros [err|indexes].
    + apply requests_bind; done.
    + apply requests_bind; [|done].
      apply requests_bind.
      * unfold Part004.getInterfaces. apply requests_bind; [|done].
        apply requests_collect004.
      * intros [recs [err|]]; done.
  - intros reqData. unfold Part005.FetchSNMPData.
    destruct (Part003.ValidateRequest reqData) as [[] reqData']; [reflexivity|].
    cbv zeta. apply hygienic_mustString. intros ip.
    apply hygienic_mustString. intros community.
    destruct (from_option switchVersion None _) as [v|]; [|reflexivity].
    apply hygienic_session; [done|].
    apply requests_bind; [apply requests_fetchSNMPSystemData005|].
    intros [err|systemData]; [done|]. cbv zeta.
    apply requests_bind; [by destruct (valueAt systemData _)|]. intros uptime.
    apply requests_bind; [|done].
    destruct (0 <? _); [|done].
    apply requests_bind; [|by intros [recs [err|]]].
    unfold Part005.getInterfaces.
    apply requests_bind; [apply requests_makeslice|]. intros _.
    apply requests_collect005.
  - intros ip community version out t Hrun.
    change t with (Done out, t).2. rewrite <- Hrun. clear Hrun.
    unfold Snmpfetcher.FetchSNMPData.
    destruct (switchVersion version) as [v|];
      [rewrite bind_ret_l|rewrite hygienic_defaulted].
    all: apply hygienic_session; [done|].
    all: apply requests_bind; [apply requests_FetchSNMPSystemData|].
    all: intros [err|systemData]; [done|]; cbv zeta.
    all: destruct (Atoi _) as [numberOfInterface [err|]].
    all: apply requests_bind; [done|]; intros _.
    all: destruct (0 <? _); [|done].
    all: apply requests_bind; [|by intros [recs [e|]]].
    all: apply requests_bind; [apply requests_makeslice|]; intros _.
    all: apply requests_bind; [apply requests_appendAll|done].
Qed.

(** X3. The same holds for the three [Discovery]: of discovery.go and of
    the two revisions in part_003. *)
Theorem session_of_a_discovery_job_is_closed (d : gosnmp.Device) :
  (forall ip community version,
     hygienic d (Plugin.Discovery d ip community version).2 = true) /\
  (forall reqData, hygienic d (Part003.Discovery d reqData).2 = true) /\
  (forall reqData, hygienic d (Part003b.Discovery d reqData).2 = true).
Proof.
  split; [|split].
  - intros ip community version. unfold Plugin.Discovery.
    destruct (switchVersion version) as [v|];
      [rewrite bind_ret_l|rewrite hygienic_defaulted].
    all: apply hygienic_session; [done|]; cbv zeta.
    all: apply requests_emit; [done|].
    all: destruct (gosnmp.Get d _ _) as [err|variables]; [done|].
    all: apply requests_bind; [apply requests_firstOctetString|].
    all: by intros [name|].
  - intros reqData. unfold Part003.Discovery.
    destruct (negb _); [reflexivity|].
    apply hygienic_mustString. intros target.
    destruct (valueAt reqData Part003.Port) as [| | | | | | |port| |];
      try reflexivity.
    cbn [mustFloat64]. change (ret port) with (mret port : Go Q).
    rewrite bind_ret_l.
    apply hygienic_mustString. intros community.
    apply hygienic_mustString. intros version.
    destruct (switchVersion version) as [v|]; [|reflexivity].
    cbv zeta. apply hygienic_mustString. intros ip.
    rewrite hygienic_logged. apply hygienic_session; [done|].
    apply requests_emit; [done|]. apply requests_emit; [done|].
    destruct (gosnmp.Get d _ _) as [err|variables]; [done|].
    apply requests_bind; [apply requests_firstOctetString|].
    by intros [name|].
  - intros reqData. unfold Part003b.Discovery.
    destruct (Part003b.ValidateRequest reqData); [reflexivity|].
    destruct (negb _); [reflexivity|].
    apply hygienic_mustString. intros ip.
    apply hygienic_mustString. intros community.
    apply hygienic_mustString. intros version.
    destruct (switchVersion version) as [v|]; [|reflexivity].
    cbv zeta. rewrite hygienic_logged. apply hygienic_session; [done|].
    apply requests_emit; [done|]. apply requests_emit; [done|].
    destruct (gosnmp.Get d _ _) as [err|variables]; [done|].
    apply requests_bind; [apply requests_firstOctetString|].
    by intros [name|].
Qed.

End Hygiene.

Section Answers004.
Import Part003 Part004.

Lemma FetchSNMPData_shape (rt : Runtime) (d : gosnmp.Device)
    (reqData out : gmap string GoValue) (t : list Event) :
  runs (FetchSNMPData rt d reqData) out t ->
  let reqData' := (ValidateRequest reqData).2 in
  ((exists err,
      (err = FieldMissing \/ err = UnsupportedSNMP) /\ t = [] /\
      out = <[Status := VString Fail]> (<[Errors := VString err]> reqData')) \/
   (exists status data g t',
      (status = Success \/ status = Fail) /\ t = Connected g :: t' /\
      out = <[Status := VString status]> (<[Data := VMap data]> reqData'))) /\
  (forall k, k ∉ [Status; Errors; Data; Port] -> out !! k = reqData !! k).
Proof.
  intros Hrun reqData'.
  assert ((exists err,
      (err = FieldMissing \/ err = UnsupportedSNMP) /\ t = [] /\
      out = <[Status := VString Fail]> (<[Errors := VString err]> reqData')) \/
   (exists status data g t',
      (status = Success \/ status = Fail) /\ t = Connected g :: t' /\
      out = <[Status := VString status]> (<[Data := VMap data]> reqData')))
    as Hshape.
  { revert Hrun. unfold FetchSNMPData. subst reqData'.
    destruct (ValidateRequest reqData) as [[] reqData']; cbn [negb snd].
    2:{ intros [-> ->]%runs_ret_inv. left. exists FieldMissing. by auto. }
    intros (ip & ? & t1 & [_ ->]%runs_mustString_inv & Hrun & ->)%runs_bind_inv.
    apply runs_bind_inv in Hrun
      as (community & ? & t2 & [_ ->]%runs_mustString_inv & Hrun & ->).
    apply runs_bind_inv in Hrun
      as (version & ? & t3 & [_ ->]%runs_mustString_inv & Hrun & ->).
    cbn [app]. destruct (switchVersion version) as [v|].
    2:{ apply runs_ret_inv in Hrun as [-> ->]. left. exists UnsupportedSNMP.
        by auto. }
    cbv zeta in Hrun. right.
    apply runs_bind_inv in Hrun as ([] & ? & t4 & [= <-] & Hrun & ->).
    destruct (gosnmp.Connect d _) as [err|].
    { apply runs_ret_inv in Hrun as [-> ->]. exists Fail. by eauto 10. }
    apply runs_deferClose_inv in Hrun as (t5 & Hrun & ->).
    apply runs_bind_inv in Hrun as ([err|systemData] & t6 & t7 & _ & Hrun & ->).
    { apply runs_ret_inv in Hrun as [-> ->]. exists Success. by eauto 10. }
    cbv zeta in Hrun.
    apply runs_bind_inv in Hrun as (indexes & t8 & t9 & _ & Hrun & ->).
    apply runs_bind_inv in Hrun as (data & t10 & t11 & _ & Hrun & ->).
    apply runs_ret_inv in Hrun as [-> ->]. exists Success. by eauto 10. }
  split; [exact Hshape|].
  intros k Hk.
  assert (k <> Status /\ k <> Errors /\ k <> Data /\ k <> Port) as (H1 & H2 & H3 & H4).
  { rewrite !not_elem_of_cons in Hk. tauto. }
  assert (reqData' !! k = reqData !! k) as <-.
  { subst reqData'. unfold ValidateRequest. by apply validateFields_other. }
  destruct Hshape as [(err & _ & _ & ->)|(status & data & g & t' & _ & _ & ->)];
    by rewrite !lookup_insert_ne.
Qed.


(** X4. Every answer of [FetchSNMPData] of part_004 is the request, as
    [ValidateRequest] left it, with a status and one more key.  Either the
    status is "fail", the key is "error", its text is "field missing" or
    "unsupported SNMP version", and nothing was asked of the device; or the
    status is "success" or "fail", the key is "data", and the job began by
    opening a session.  Every key of the request other than "status",
    "error", "data" and "port" is in the answer with the value it had. *)
Theorem answer_of_a_polling_job (rt : Runtime) (d : gosnmp.Device)
    (reqData out : gmap string GoValue) (t : list Event) :
  runs (FetchSNMPData rt d reqData) out t ->
  let reqData' := (ValidateRequest reqData).2 in
  ((exists err,
      (err = FieldMissing \/ err = UnsupportedSNMP) /\ t = [] /\
      out = <[Status := VString Fail]> (<[Errors := VString err]> reqData')) \/
   (exists status data g t',
      (status = Success \/ status = Fail) /\ t = Connected g :: t' /\
      out = <[Status := VString status]> (<[Data := VMap data]> reqData'))) /\
  (forall k, k ∉ [Status; Errors; Data; Port] -> out !! k = reqData !! k).
Proof. apply FetchSNMPData_shape. Qed.

End Answers004.

Section Total004.
Import Part003 Part004.

Lemma fetchSNMPSystemData_runs (order : list string) (d : gosnmp.Device)
    (g : gosnmp.GoSNMP) :
  gosnmp.bounded d ->
  exists r t, runs (fetchSNMPSystemData order d g) r t.
Proof.
  intros Hb. unfold fetchSNMPSystemData. cbv zeta.
  destruct (length order =? 0)%nat; [by eexists _, _|].
  destruct (gosnmp.Get d g order) as [err|variables] eqn:Hget.
  - eexists _, _. eapply runs_bind; [apply runs_emit|]. apply runs_ret.
  - destruct (storeByPosition_runs util.SNMPOids systemValue order variables 0 ∅)
      as (m & Hm & _).
    { apply Hb in Hget. lia. }
    eexists _, _. eapply runs_bind; [apply runs_emit|].
    eapply runs_bind; [exact Hm|apply runs_ret].
Qed.

Lemma valueAt_string (m : gmap string GoValue) (k s : string) :
  valueAt m k = VString s -> m !! k = Some (VString s).
Proof. unfold valueAt. destruct (m !! k); simpl; [by intros ->|done]. Qed.

Lemma hasString_lookup (m : gmap string GoValue) (k : string) :
  hasString m k = true <-> exists s, m !! k = Some (VString s).
Proof.
  unfold hasString. split.
  - destruct (m !! k) as [[]|]; try done. by eexists.
  - by intros [s ->].
Qed.

(** X5. With a device that returns no more bindings than it is asked for,
    [FetchSNMPData] of part_004 returns an answer, rather than panics,
    exactly when the request fails [ValidateRequest] or has strings under
    "community" and "version". *)
Theorem polling_job_is_answered_iff (rt : Runtime) (d : gosnmp.Device)
    (reqData : gmap string GoValue) :
  gosnmp.bounded d ->
  (exists out t, runs (FetchSNMPData rt d reqData) out t) <->
  ((ValidateRequest reqData).1 = true ->
   hasString reqData Community = true /\ hasString reqData Version = true).
Proof.
  intros Hb. split.
  - intros (out & t & Hrun) Hvalid. revert Hrun. unfold FetchSNMPData.
    destruct (ValidateRequest reqData) as [valid reqData'] eqn:Hv.
    simpl in Hvalid. subst valid. cbn [negb].
    destruct (ValidateRequest_true _ _ Hv) as [_ Hsame].
    intros (ip & ? & t1 & _ & Hrun & ->)%runs_bind_inv.
    apply runs_bind_inv in Hrun
      as (community & ? & t2 & [Hc _]%runs_mustString_inv & Hrun & ->).
    apply runs_bind_inv in Hrun
      as (version & ? & t3 & [Hver _]%runs_mustString_inv & _).
    apply valueAt_string in Hc, Hver. rewrite Hsame in Hc, Hver by done.
    split; apply hasString_lookup; by eexists.
  - intros Hstrings.
    destruct (ValidateRequest reqData) as [[] reqData'] eqn:Hv.
    2:{ eexists _, _. by apply incomplete_request_rejected. }
    destruct (Hstrings eq_refl)
      as [[community Hc]%hasString_lookup [version Hver]%hasString_lookup].
    destruct (ValidateRequest_true _ _ Hv) as [[ip Hip] Hsame].
    assert (reqData !! IP = Some (VString ip)) as Hip0 by by rewrite <- Hsame.
    pose proof Hc as Hc'. pose proof Hver as Hver'.
    rewrite <- Hsame in Hc', Hver' by done.
    destruct (switchVersion version) as [v|] eqn:Hs.
    2:{ eexists _, _. unfold FetchSNMPData. rewrite Hv. cbn [negb].
        rewrite (valueAt_lookup _ _ _ Hip), (valueAt_lookup _ _ _ Hc'),
          (valueAt_lookup _ _ _ Hver').
        eapply runs_bind; [apply runs_mustString|]. cbv beta.
        eapply runs_bind; [apply runs_mustString|]. cbv beta.
        eapply runs_bind; [apply runs_mustString|]. cbv beta.
        rewrite Hs. apply runs_ret. }
    destruct (gosnmp.Connect d (session ip community v)) as [err|] eqn:Hconn.
    { eexists _, _. unfold FetchSNMPData. rewrite Hv. cbn [negb].
      rewrite (valueAt_lookup _ _ _ Hip), (valueAt_lookup _ _ _ Hc'),
        (valueAt_lookup _ _ _ Hver').
      eapply runs_bind; [apply runs_mustString|]. cbv beta.
      eapply runs_bind; [apply runs_mustString|]. cbv beta.
      eapply runs_bind; [apply runs_mustString|]. cbv beta.
      rewrite Hs. cbv zeta. fold (session ip community v).
      eapply runs_bind; [apply runs_emit|]. cbv beta. rewrite Hconn.
      apply runs_ret. }
    destruct (fetchSNMPSystemData_runs (rangeSNMPOids rt) d (session ip community v) Hb)
      as ([err|systemData] & t1 & Hsys).
    + eexists _, _. unfold FetchSNMPData. rewrite Hv. cbn [negb].
      rewrite (valueAt_lookup _ _ _ Hip), (valueAt_lookup _ _ _ Hc'),
        (valueAt_lookup _ _ _ Hver').
      eapply runs_bind; [apply runs_mustString|]. cbv beta.
      eapply runs_bind; [apply runs_mustString|]. cbv beta.
      eapply runs_bind; [apply runs_mustString|]. cbv beta.
      rewrite Hs. cbv zeta. fold (session ip community v).
      eapply runs_bind; [apply runs_emit|]. cbv beta. rewrite Hconn.
      apply runs_deferClose.
      eapply runs_bind; [exact Hsys|]. cbv beta iota. apply runs_ret.
    + destruct (FetchSNMPData_polls rt d reqData reqData' ip community version v
                  systemData t1 Hv Hip0 Hc Hver Hs Hconn Hsys Hb)
        as (data & t2 & Hrun & _).
      by eexists _, _.
Qed.

End Total004.

Section WalkErrors.
Import Part003 Part004.

Lemma walkFn_app (good rest : list gosnmp.SnmpPDU) (indexes : list Z) :
  Forall (fun pdu => (Atoi (suffix pdu)).2 = None) good ->
  walkFn (good ++ rest) indexes =
    walkFn rest (indexes ++ ((fun pdu => (Atoi (suffix pdu)).1) <$> good)).
Proof.
  intros Hall. revert indexes.
  induction Hall as [|pdu good Hpdu _ IH]; intros indexes.
  - by rewrite app_nil_r.
  - cbn [app walkFn]. cbv zeta. fold (suffix pdu). rewrite Split_length.
    destruct (Atoi (suffix pdu)) as [index err] eqn:Hatoi. simpl in Hpdu.
    subst err. rewrite IH, fmap_cons, Hatoi. cbn [fst]. by rewrite <- app_assoc.
Qed.

(** X6. [getInterfaceIndexes] returns no index at all when the walk fails.
    When the walk itself ends with an error, after bindings that were all
    read, the error returned is "SNMP walk failed: " and the error of the
    walk, and the indices read so far are dropped.  When the last component
    of a binding is not a number, the error is "SNMP walk failed: failed to
    parse index: " and the error of [strconv.Atoi], whatever comes after
    that binding. *)
Theorem failed_walk_enumerates_nothing (d : gosnmp.Device) (g : gosnmp.GoSNMP) :
  (forall pdus err,
     gosnmp.Walk d g targetOID = (pdus, Some err) ->
     Forall (fun pdu => (Atoi (suffix pdu)).2 = None) pdus ->
     runs (getInterfaceIndexes d g) (inl ("SNMP walk failed: " +:+ err))
          [Walked g targetOID]) /\
  (forall good bad rest walkErr err,
     gosnmp.Walk d g targetOID = (good ++ bad :: rest, walkErr) ->
     Forall (fun pdu => (Atoi (suffix pdu)).2 = None) good ->
     (Atoi (suffix bad)).2 = Some err ->
     runs (getInterfaceIndexes d g)
          (inl ("SNMP walk failed: failed to parse index: " +:+ err))
          [Walked g targetOID]).
Proof.
  split.
  - intros pdus err Hwalk Hall. unfold getInterfaceIndexes.
    eapply (runs_bind _ _ tt [_] _ []); [apply runs_emit|].
    rewrite Hwalk, (walkFn_parsed _ _ Hall). apply runs_ret.
  - intros good bad rest walkErr err Hwalk Hall Hbad. unfold getInterfaceIndexes.
    eapply (runs_bind _ _ tt [_] _ []); [apply runs_emit|].
    rewrite Hwalk, (walkFn_app _ _ _ Hall). cbn [walkFn]. cbv zeta.
    fold (suffix bad). rewrite Split_length.
    destruct (Atoi (suffix bad)) as [index e]. simpl in Hbad. subst e.
    apply runs_ret.
Qed.

(** X7. When the enumeration of the interfaces fails, the polling job of
    part_004 is still answered with status "success": the data report 0
    interfaces, hold the error under "interfaces.error" after the words
    "Error fetching interface indexes: ", have no list of interfaces, and no
    interface is asked for. *)
Theorem failed_walk_is_reported (rt : Runtime) (d : gosnmp.Device)
    (reqData reqData' : gmap string GoValue) (ip community version : string)
    (v : gosnmp.SnmpVersion) (systemData : gmap string GoValue)
    (t1 : list Event) (err : string) :
  let g := session ip community v in
  ValidateRequest reqData = (true, reqData') ->
  reqData !! IP = Some (VString ip) ->
  reqData !! Community = Some (VString community) ->
  reqData !! Version = Some (VString version) ->
  switchVersion version = Some v ->
  gosnmp.Connect d g = None ->
  runs (fetchSNMPSystemData (rangeSNMPOids rt) d g) (inr systemData) t1 ->
  runs (getInterfaceIndexes d g) (inl err) [Walked g targetOID] ->
  exists out data,
    runs (FetchSNMPData rt d reqData) out
         ([Connected g] ++ t1 ++ [Walked g targetOID; Closed]) /\
    out !! Status = Some (VString Success) /\
    out !! Data = Some (VMap data) /\
    data !! systemInterfaces = Some (VInt 0) /\
    data !! Interface_Error =
      Some (VString ("Error fetching interface indexes: " +:+ err)) /\
    data !! interfaces = None.
Proof.
  intros g Hv Hip Hc Hver Hs Hconn Hsys Hwalk.
  destruct (ValidateRequest_true _ _ Hv) as [_ Hsame].
  rewrite <- Hsame in Hip, Hc, Hver by done.
  eexists _, _. split; [|split; [|split; [|split; [|split]]]].
  - unfold FetchSNMPData. rewrite Hv. cbn [negb].
    rewrite (valueAt_lookup _ _ _ Hip), (valueAt_lookup _ _ _ Hc),
      (valueAt_lookup _ _ _ Hver).
    eapply runs_events.
    + eapply runs_bind; [apply runs_mustString|]. cbv beta.
      eapply runs_bind; [apply runs_mustString|]. cbv beta.
      eapply runs_bind; [apply runs_mustString|]. cbv beta.
      rewrite Hs. cbv zeta. fold (session ip community v). fold g.
      eapply runs_bind; [apply runs_emit|]. rewrite Hconn.
      apply runs_deferClose.
      eapply runs_bind; [exact Hsys|]. cbv beta iota zeta.
      eapply runs_bind; [exact Hwalk|]. cbv beta iota.
      eapply runs_bind; [apply runs_ret|]. apply runs_ret.
    + same_events.
  - apply lookup_insert_eq.
  - rewrite lookup_insert_ne by done. apply lookup_insert_eq.
  - apply lookup_insert_eq.
  - rewrite lookup_insert_ne by done. apply lookup_insert_eq.
  - rewrite !lookup_insert_ne by done.
    destruct (valueAt systemData systemUptime); done.
Qed.

End WalkErrors.

(** ** Numbers and their text *)

Lemma string_cons_app (x : ascii) (a b : string) :
  String x a +:+ b = String x (a +:+ b).
Proof. reflexivity. Qed.

Lemma string_app_assoc (a b c : string) : (a +:+ b) +:+ c = a +:+ (b +:+ c).
Proof.
  induction a as [|x a IH]; [done|]. rewrite !string_cons_app. by rewrite IH.
Qed.

Lemma pretty_N_go_app (x : N) (s : string) :
  pretty_N_go x s = pretty_N_go x EmptyString +:+ s.
Proof.
  revert s. induction (N.lt_wf_0 x) as [x _ IH]; intros s.
  assert (x = 0 \/ 0 < x)%N as [->|Hx] by lia; [by rewrite !pretty_N_go_0|].
  rewrite (pretty_N_go_step x s), (pretty_N_go_step x EmptyString) by done.
  assert (x `div` 10 < x)%N as Hlt by by apply N.div_lt.
  rewrite (IH _ Hlt (String _ s)), (IH _ Hlt (String _ EmptyString)).
  by rewrite string_app_assoc.
Qed.

Lemma pretty_N_char_digit (x : N) :
  (x < 10)%N ->
  isDigit (pretty_N_char x) = true /\
  byteval (pretty_N_char x) - 48 = Z.of_N x /\
  Ascii.eqb (pretty_N_char x) "." = false /\
  Ascii.eqb (pretty_N_char x) "-" = false /\
  Ascii.eqb (pretty_N_char x) "+" = false.
Proof.
  intros Hx.
  assert (x = 0 \/ x = 1 \/ x = 2 \/ x = 3 \/ x = 4 \/ x = 5 \/ x = 6 \/ x = 7 \/
          x = 8 \/ x = 9)%N as Hcases by lia.
  repeat destruct Hcases as [->|Hcases]; try subst x; done.
Qed.

Lemma allDigits_app (a b : string) :
  allDigits (a +:+ b) = allDigits a && allDigits b.
Proof.
  induction a as [|c a IH]; [done|]. rewrite string_cons_app.
  cbn [allDigits]. by rewrite IH, andb_assoc.
Qed.

Lemma digitsValue_app (acc : Z) (a b : string) :
  digitsValue acc (a +:+ b) = digitsValue (digitsValue acc a) b.
Proof.
  revert acc. induction a as [|c a IH]; intros acc; [done|].
  rewrite string_cons_app. cbn [digitsValue]. apply IH.
Qed.

(** The decimal digits of a positive number: they are digits, their value
    is the number, and the first of them is not a sign. *)
Lemma pretty_N_go_digits (x : N) :
  (0 < x)%N ->
  let s := pretty_N_go x EmptyString in
  allDigits s = true /\ digitsValue 0 s = Z.of_N x /\
  exists c r, s = String c r /\ isDigit c = true.
Proof.
  induction (N.lt_wf_0 x) as [x _ IH]. intros Hx. cbv zeta.
  rewrite pretty_N_go_step by done. rewrite pretty_N_go_app.
  destruct (pretty_N_char_digit (x `mod` 10)%N) as (Hd & Hval & _);
    [by apply N.mod_lt|].
  destruct (N.eq_0_gt_0_cases (x `div` 10)%N) as [H0|Hpos].
  - rewrite H0, pretty_N_go_0.
    change (EmptyString +:+ ?s) with s. cbn [allDigits digitsValue].
    rewrite Hd. split; [done|]. split; [|by eexists _, _].
    rewrite Hval. pose proof (N.div_mod x 10). lia.
  - destruct (IH (x `div` 10)%N) as (Hall & Hv & c & r & Hs & Hc);
      [by apply N.div_lt|done|].
    rewrite allDigits_app, digitsValue_app, Hall, Hv.
    cbn [allDigits digitsValue andb]. rewrite Hd.
    split; [done|]. split.
    + rewrite Hval. pose proof (N.div_mod x 10). lia.
    + rewrite Hs, string_cons_app. by eexists _, _.
Qed.

Lemma isDigit_not_sign (c : ascii) :
  isDigit c = true -> Ascii.eqb c "-" = false /\ Ascii.eqb c "+" = false /\
                      Ascii.eqb c "." = false.
Proof.
  unfold isDigit. intros [H1 H2]%andb_prop.
  repeat split; apply Ascii.eqb_neq; intros ->; done.
Qed.

(** [strconv.Atoi] reads back what [%d] printed. *)
Lemma Atoi_itoa (i : Z) :
  - 2 ^ 63 <= i < 2 ^ 63 -> Atoi (itoa i) = (i, None).
Proof.
  intros Hi. unfold itoa, pretty, pretty_Z.
  destruct i as [|p|p].
  - reflexivity.
  - unfold pretty, pretty_positive, pretty, pretty_N.
    rewrite decide_False by done.
    destruct (pretty_N_go_digits (N.pos p)) as (Hall & Hv & c & r & Hs & Hc); [done|].
    destruct (isDigit_not_sign c Hc) as (Hm & Hp & _).
    unfold Atoi, wellFormedInt, signed. rewrite Hs, Hm, Hp. cbn [fst snd].
    rewrite <- Hs, Hall, Hv. rewrite Hs. cbn [String.eqb negb andb].
    change (Z.of_N (N.pos p)) with (Z.pos p).
    rewrite (proj2 (Z.ltb_ge _ _)) by lia.
    by rewrite (proj2 (Z.leb_gt _ _)) by lia.
  - unfold pretty, pretty_positive, pretty, pretty_N.
    rewrite decide_False by done.
    destruct (pretty_N_go_digits (N.pos p)) as (Hall & Hv & c & r & Hs & Hc); [done|].
    change ("-" +:+ ?s) with (String "-"%char s).
    unfold Atoi, wellFormedInt, signed. cbn [Ascii.eqb Bool.eqb fst snd].
    rewrite Hall, Hv. rewrite Hs. cbn [String.eqb negb andb].
    change (- Z.of_N (N.pos p)) with (Z.neg p).
    rewrite (proj2 (Z.ltb_ge _ _)) by lia.
    by rewrite (proj2 (Z.leb_gt _ _)) by lia.
Qed.

(** ** Object identifiers and their last component *)

Lemma Split_cons (s : string) : exists h t, Split s = h :: t.
Proof.
  destruct s as [|c r]; [by eexists _, _|]. simpl.
  destruct (Ascii.eqb c _); [by eexists _, _|].
  destruct (Split r); by eexists _, _.
Qed.

Lemma Split_app_dot (a b : string) :
  Split (a +:+ String "."%char b) = Split a ++ Split b.
Proof.
  induction a as [|c a IH]; [done|]. rewrite string_cons_app. cbn [Split].
  rewrite IH. destruct (Ascii.eqb c _); [done|].
  by destruct (Split_cons a) as (h & t & ->).
Qed.

Lemma Split_digits (s : string) : allDigits s = true -> Split s = [s].
Proof.
  induction s as [|c r IH]; [done|]. cbn [allDigits Split].
  intros [Hc Hr]%andb_prop. destruct (isDigit_not_sign c Hc) as (_ & _ & ->).
  by rewrite IH.
Qed.

Lemma Split_itoa (i : Z) : Split (itoa i) = [itoa i].
Proof.
  unfold itoa, pretty, pretty_Z. destruct i as [|p|p]; [done| |].
  - unfold pretty, pretty_positive, pretty, pretty_N. rewrite decide_False by done.
    apply Split_digits. by destruct (pretty_N_go_digits (N.pos p)) as (? & _).
  - unfold pretty, pretty_positive, pretty, pretty_N. rewrite decide_False by done.
    change ("-" +:+ ?s) with (String "-"%char s). cbn [Split Ascii.eqb Bool.eqb].
    rewrite Split_digits; [done|].
    by destruct (pretty_N_go_digits (N.pos p)) as (? & _).
Qed.

(** The last component of an identifier that ends in the text of [i]. *)
Lemma lastPart_itoa (prefix : string) (i : Z) :
  lastPart (Split (prefix +:+ "." +:+ itoa i)) = itoa i.
Proof.
  change ("." +:+ ?s) with (String "."%char s).
  rewrite Split_app_dot, Split_itoa. unfold lastPart. apply last_last.
Qed.

Section RoundTrip.
Import Part004.

(** X8. The number [getInterfaceIndexes] reads from an identifier is the
    number [getInterface] writes into the identifiers it asks for.  When the
    walk returns, without an error, identifiers that end in a dot and the
    decimal text of the numbers [rows] (each in the range of an [int]), the
    enumeration is [rows], in that order; and the last component of every
    identifier asked for an interface [i] of them reads back as [i]. *)
Theorem enumerated_rows_are_the_rows_asked_for (d : gosnmp.Device)
    (g : gosnmp.GoSNMP) (rows : list Z) (pdus : list gosnmp.SnmpPDU) :
  Forall (fun i => - 2 ^ 63 <= i < 2 ^ 63) rows ->
  Forall2 (fun i pdu => exists prefix,
             gosnmp.Name pdu = prefix +:+ "." +:+ itoa i) rows pdus ->
  gosnmp.Walk d g targetOID = (pdus, None) ->
  runs (getInterfaceIndexes d g) (inr rows) [Walked g targetOID] /\
  forall order i oid,
    i ∈ rows -> oid ∈ interfaceOids order i ->
    Atoi (lastPart (Split oid)) = (i, None).
Proof.
  intros Hrange Hnames Hwalk.
  assert (Forall2 (fun i pdu => Atoi (suffix pdu) = (i, None)) rows pdus) as Hparsed.
  { clear Hwalk. induction Hnames as [|i pdu rows pdus [prefix Hname] _ IH];
      [constructor|].
    apply Forall_cons in Hrange as [Hi Hrange]. constructor; [|by apply IH].
    unfold suffix. rewrite Hname, lastPart_itoa. by apply Atoi_itoa. }
  split.
  - unfold getInterfaceIndexes.
    eapply (runs_bind _ _ tt [_] _ []); [apply runs_emit|].
    rewrite Hwalk, (walkFn_parsed pdus []).
    + replace ((fun pdu => (Atoi (suffix pdu)).1) <$> pdus) with rows;
        [apply runs_ret|].
      clear -Hparsed. induction Hparsed as [|i pdu rows pdus Hi _ IH]; [done|].
      rewrite fmap_cons, Hi. cbn [fst]. by f_equal.
    + clear -Hparsed. induction Hparsed as [|i pdu rows pdus Hi _ IH];
        constructor; [by rewrite Hi|done].
  - intros order i oid Hi (column & -> & _)%list_elem_of_fmap.
    rewrite lastPart_itoa. apply Atoi_itoa.
    by apply (proj1 (Forall_forall _ _) Hrange).
Qed.

End RoundTrip.

(** ** The positional zip of the interface fetch *)
Section NonNilPositions.
Context {V : Type} (conv : string -> gosnmp.Decoded -> V).

Lemma storeNonNil_step (fields : list string) (variable : gosnmp.SnmpPDU)
    (rest : list gosnmp.SnmpPDU) (k : nat) (data : gmap string V) (f : string) :
  fields !! k = Some f ->
  exists data',
    storeNonNil conv fields (variable :: rest) k data =
      storeNonNil conv fields rest (S k) data' /\
    data' !! f = stored conv f variable (data !! f) /\
    forall key, key <> f -> data' !! key = data !! key.
Proof.
  intros Hf. cbn [storeNonNil]. unfold stored.
  assert (forall v,
    (f' ← at_ fields k;
     storeNonNil conv fields rest (S k) (<[f' := conv f' v]> data)) =
    storeNonNil conv fields rest (S k) (<[f := conv f v]> data)) as Hat.
  { intros v. unfold at_. rewrite Hf.
    exact (bind_ret_l f (fun f' => storeNonNil conv fields rest (S k)
                                     (<[f' := conv f' v]> data))). }
  destruct (gosnmp.Value variable) eqn:Hv;
    try (rewrite Hat; eexists; split; [reflexivity|];
         split; [apply lookup_insert_eq|intros key Hkey; by apply lookup_insert_ne]).
  exists data. by split.
Qed.

Lemma storeNonNil_positions (fields : list string)
    (variables : list gosnmp.SnmpPDU) (k : nat) (data : gmap string V) :
  (length variables + k <= length fields)%nat ->
  NoDup fields ->
  exists m,
    runs (storeNonNil conv fields variables k data) m [] /\
    (forall j f variable,
       variables !! j = Some variable -> fields !! (k + j)%nat = Some f ->
       m !! f = stored conv f variable (data !! f)) /\
    (forall f, f ∉ take (length variables) (drop k fields) -> m !! f = data !! f).
Proof.
  intros Hlen Hnd. revert k data Hlen.
  induction variables as [|variable rest IH]; intros k data Hlen.
  - exists data. split; [apply runs_ret|]. split; [|done].
    intros j f variable Hj. by rewrite lookup_nil in Hj.
  - simpl in Hlen.
    destruct (lookup_lt_is_Some_2 fields k) as [f Hf]; [lia|].
    destruct (storeNonNil_step fields variable rest k data f Hf)
      as (data' & -> & Hhere & Hother).
    destruct (IH (S k) data') as (m & Hm & Hpos & Hkeep); [lia|].
    assert (f ∉ take (length rest) (drop (S k) fields)) as Hlater.
    { intros Hin%elem_of_take. destruct Hin as (j & Hj & _).
      rewrite lookup_drop in Hj.
      pose proof (NoDup_lookup _ _ _ _ Hnd Hf Hj). lia. }
    exists m. split; [exact Hm|]. split.
    + intros j f' variable' Hj Hf'. destruct j as [|j].
      * rewrite Nat.add_0_r in Hf'. assert (f' = f) as -> by congruence.
        injection Hj as <-. rewrite Hkeep by done. exact Hhere.
      * simpl in Hj. replace (k + S j)%nat with (S k + j)%nat in Hf' by lia.
        rewrite (Hpos j f' variable' Hj Hf'). f_equal. apply Hother.
        intros ->. pose proof (NoDup_lookup _ _ _ _ Hnd Hf Hf'). lia.
    + intros f' Hf'. cbn [length take] in Hf'.
      rewrite (drop_S _ _ _ Hf) in Hf'. cbn [take] in Hf'.
      apply not_elem_of_cons in Hf' as [Hne Hf']. rewrite Hkeep by done.
      by apply Hother.
Qed.

End NonNilPositions.

Lemma keysOf_InterfaceOids_NoDup (order : list string) :
  keysOf util.InterfaceOids order -> NoDup (field util.InterfaceOids <$> order).
Proof.
  unfold keysOf. intros ->. apply (bool_decide_unpack _). vm_compute. reflexivity.
Qed.

Lemma keysOf_config_InterfaceOids_NoDup (order : list string) :
  keysOf config.InterfaceOids order -> NoDup (field config.InterfaceOids <$> order).
Proof.
  unfold keysOf. intros ->. apply (bool_decide_unpack _). vm_compute. reflexivity.
Qed.

Lemma field_not_Index (oid : string) :
  field util.InterfaceOids oid <> Part004.Index.
Proof.
  unfold field.
  destruct (util.InterfaceOids !! oid) as [f|] eqn:Hf; simpl; [|done].
  revert Hf.
  assert (map_Forall (fun _ f => f <> Part004.Index) util.InterfaceOids) as Hall.
  { apply map_Forall_to_list. vm_compute. repeat constructor; done. }
  intros Hf. by apply Hall in Hf.
Qed.

Section InterfacePositions.

(** X9. In [getInterface] of part_004 the variable at position [k] of the
    response is stored under the field name of the OID at position [k] of
    the request, whatever the order in which the run time listed the
    table.  A nil value stores nothing, a field whose position the response
    does not reach is absent, and the key "index" holds the text of the
    index. *)
Theorem interface_fields_stored_by_position (order : list string)
    (d : gosnmp.Device) (index : Z) (g : gosnmp.GoSNMP)
    (variables : list gosnmp.SnmpPDU) :
  keysOf util.InterfaceOids order ->
  gosnmp.Get d g (Part004.interfaceOids order index) = inr variables ->
  (length variables <= length order)%nat ->
  exists data,
    runs (Part004.getInterface order d index g) (data, None)
         [Got g (Part004.interfaceOids order index)] /\
    data !! Part004.Index = Some (VString (itoa index)) /\
    (forall k oid variable,
       order !! k = Some oid -> variables !! k = Some variable ->
       data !! field util.InterfaceOids oid =
         stored Part004.interfaceValue (field util.InterfaceOids oid) variable None) /\
    (forall k oid,
       order !! k = Some oid -> variables !! k = None ->
       data !! field util.InterfaceOids oid = None).
Proof.
  intros Hkeys Hget Hlen.
  pose proof (keysOf_InterfaceOids_NoDup order Hkeys) as Hnd.
  set (fields := field util.InterfaceOids <$> order) in *.
  destruct (storeNonNil_positions Part004.interfaceValue fields variables 0
              {[Part004.Index := VString (itoa index)]})
    as (data & Hrun & Hpos & Hkeep); [unfold fields; rewrite length_fmap; lia|done|].
  assert (forall oid, ({[Part004.Index := VString (itoa index)]} : gmap string GoValue)
                        !! field util.InterfaceOids oid = None) as Hfresh.
  { intros oid. apply lookup_singleton_ne. intros Heq.
    by apply (field_not_Index oid). }
  exists data. split; [|split; [|split]].
  - unfold Part004.getInterface. cbv zeta.
    eapply (runs_bind _ _ tt [_] _ []); [apply runs_emit|]. rewrite Hget.
    eapply (runs_bind _ _ _ [] _ []); [exact Hrun|apply runs_ret].
  - rewrite Hkeep; [apply lookup_singleton_eq|].
    intros Hin%elem_of_take. destruct Hin as (j & Hj & _). rewrite drop_0 in Hj.
    apply (Index_not_a_field order). by eapply list_elem_of_lookup_2.
  - intros k oid variable Hoid Hvar.
    rewrite (Hpos k _ variable Hvar); [by rewrite Hfresh|].
    change (0 + k)%nat with k. unfold fields. by rewrite list_lookup_fmap, Hoid.
  - intros k oid Hoid Hvar. rewrite Hkeep; [apply Hfresh|].
    intros Hin%elem_of_take. destruct Hin as (j & Hj & Hlt). rewrite drop_0 in Hj.
    assert (fields !! k = Some (field util.InterfaceOids oid)) as Hk.
    { unfold fields. by rewrite list_lookup_fmap, Hoid. }
    pose proof (NoDup_lookup _ _ _ _ Hnd Hj Hk). subst j.
    apply lookup_ge_None in Hvar. lia.
Qed.

End InterfacePositions.

Lemma outcome_bind {A B} (m1 m2 : Go A) (f1 f2 : A -> Go B) :
  m1.1 = m2.1 -> (forall a, (f1 a).1 = (f2 a).1) ->
  (m1 ≫= f1).1 = (m2 ≫= f2).1.
Proof.
  unfold mbind, go_bind, bind. destruct m1 as [[a1|k1] t1], m2 as [[a2|k2] t2];
    simpl; intros [= ->] Hf; try done.
  specialize (Hf a2). by destruct (f1 a2), (f2 a2).
Qed.

Lemma outcome_deferClose {A} (body1 body2 : Go A) :
  body1.1 = body2.1 -> (deferClose body1).1 = (deferClose body2).1.
Proof. unfold deferClose. by destruct body1, body2. Qed.

Lemma outcome_runs {A} (m : Go A) (a : A) (t : list Event) :
  runs m a t -> m.1 = Done a.
Proof. by intros ->. Qed.

(** Two elements of a list with the same image under [f] are the same
    element, when the images of the list have no duplicate. *)
Lemma NoDup_fmap_elem_eq {A B} (f : A -> B) (l : list A) (x y : A) :
  NoDup (f <$> l) -> x ∈ l -> y ∈ l -> f x = f y -> x = y.
Proof.
  intros Hnd [i Hi]%list_elem_of_lookup_1 [j Hj]%list_elem_of_lookup_1 Heq.
  assert (i = j) as ->.
  { apply (NoDup_lookup (f <$> l) i j (f x)); [done|..].
    - by rewrite list_lookup_fmap, Hi.
    - by rewrite list_lookup_fmap, Hj, Heq. }
  congruence.
Qed.

Section OrderByPosition.
Context {V : Type} (table : gmap string string) (conv : gosnmp.Decoded -> V).

(** The map the positional loop builds from the answers to [order]. *)
Lemma storeByPosition_answers (answer : string -> gosnmp.SnmpPDU)
    (order : list string) :
  NoDup (field table <$> order) ->
  exists m,
    runs (storeByPosition table conv order (answer <$> order) 0 ∅) m [] /\
    (forall oid, oid ∈ order ->
       m !! field table oid = Some (conv (gosnmp.Value (answer oid)))) /\
    (forall key, key ∉ field table <$> order -> m !! key = None).
Proof.
  intros Hnd.
  destruct (storeByPosition_runs table conv order (answer <$> order) 0 ∅)
    as (m & Hm & Hkeep & Hpos); [rewrite length_fmap; lia|].
  exists m. split; [exact Hm|]. split.
  - intros oid [j Hj]%list_elem_of_lookup_1.
    apply (Hpos Hnd j oid (answer oid)); [|done].
    by rewrite list_lookup_fmap, Hj.
  - intros key Hkey. by rewrite Hkeep.
Qed.

Lemma storeByPosition_order (answer : string -> gosnmp.SnmpPDU)
    (order1 order2 : list string) :
  NoDup (field table <$> order1) -> order1 ≡ₚ order2 ->
  (storeByPosition table conv order1 (answer <$> order1) 0 ∅).1 =
  (storeByPosition table conv order2 (answer <$> order2) 0 ∅).1.
Proof.
  intros Hnd1 Hperm.
  assert (NoDup (field table <$> order2)) as Hnd2 by by rewrite <- Hperm.
  destruct (storeByPosition_answers answer order1 Hnd1) as (m1 & Hm1 & Hin1 & Hout1).
  destruct (storeByPosition_answers answer order2 Hnd2) as (m2 & Hm2 & Hin2 & Hout2).
  rewrite (outcome_runs _ _ _ Hm1), (outcome_runs _ _ _ Hm2). f_equal.
  apply map_eq. intros key.
  destruct (decide (key ∈ field table <$> order1)) as [Hkey|Hkey].
  - apply list_elem_of_fmap in Hkey as (oid & -> & Hoid).
    rewrite Hin1 by done. rewrite Hin2; [done|]. by rewrite <- Hperm.
  - rewrite Hout1 by done. rewrite Hout2; [done|]. by rewrite <- Hperm.
Qed.

End OrderByPosition.

Section OrderNonNil.
Context {V : Type} (conv : string -> gosnmp.Decoded -> V).
Context (table : gmap string string).

Lemma storeNonNil_answers (answer : string -> gosnmp.SnmpPDU)
    (order : list string) (data : gmap string V) :
  NoDup (field table <$> order) ->
  exists m,
    runs (storeNonNil conv (field table <$> order) (answer <$> order) 0 data) m [] /\
    (forall oid, oid ∈ order ->
       m !! field table oid =
         stored conv (field table oid) (answer oid) (data !! field table oid)) /\
    (forall key, key ∉ field table <$> order -> m !! key = data !! key).
Proof.
  intros Hnd.
  destruct (storeNonNil_positions conv (field table <$> order) (answer <$> order) 0 data)
    as (m & Hm & Hpos & Hkeep); [rewrite !length_fmap; lia|done|].
  exists m. split; [exact Hm|]. split.
  - intros oid [j Hj]%list_elem_of_lookup_1.
    apply (Hpos j); [by rewrite list_lookup_fmap, Hj|].
    change (0 + j)%nat with j. by rewrite list_lookup_fmap, Hj.
  - intros key Hkey. apply Hkeep. rewrite length_fmap, drop_0.
    intros Hin. apply Hkey. rewrite <- (length_fmap (field table)) in Hin.
    by rewrite firstn_all in Hin.
Qed.

Lemma storeNonNil_order (answer : string -> gosnmp.SnmpPDU)
    (order1 order2 : list string) (data : gmap string V) :
  NoDup (field table <$> order1) -> order1 ≡ₚ order2 ->
  (storeNonNil conv (field table <$> order1) (answer <$> order1) 0 data).1 =
  (storeNonNil conv (field table <$> order2) (answer <$> order2) 0 data).1.
Proof.
  intros Hnd1 Hperm.
  assert (NoDup (field table <$> order2)) as Hnd2 by by rewrite <- Hperm.
  destruct (storeNonNil_answers answer order1 data Hnd1) as (m1 & Hm1 & Hin1 & Hout1).
  destruct (storeNonNil_answers answer order2 data Hnd2) as (m2 & Hm2 & Hin2 & Hout2).
  rewrite (outcome_runs _ _ _ Hm1), (outcome_runs _ _ _ Hm2). f_equal.
  apply map_eq. intros key.
  destruct (decide (key ∈ field table <$> order1)) as [Hkey|Hkey].
  - apply list_elem_of_fmap in Hkey as (oid & -> & Hoid).
    rewrite Hin1 by done. rewrite Hin2; [done|]. by rewrite <- Hperm.
  - rewrite Hout1 by done. rewrite Hout2; [done|]. by rewrite <- Hperm.
Qed.

End OrderNonNil.

Section OrderPipeline.
Import Part003 Part004.

Lemma keysOf_perm (table : gmap string string) (order1 order2 : list string) :
  keysOf table order1 -> keysOf table order2 -> order1 ≡ₚ order2.
Proof. unfold keysOf. by intros -> ->. Qed.

Lemma fetchSNMPSystemData_order (d : gosnmp.Device) (g : gosnmp.GoSNMP)
    (order1 order2 : list string) :
  answersEachOid d ->
  keysOf util.SNMPOids order1 -> keysOf util.SNMPOids order2 ->
  (fetchSNMPSystemData order1 d g).1 = (fetchSNMPSystemData order2 d g).1.
Proof.
  intros [answer Hanswer] H1 H2. unfold fetchSNMPSystemData. cbv zeta.
  rewrite (keysOf_nonempty _ H1), (keysOf_nonempty _ H2), !Hanswer.
  apply outcome_bind; [done|]. intros _.
  apply outcome_bind; [|done].
  apply (storeByPosition_order util.SNMPOids systemValue (answer g));
    [by apply keysOf_SNMPOids_NoDup|by eapply keysOf_perm].
Qed.

Lemma getInterface_order (d : gosnmp.Device) (index : Z) (g : gosnmp.GoSNMP)
    (order1 order2 : list string) :
  answersEachOid d ->
  keysOf util.InterfaceOids order1 -> keysOf util.InterfaceOids order2 ->
  (getInterface order1 d index g).1 = (getInterface order2 d index g).1.
Proof.
  intros [answer Hanswer] H1 H2. unfold getInterface, interfaceOids. cbv zeta.
  rewrite !Hanswer, <- !list_fmap_compose.
  apply outcome_bind; [done|]. intros _.
  apply outcome_bind; [|done].
  apply (storeNonNil_order interfaceValue util.InterfaceOids
           (answer g ∘ (fun oid => oid +:+ "." +:+ itoa index)));
    [by apply keysOf_InterfaceOids_NoDup|by eapply keysOf_perm].
Qed.

Lemma collect_order (rt1 rt2 : Runtime) (d : gosnmp.Device) (g : gosnmp.GoSNMP)
    (indexes : list Z) (acc : list (gmap string GoValue)) :
  answersEachOid d -> listsTheKeys rt1 -> listsTheKeys rt2 ->
  (collect rt1 d g indexes acc).1 = (collect rt2 d g indexes acc).1.
Proof.
  intros Hd [_ H1] [_ H2]. revert acc.
  induction indexes as [|index rest IH]; intros acc; [done|].
  cbn [collect]. apply outcome_bind; [by apply getInterface_order|].
  intros [data [err|]]; cbn [fst snd]; [|apply IH].
  apply outcome_bind; [done|]. intros _. apply IH.
Qed.

(** X10. The answer of a polling job of part_004 does not depend on the
    order in which the run time lists the keys of the two OID tables: with
    a device that answers each OID on its own, two runs that differ in
    these orders return the same answer, or panic in the same way. *)
Theorem answer_does_not_depend_on_the_order_of_the_tables (rt1 rt2 : Runtime)
    (d : gosnmp.Device) (reqData : gmap string GoValue) :
  answersEachOid d -> listsTheKeys rt1 -> listsTheKeys rt2 ->
  (FetchSNMPData rt1 d reqData).1 = (FetchSNMPData rt2 d reqData).1.
Proof.
  intros Hd H1 H2. unfold FetchSNMPData.
  destruct (ValidateRequest reqData) as [[] reqData']; [|done]. cbn [negb].
  apply outcome_bind; [done|]. intros ip.
  apply outcome_bind; [done|]. intros community.
  apply outcome_bind; [done|]. intros version.
  destruct (switchVersion version) as [v|]; [|done]. cbv zeta.
  apply outcome_bind; [done|]. intros _.
  destruct (gosnmp.Connect d _) as [err|]; [done|].
  apply outcome_deferClose.
  apply outcome_bind; [apply fetchSNMPSystemData_order; [done|apply H1|apply H2]|].
  intros [err|systemData]; [done|]. cbv zeta.
  apply outcome_bind; [done|]. intros indexes.
  apply outcome_bind; [|done].
  destruct indexes as [err|indexes]; [done|].
  apply outcome_bind; [|done].
  unfold getInterfaces. apply outcome_bind; [|done]. by apply collect_order.
Qed.

End OrderPipeline.

Lemma length_hex (bytes : string) :
  String.length (ToUpper (EncodeToString bytes)) = (2 * String.length bytes)%nat.
Proof. induction bytes as [|c r IH]; [done|]. simpl. rewrite IH. lia. Qed.

Lemma substring_0_0 (s : string) : substring 0 0 s = EmptyString.
Proof. by destruct s. Qed.

(** X11. The text part_004 stores for a physical address.  For an address
    of six bytes or more: the upper-case hexadecimal digits of its first
    six bytes, in pairs separated by colons; the bytes after the sixth are
    dropped.  For a shorter address: the digits of its bytes, without
    separators. *)
Theorem physical_address_text (c1 c2 c3 c4 c5 c6 : ascii) (rest bytes : string) :
  Part004.formatMac
    (String c1 (String c2 (String c3 (String c4 (String c5 (String c6 rest)))))) =
    hexPair c1 +:+ ":" +:+ hexPair c2 +:+ ":" +:+ hexPair c3 +:+ ":" +:+
    hexPair c4 +:+ ":" +:+ hexPair c5 +:+ ":" +:+ hexPair c6 /\
  ((String.length bytes < 6)%nat ->
   Part004.formatMac bytes = ToUpper (EncodeToString bytes) /\
   String.length (Part004.formatMac bytes) = (2 * String.length bytes)%nat).
Proof.
  split.
  { unfold Part004.formatMac, hexPair. cbv zeta.
    cbn [EncodeToString ToUpper String.length Nat.leb slice substring Nat.sub].
    by rewrite substring_0_0. }
  intros Hlen.
  assert (Part004.formatMac bytes = ToUpper (EncodeToString bytes)) as ->.
  { unfold Part004.formatMac. cbv zeta. rewrite length_hex.
    by rewrite (proj2 (Nat.leb_gt _ _)) by lia. }
  split; [done|apply length_hex].
Qed.

Lemma byteval_range (c : ascii) : 0 <= byteval c < 256.
Proof.
  unfold byteval. pose proof (N_ascii_bounded c). lia.
Qed.

Lemma hexDigit_printable (n : Z) :
  0 <= n < 16 -> 32 < byteval (upper (hexDigit n)) < 128.
Proof.
  intros Hn. rewrite <- (Z2Nat.id n) by lia.
  assert (Z.to_nat n < 16)%nat as Hk by lia.
  generalize dependent (Z.to_nat n). clear Hn. intros k Hk.
  do 16 (destruct k as [|k]; [done|]). lia.
Qed.

Lemma spaceRune_printable (c : ascii) (r : string) :
  32 < byteval c < 128 -> spaceRune (String c r) = 0%nat.
Proof.
  intros Hc. unfold spaceRune. cbv zeta.
  rewrite (proj2 (Z.leb_gt (byteval c) 13)) by lia.
  rewrite (proj2 (Z.eqb_neq (byteval c) 32)) by lia.
  rewrite andb_false_r. cbn [orb].
  rewrite (proj2 (Z.eqb_neq (byteval c) 194)), (proj2 (Z.eqb_neq (byteval c) 225)),
    (proj2 (Z.eqb_neq (byteval c) 226)), (proj2 (Z.eqb_neq (byteval c) 227)) by lia.
  cbn [andb]. by destruct r as [|d [|e r']].
Qed.

Lemma trimLeft_printable (fuel : nat) (c : ascii) (r : string) :
  32 < byteval c < 128 -> trimLeft fuel (String c r) = String c r.
Proof.
  intros Hc. destruct fuel; [done|]. cbn [trimLeft].
  by rewrite spaceRune_printable.
Qed.

Lemma allSpace_printable (c : ascii) (r : string) :
  32 < byteval c < 128 -> allSpace (String c r) = false.
Proof. intros Hc. unfold allSpace. by rewrite trimLeft_printable. Qed.

Lemma substring_all (s : string) : substring 0 (String.length s) s = s.
Proof. induction s as [|c s IH]; [done|]. simpl. by rewrite IH. Qed.

Lemma allSpace_space (s : string) :
  allSpace (String " " s) = String.eqb (trimLeft (String.length s) s) EmptyString.
Proof.
  unfold allSpace. cbn [String.length trimLeft].
  change (spaceRune (String " " s)) with 1%nat. cbv iota. unfold drop_string.
  cbn [String.length Nat.sub substring]. rewrite Nat.sub_0_r.
  by rewrite substring_all.
Qed.

Lemma hexPair_printable (c : ascii) :
  32 < byteval (upper (hexDigit (byteval c / 16))) < 128 /\
  32 < byteval (upper (hexDigit (byteval c mod 16))) < 128.
Proof.
  pose proof (byteval_range c).
  split; apply hexDigit_printable.
  - split; [apply Z.div_pos; lia|apply Z.div_lt_upper_bound; lia].
  - apply Z.mod_pos_bound. lia.
Qed.

Lemma string_nil_app (s : string) : EmptyString +:+ s = s.
Proof. reflexivity. Qed.

Lemma spacedPairs_cons (c : ascii) (r : string) :
  Part005.spacedPairs (EncodeToString (String c r)) =
  hexPair c +:+ " " +:+ Part005.spacedPairs (EncodeToString r).
Proof. reflexivity. Qed.

Lemma trimLeft_spacedPairs (fuel : nat) (c : ascii) (r : string) :
  exists h t,
    Part005.spacedPairs (EncodeToString (String c r)) = String h t /\
    trimLeft fuel (String h t) = String h t.
Proof.
  rewrite spacedPairs_cons. unfold hexPair. rewrite !string_cons_app.
  eexists _, _. split; [reflexivity|].
  apply trimLeft_printable, hexPair_printable.
Qed.

Lemma trimRight_spacedPairs (bytes : string) :
  trimRight (Part005.spacedPairs (EncodeToString bytes)) = spaced bytes.
Proof.
  induction bytes as [|c r IH]; [done|].
  destruct (hexPair_printable c) as [H1 H2].
  rewrite spacedPairs_cons. unfold hexPair at 1.
  rewrite !string_cons_app, !string_nil_app.
  cbn [trimRight]. rewrite !allSpace_printable by done.
  rewrite allSpace_space.
  destruct r as [|c' r'].
  - reflexivity.
  - rewrite IH.
    destruct (trimLeft_spacedPairs
                (String.length (Part005.spacedPairs (EncodeToString (String c' r'))))
                c' r') as (h & t & Hs & Ht).
    rewrite Hs in Ht |- *. rewrite Ht. reflexivity.
Qed.

Lemma spaced_cons (c c' : ascii) (r : string) :
  spaced (String c (String c' r)) = hexPair c +:+ " " +:+ spaced (String c' r).
Proof. reflexivity. Qed.

Lemma length_spaced (bytes : string) :
  String.length (spaced bytes) = (3 * String.length bytes - 1)%nat.
Proof.
  induction bytes as [|c r IH]; [done|]. destruct r as [|c' r']; [done|].
  rewrite spaced_cons. unfold hexPair at 1.
  rewrite !string_cons_app, !string_nil_app. cbn [String.length].
  rewrite IH. cbn [String.length]. lia.
Qed.

(** X12. The text part_005 stores for a physical address: the
    upper-case hexadecimal digits of all its bytes, in pairs separated by
    one space, with no space at either end.  It has 3n - 1 characters for
    n bytes, and none for an empty address. *)
Theorem physical_address_spaced (bytes : string) :
  Part005.interfaceValue Part005.physicalAddress (gosnmp.DBytes bytes) =
    VString (spaced bytes) /\
  String.length (spaced bytes) = (3 * String.length bytes - 1)%nat.
Proof.
  split; [|apply length_spaced].
  unfold Part005.interfaceValue. rewrite String.eqb_refl. f_equal.
  unfold TrimSpace. destruct bytes as [|c r]; [done|].
  destruct (trimLeft_spacedPairs
              (String.length (Part005.spacedPairs (EncodeToString (String c r))))
              c r) as (h & t & Hs & Ht).
  rewrite <- Hs in Ht. rewrite Ht. apply trimRight_spacedPairs.
Qed.

Lemma returns_runs {A} (m : Go A) :
  returns m = true <-> exists a t, runs m a t.
Proof.
  unfold returns, runs. destruct m as [[a|k] t]; simpl.
  - split; [by eexists _, _|done].
  - split; [done|]. by intros (a & t' & [=]).
Qed.

Lemma returns_bind {A B} (m : Go A) (f : A -> Go B) :
  returns (m ≫= f) =
  match m.1 with Done a => returns (f a) | Panic _ => false end.
Proof.
  unfold returns, mbind, go_bind, bind. destruct m as [[a|k] t]; simpl; [|done].
  by destruct (f a).
Qed.

Lemma returns_deferClose {A} (body : Go A) :
  returns (deferClose body) = returns body.
Proof. unfold returns, deferClose. by destruct body. Qed.

Lemma returns_mustString {A} (v : GoValue) (f : string -> Go A) :
  returns (mustString v ≫= f) =
  match v with VString s => returns (f s) | _ => false end.
Proof. rewrite returns_bind. by destruct v. Qed.

Lemma returns_mustFloat64 {A} (v : GoValue) (f : Q -> Go A) :
  returns (mustFloat64 v ≫= f) =
  match v with VFloat64 q => returns (f q) | _ => false end.
Proof. rewrite returns_bind. by destruct v. Qed.

Lemma returns_emit {A} (e : Event) (k : Go A) :
  returns (emit e;; k) = returns k.
Proof. by rewrite returns_bind. Qed.

Lemma returns_firstOctetString (variables : list gosnmp.SnmpPDU) :
  forallb gosnmp.octetsAreBytes variables = true ->
  returns (Part003.firstOctetString variables) = true.
Proof.
  induction variables as [|variable rest IH]; [done|]. simpl.
  intros [Hv Hrest]%andb_prop. unfold gosnmp.octetsAreBytes in Hv.
  destruct (gosnmp.Type_ variable); try by apply IH.
  by destruct (gosnmp.Value variable).
Qed.

Section Bounds.
Context {V : Type} (table : gmap string string) (conv : gosnmp.Decoded -> V).

Lemma storeByPosition_returns (oidArray : list string)
    (variables : list gosnmp.SnmpPDU) (i : nat) (data : gmap string V) :
  returns (storeByPosition table conv oidArray variables i data) =
  bool_decide (variables = [] \/ length variables + i <= length oidArray)%nat.
Proof.
  revert i data. induction variables as [|variable rest IH]; intros i data.
  - rewrite bool_decide_true by by left. reflexivity.
  - cbn [storeByPosition]. cbv zeta. rewrite returns_bind. unfold at_.
    destruct (oidArray !! i) as [oid|] eqn:Hoid; cbn [fst ret panic].
    + rewrite IH. apply lookup_lt_Some in Hoid.
      apply bool_decide_ext. cbn [length].
      split; [intros [->|?]; right; simpl; lia|intros [[=]|?]].
      destruct rest; [by left|right; simpl in *; lia].
    + apply lookup_ge_None in Hoid. symmetry. apply bool_decide_eq_false.
      intros [[=]|Hle]. cbn [length] in Hle. lia.
Qed.

Lemma storeByPosition_panics (oidArray : list string)
    (variables : list gosnmp.SnmpPDU) (i : nat) (data : gmap string V) :
  variables <> [] -> (length oidArray < length variables + i)%nat ->
  storeByPosition table conv oidArray variables i data = (Panic IndexOutOfRange, []).
Proof.
  revert i data. induction variables as [|variable rest IH]; intros i data Hne Hlen;
    [done|].
  cbn [storeByPosition]. cbv zeta. unfold at_.
  destruct (oidArray !! i) as [oid|] eqn:Hoid; [|reflexivity].
  apply lookup_lt_Some in Hoid.
  etrans; [exact (bind_ret_l oid (fun oid =>
             storeByPosition table conv oidArray rest (S i)
               (<[field table oid := conv (gosnmp.Value variable)]> data)))|].
  apply IH; [|simpl in Hlen; lia]. intros ->. simpl in Hlen. lia.
Qed.

End Bounds.

(** X13. When the device answers the scalar request, the batched scalar
    fetch of each revision returns exactly when the response has no more
    variables than the request has OIDs; with a longer response it panics
    with an index out of range, after the request was sent. *)
Theorem scalar_fetch_panics_iff_response_is_longer (order : list string)
    (d : gosnmp.Device) (g : gosnmp.GoSNMP) (variables : list gosnmp.SnmpPDU) :
  order <> [] ->
  gosnmp.Get d g order = inr variables ->
  ((exists r t, runs (Part004.fetchSNMPSystemData order d g) r t) <->
   (length variables <= length order)%nat) /\
  ((exists r t, runs (Part005.fetchSNMPSystemData order d g) r t) <->
   (length variables <= length order)%nat) /\
  ((exists r t, runs (Snmpfetcher.FetchSNMPSystemData order d g) r t) <->
   (length variables <= length order)%nat) /\
  ((length order < length variables)%nat ->
   Part004.fetchSNMPSystemData order d g = (Panic IndexOutOfRange, [Got g order])).
Proof.
  intros Hne Hget.
  assert ((length order =? 0)%nat = false) as Hlen.
  { apply Nat.eqb_neq. by destruct order. }
  assert (forall {V} table (conv : gosnmp.Decoded -> V),
    returns (emit (Got g order);;
             match gosnmp.Get d g order with
             | inl err => mret (inl err)
             | inr variables =>
                 snmpData ← storeByPosition table conv order variables 0 ∅;
                 mret (inr snmpData)
             end) = true <-> (length variables <= length order)%nat) as Hgen.
  { intros V table conv. rewrite returns_emit, Hget, returns_bind.
    pose proof (storeByPosition_returns table conv order variables 0 ∅) as Hr.
    unfold returns in Hr at 1.
    destruct (storeByPosition table conv order variables 0 ∅).1;
      cbn [returns fst mret go_ret ret]; symmetry in Hr.
    - apply bool_decide_eq_true in Hr. split; [intros _|done].
      destruct Hr as [->|?]; simpl; lia.
    - apply bool_decide_eq_false in Hr. split; [done|]. intros Hle.
      destruct Hr. right. lia. }
  split; [|split; [|split]].
  - rewrite <- returns_runs. unfold Part004.fetchSNMPSystemData. cbv zeta.
    rewrite Hlen. apply (Hgen _ util.SNMPOids Part004.systemValue).
  - rewrite <- returns_runs. unfold Part005.fetchSNMPSystemData. cbv zeta.
    rewrite Hlen. apply (Hgen _ util.SNMPOids Part005.systemValue).
  - rewrite <- returns_runs. unfold Snmpfetcher.FetchSNMPSystemData. cbv zeta.
    rewrite Hlen. apply (Hgen _ config.SNMPOids Snmpfetcher.systemValue).
  - intros Hlonger. unfold Part004.fetchSNMPSystemData. cbv zeta.
    rewrite Hlen, Hget.
    change (Part004.storeSystem order variables 0 ∅)
      with (storeByPosition util.SNMPOids Part004.systemValue order variables 0 ∅).
    rewrite storeByPosition_panics; [reflexivity| |lia].
    intros ->. simpl in Hlonger. lia.
Qed.

(** X14. For every tick count of 32 bits, the text of the up-time gives the
    whole seconds of the tick count as days, hours, minutes and seconds:
    hours below 24, minutes and seconds below 60, at most 497 days, and
    together they are the tick count divided by 100. *)
Theorem uptime_text_is_the_tick_count_in_seconds (uptime : Z) :
  0 <= uptime < 2 ^ 32 ->
  exists days hours minutes seconds,
    uptimeString uptime =
      "Uptime: " +:+ itoa days +:+ " days, " +:+ itoa02 hours +:+ " hours, " +:+
      itoa02 minutes +:+ " minutes, " +:+ itoa02 seconds +:+ " seconds" /\
    0 <= days <= 497 /\ 0 <= hours < 24 /\ 0 <= minutes < 60 /\ 0 <= seconds < 60 /\
    ((days * 24 + hours) * 60 + minutes) * 60 + seconds = uptime / 100.
Proof.
  intros Hu. unfold uptimeString. cbv zeta.
  eexists _, _, _, _. split; [reflexivity|].
  assert (0 <= uptime / 100 < 42949673) as Hs.
  { split; [apply Z.div_pos; lia|apply Z.div_lt_upper_bound; lia]. }
  set (s := uptime / 100) in *.
  pose proof (Z.div_mod s (24 * 3600) ltac:(lia)) as H1.
  pose proof (Z.mod_pos_bound s (24 * 3600) ltac:(lia)) as H2.
  set (r := s mod (24 * 3600)) in *.
  pose proof (Z.div_mod r 3600 ltac:(lia)) as H3.
  pose proof (Z.mod_pos_bound r 3600 ltac:(lia)) as H4.
  set (r' := r mod 3600) in *.
  pose proof (Z.div_mod r' 60 ltac:(lia)) as H5.
  pose proof (Z.mod_pos_bound r' 60 ltac:(lia)) as H6.
  assert (0 <= s / (24 * 3600) <= 497).
  { split; [apply Z.div_pos; lia|]. apply Z.lt_succ_r.
    apply Z.div_lt_upper_bound; lia. }
  assert (0 <= r / 3600 < 24).
  { split; [apply Z.div_pos; lia|apply Z.div_lt_upper_bound; lia]. }
  assert (0 <= r' / 60 < 60).
  { split; [apply Z.div_pos; lia|apply Z.div_lt_upper_bound; lia]. }
  repeat split; try lia.
Qed.

Section Fetcher.

(** X15. In snmpfetcher.go the key "Index" of a record is also the field
    name of the column 1.3.6.1.2.1.2.2.1.1.  When the device answers that
    column with a value that is not nil, its answer replaces the index the
    record was created with; otherwise the record keeps the index of the
    loop. *)
Theorem reported_index_replaces_the_index (order : list string)
    (d : gosnmp.Device) (i : Z) (g : gosnmp.GoSNMP)
    (variables : list gosnmp.SnmpPDU) :
  keysOf config.InterfaceOids order ->
  gosnmp.Get d g (Snmpfetcher.interfaceOids order i) = inr variables ->
  (length variables <= length order)%nat ->
  config.InterfaceOids !! "1.3.6.1.2.1.2.2.1.1" = Some "Index" /\
  exists interfaceData,
    runs (Snmpfetcher.getInterface order d i g) interfaceData
         [Got g (Snmpfetcher.interfaceOids order i)] /\
    (forall k variable,
       order !! k = Some "1.3.6.1.2.1.2.2.1.1" -> variables !! k = Some variable ->
       interfaceData !! "Index" =
         stored Snmpfetcher.interfaceValue "Index" variable (Some (itoa i))) /\
    (forall k,
       order !! k = Some "1.3.6.1.2.1.2.2.1.1" -> variables !! k = None ->
       interfaceData !! "Index" = Some (itoa i)).
Proof.
  intros Hkeys Hget Hlen. split; [reflexivity|].
  pose proof (keysOf_config_InterfaceOids_NoDup order Hkeys) as Hnd.
  set (fields := field config.InterfaceOids <$> order) in *.
  destruct (storeNonNil_positions Snmpfetcher.interfaceValue fields variables 0
              {["Index" := itoa i]})
    as (data & Hrun & Hpos & Hkeep); [unfold fields; rewrite length_fmap; lia|done|].
  assert (forall k, order !! k = Some "1.3.6.1.2.1.2.2.1.1" ->
                    fields !! k = Some "Index") as Hfield.
  { intros k Hk. unfold fields. by rewrite list_lookup_fmap, Hk. }
  exists data. split; [|split].
  - unfold Snmpfetcher.getInterface. cbv zeta.
    eapply (runs_bind _ _ tt [_] _ []); [apply runs_emit|]. rewrite Hget.
    exact Hrun.
  - intros k variable Hoid Hvar.
    rewrite (Hpos k "Index" variable Hvar (Hfield k Hoid)).
    by rewrite lookup_singleton_eq.
  - intros k Hoid Hvar. rewrite Hkeep; [apply lookup_singleton_eq|].
    intros Hin%elem_of_take. destruct Hin as (j & Hj & Hlt). rewrite drop_0 in Hj.
    pose proof (NoDup_lookup _ _ _ _ Hnd Hj (Hfield k Hoid)). subst j.
    apply lookup_ge_None in Hvar. lia.
Qed.

End Fetcher.

Section FirstPoller.
Import Snmpfetcher.

(** X16. Every answer of [FetchSNMPData] of snmpfetcher.go is either a map
    with the single key "error", or a map with the six system fields as
    strings and a list under "interfaces", and without "error".  It never
    has the key "interfaces.error". *)
Theorem answer_of_the_first_poller (rt : Runtime) (d : gosnmp.Device)
    (ip community version : string) (out : gmap string GoValue) (t : list Event) :
  runs (FetchSNMPData rt d ip community version) out t ->
  out !! "interfaces.error" = None /\
  ((exists msg, out = {["error" := VString msg]}) \/
   (exists records,
      out !! "interfaces" = Some (VList records) /\
      out !! "error" = None /\
      forall k, k ∈ ["system.name"; "system.description"; "system.location";
                     "system.objectId"; "system.uptime"; "system.interfaces"] ->
        exists s, out !! k = Some (VString s))).
Proof.
  unfold FetchSNMPData.
  intros (v & t0 & t1 & _ & Hrun & ->)%runs_bind_inv. cbv zeta in Hrun.
  apply runs_bind_inv in Hrun as ([] & ? & t2 & _ & Hrun & ->).
  destruct (gosnmp.Connect d _) as [err|].
  { apply runs_ret_inv in Hrun as [-> _]. split; [done|]. left. by eexists. }
  apply runs_deferClose_inv in Hrun as (t3 & Hrun & ->).
  apply runs_bind_inv in Hrun as ([err|systemData] & t4 & t5 & _ & Hrun & ->).
  { apply runs_ret_inv in Hrun as [-> _]. split; [done|]. left. by eexists. }
  cbv zeta in Hrun. destruct (Atoi _) as [numberOfInterface converr].
  apply runs_bind_inv in Hrun as ([] & t6 & t7 & _ & Hrun & ->).
  assert (forall (m : gmap string GoValue) records,
    out = <["interfaces" := VList records]>
            (<["system.interfaces" := VString (field systemData "system.interfaces")]>
            (<["system.uptime" := VString (field systemData "system.uptime")]>
            (<["system.objectId" := VString (field systemData "system.objectId")]>
            (<["system.location" := VString (field systemData "system.location")]>
            (<["system.description" := VString (field systemData "system.description")]>
            {["system.name" := VString (field systemData "system.name")]}))))) ->
    out !! "interfaces.error" = None /\
    ((exists msg, out = {["error" := VString msg]}) \/
     (exists records,
        out !! "interfaces" = Some (VList records) /\
        out !! "error" = None /\
        forall k, k ∈ ["system.name"; "system.description"; "system.location";
                       "system.objectId"; "system.uptime"; "system.interfaces"] ->
          exists s, out !! k = Some (VString s)))) as Hdata.
  { intros _ records ->. split; [done|]. right. exists records.
    split; [done|]. split; [done|]. intros k Hk.
    repeat (apply elem_of_cons in Hk as [->|Hk]; [by eexists|]).
    by apply elem_of_nil in Hk. }
  destruct (0 <? numberOfInterface).
  - apply runs_bind_inv in Hrun as ([records e] & t8 & t9 & Hget & Hrun & ->).
    unfold GetInterfaces in Hget.
    apply runs_bind_inv in Hget as ([] & ? & ? & _ & Hget & _).
    apply runs_bind_inv in Hget as (recs & ? & ? & _ & [[= -> ->] _]%runs_ret_inv & _).
    cbn [snd fst] in Hrun. apply runs_ret_inv in Hrun as [-> _].
    by eapply (Hdata ∅).
  - apply runs_ret_inv in Hrun as [-> _]. by eapply (Hdata ∅).
Qed.

End FirstPoller.

Section FirstPollerCount.
Import Snmpfetcher.


End FirstPollerCount.

(** ** The checks of the workers on the fields of a request *)

Lemma checkFields_same (fields : list string) (reqData values missing : gmap string string) :
  Worker003.checkFields fields reqData values missing =
  Handler.checkFields fields reqData values missing.
Proof.
  revert values missing. induction fields as [|f rest IH]; intros values missing;
    [done|].
  cbn [Worker003.checkFields Handler.checkFields].
  destruct (reqData !! f) as [value|]; [destruct (String.eqb value _)|]; apply IH.
Qed.

Lemma checkFields_sorts (fields : list string)
    (reqData values missing : gmap string string) (f : string) :
  let r := Handler.checkFields fields reqData values missing in
  r.1 !! f = (if bool_decide (f ∈ fields) && present reqData f
              then reqData !! f else values !! f) /\
  r.2 !! f = (if bool_decide (f ∈ fields) && negb (present reqData f)
              then Some Handler.ErrorMissingField else missing !! f).
Proof.
  cbv zeta. revert values missing.
  induction fields as [|f' rest IH]; intros values missing; [done|].
  cbn [Handler.checkFields].
  assert (bool_decide (f ∈ f' :: rest) =
          bool_decide (f = f') || bool_decide (f ∈ rest)) as ->.
  { apply eq_true_iff_eq. rewrite orb_true_iff, !bool_decide_eq_true.
    apply elem_of_cons. }
  destruct (decide (f = f')) as [->|Hne].
  - rewrite (bool_decide_true (f' = f')) by done. cbn [orb andb].
    assert (forall v m,
      (Handler.checkFields rest reqData v m).1 !! f' =
        (if bool_decide (f' ∈ rest) && present reqData f'
         then reqData !! f' else v !! f') /\
      (Handler.checkFields rest reqData v m).2 !! f' =
        (if bool_decide (f' ∈ rest) && negb (present reqData f')
         then Some Handler.ErrorMissingField else m !! f')) as IH' by (intros; apply IH).
    unfold present in *.
    destruct (reqData !! f') as [value|] eqn:Hf';
      [destruct (String.eqb value EmptyString) eqn:Hvalue|]; cbn [negb] in *;
      match goal with
      | |- context [Handler.checkFields rest reqData ?v ?m] =>
          destruct (IH' v m) as [-> ->]
      end; rewrite ?andb_false_r, ?andb_true_r;
      destruct (bool_decide (f' ∈ rest)); by rewrite ?lookup_insert_eq.
  - rewrite (bool_decide_false (f = f')) by done. cbn [orb].
    destruct (reqData !! f') as [value|];
      [destruct (String.eqb value EmptyString)|];
      match goal with
      | |- context [Handler.checkFields rest reqData ?v ?m] =>
          destruct (IH v m) as [-> ->]
      end; by rewrite ?lookup_insert_ne.
Qed.

(** X18. [validateRequest] of the workers puts every required field in
    exactly one of its two results: a field the request has with a value
    other than the empty string is in the first, with that value; any other
    required field is in the second, with the text "Missing or null field";
    a field that is not required is in neither.  The worker of zmq.go
    requires "ip", "community" and "version", the worker of part_003 also
    "pluginType" and "requestType". *)
Theorem required_fields_are_sorted (reqData : gmap string string) (f : string) :
  let r3 := Handler.validateRequest reqData in
  let r5 := Worker003.validateRequest reqData in
  let required3 := bool_decide (f ∈ ["ip"; "community"; "version"]) in
  let required5 :=
    bool_decide (f ∈ ["ip"; "community"; "version"; "pluginType"; "requestType"]) in
  r3.1 !! f = (if required3 && present reqData f then reqData !! f else None) /\
  r3.2 !! f = (if required3 && negb (present reqData f)
               then Some "Missing or null field" else None) /\
  r5.1 !! f = (if required5 && present reqData f then reqData !! f else None) /\
  r5.2 !! f = (if required5 && negb (present reqData f)
               then Some "Missing or null field" else None).
Proof.
  cbv zeta. unfold Handler.validateRequest, Worker003.validateRequest.
  destruct (checkFields_sorts ["ip"; "community"; "version"] reqData ∅ ∅ f)
    as [H1 H2].
  destruct (checkFields_sorts
              ["ip"; "community"; "version"; "pluginType"; "requestType"]
              reqData ∅ ∅ f) as [H3 H4].
  rewrite <- checkFields_same in H3, H4. done.
Qed.

Lemma size_positive_lookup (m : gmap string string) (k v : string) :
  m !! k = Some v -> (0 <? size m)%nat = true.
Proof.
  intros Hk. apply Nat.ltb_lt. destruct (size m) eqn:Hsize; [|lia].
  apply map_size_empty_iff in Hsize. subst m. by rewrite lookup_empty in Hk.
Qed.

Lemma size_zero_lookup (m : gmap string string) :
  (forall k, m !! k = None) -> (0 <? size m)%nat = false.
Proof.
  intros Hnone. assert (m = ∅) as -> by by apply map_empty.
  reflexivity.
Qed.

Lemma missing_of_three (reqData : gmap string string) (f : string) :
  (Handler.validateRequest reqData).2 !! f =
    (if bool_decide (f ∈ ["ip"; "community"; "version"]) && negb (present reqData f)
     then Some "Missing or null field" else None).
Proof.
  destruct (checkFields_sorts ["ip"; "community"; "version"] reqData ∅ ∅ f)
    as [_ H].
  exact H.
Qed.

Lemma missing_three (reqData : gmap string string) :
  let complete := present reqData "ip" && present reqData "community" &&
                  present reqData "version" in
  (0 <? size (Handler.validateRequest reqData).2)%nat = negb complete.
Proof.
  cbv zeta.
  pose proof (missing_of_three reqData) as Hmissing.
  destruct (present reqData "ip") eqn:Hip.
  2:{ eapply size_positive_lookup. rewrite (Hmissing "ip"), Hip. reflexivity. }
  destruct (present reqData "community") eqn:Hc.
  2:{ eapply size_positive_lookup. rewrite (Hmissing "community"), Hc. reflexivity. }
  destruct (present reqData "version") eqn:Hv.
  2:{ eapply size_positive_lookup. rewrite (Hmissing "version"), Hv. reflexivity. }
  apply size_zero_lookup. intros k. rewrite Hmissing.
  destruct (bool_decide (k ∈ _)) eqn:Hk; [|done].
  apply bool_decide_eq_true in Hk.
  repeat (apply elem_of_cons in Hk as [->|Hk]; [by rewrite ?Hip, ?Hc, ?Hv|]).
  by apply elem_of_nil in Hk.
Qed.

(** X19. The worker of zmq.go answers a request that lacks one of "ip",
    "community" and "version" with the error "Missing or null field" and,
    under "details", exactly the fields that are missing, and asks nothing
    of the device; any other request is answered by the poller, called with
    the three fields. *)
Theorem worker_checks_before_it_polls (rt : Runtime) (d : gosnmp.Device)
    (reqData : gmap string string) :
  let complete := present reqData "ip" && present reqData "community" &&
                  present reqData "version" in
  let missingFields := (Handler.validateRequest reqData).2 in
  (complete = false ->
   runs (Handler.serve rt d reqData)
     (<["details" := VMap (VString <$> missingFields)]>
        {["error" := VString "Missing or null field"]}) [] /\
   forall f, missingFields !! f =
     (if bool_decide (f ∈ ["ip"; "community"; "version"]) &&
         negb (present reqData f)
      then Some "Missing or null field" else None)) /\
  (complete = true ->
   Handler.serve rt d reqData =
     Snmpfetcher.FetchSNMPData rt d (field reqData "ip")
       (field reqData "community") (field reqData "version")).
Proof.
  cbv zeta. pose proof (missing_three reqData) as Hsize. cbv zeta in Hsize.
  split; intros Hcomplete; rewrite Hcomplete in Hsize; cbn [negb] in Hsize.
  - split.
    + unfold Handler.serve.
      destruct (Handler.validateRequest reqData) as [values missingFields].
      cbn [snd] in *. rewrite Hsize. apply runs_ret.
    + apply missing_of_three.
  - unfold Handler.serve.
    destruct (Handler.validateRequest reqData) as [values missingFields].
    cbn [snd] in *. by rewrite Hsize.
Qed.

(** ** The worker of part_003 *)

Lemma lower_not_upper (c : ascii) :
  (65 <=? byteval (lower c)) && (byteval (lower c) <=? 90) = false.
Proof.
  destruct c as [[] [] [] [] [] [] [] []]; reflexivity.
Qed.

(** Lower-case text is not the name of the polling case, which has a
    capital letter. *)
Lemma ToLower_not_pollingKey (s : string) :
  String.eqb (ToLower s) Worker003.pollingKey = false.
Proof.
  apply String.eqb_neq. intros Heq.
  assert (forall s, forallb (fun c => negb ((65 <=? byteval c) && (byteval c <=? 90)))
                      (list_ascii_of_string (ToLower s)) = true) as Hlower.
  { clear. induction s as [|c r IH]; [done|]. cbn [ToLower list_ascii_of_string forallb].
    by rewrite lower_not_upper, IH. }
  specialize (Hlower s). rewrite Heq in Hlower. discriminate Hlower.
Qed.

Section Worker003Facts.
Import Worker003.

(** X20. The worker of part_003 (lines 1 to 281) never calls the poller: it
    compares the lower-cased request type with "pollingKey", which has a
    capital letter.  So the reply does not depend on the poller, and a
    complete request of the SNMP plug-in for "polling", in any case of the
    letters, is answered with "Request type not supported currently". *)
Theorem polling_is_never_dispatched
    (FetchSNMPData : string -> string -> string -> Go (gmap string GoValue))
    (d : gosnmp.Device) (reqData : gmap string string) :
  isASCII (field reqData "pluginType") = true ->
  isASCII (field reqData "requestType") = true ->
  (forall other, serve FetchSNMPData d reqData = serve other d reqData) /\
  ((validateRequest reqData).2 = ∅ ->
   ToLower (field reqData "pluginType") = "snmp" ->
   ToLower (field reqData "requestType") = "polling" ->
   runs (serve FetchSNMPData d reqData)
        (notSupported "Request type not supported currently") []).
Proof.
  intros _ _. split.
  - intros other. unfold serve.
    destruct (validateRequest reqData) as [values missingFields].
    destruct (0 <? size missingFields)%nat; [done|]. cbv zeta.
    destruct (negb _); [done|].
    destruct (String.eqb _ discoveryKey); [done|].
    by rewrite ToLower_not_pollingKey.
  - intros Hnone Hplugin Hpolling. unfold serve.
    destruct (validateRequest reqData) as [values missingFields].
    cbn [snd] in Hnone. subst missingFields. cbv zeta.
    change (field reqData pluginTypeKey) with (field reqData "pluginType").
    change (field reqData requestTypeKey) with (field reqData "requestType").
    rewrite Hplugin, Hpolling. apply runs_ret.
Qed.

End Worker003Facts.

Section Discovery003.
Import Part003.

Lemma Discovery_shape (d : gosnmp.Device)
    (reqData out : gmap string GoValue) (t : list Event) :
  runs (Discovery d reqData) out t ->
  (exists err,
     err ∈ [UnsupportedPlugin; UnsupportedSNMP; SNMPConnectFail; SNMPGetFail;
            SystemNameNotFound] /\
     out = <[Status := VString Fail]> (<[Errors := VString err]> reqData) /\
     (err = UnsupportedPlugin \/ err = UnsupportedSNMP -> networkCalls t = [])) \/
  (exists name,
     out = <[Status := VString Success]>
             (<[Data := VMap {[SystemName := VString name]}]> reqData)).
Proof.
  unfold Discovery. destruct (negb _).
  { intros ([] & ? & ? & [= <-] & [-> ->]%runs_ret_inv & ->)%runs_bind_inv.
    left. exists UnsupportedPlugin. split; [set_solver|]. by split. }
  intros (target & ? & t1 & [_ ->]%runs_mustString_inv & Hrun & ->)%runs_bind_inv.
  apply runs_bind_inv in Hrun as (port & t2 & t3 & Hport & Hrun & ->).
  assert (t2 = []) as ->.
  { destruct (valueAt reqData Port); try done. by injection Hport as _ <-. }
  apply runs_bind_inv in Hrun
    as (community & ? & t4 & [_ ->]%runs_mustString_inv & Hrun & ->).
  apply runs_bind_inv in Hrun
    as (version & ? & t5 & [_ ->]%runs_mustString_inv & Hrun & ->).
  cbn [app]. destruct (switchVersion version) as [v|].
  2:{ apply runs_bind_inv in Hrun
        as ([] & ? & ? & [= <-] & [-> ->]%runs_ret_inv & ->).
      left. exists UnsupportedSNMP. split; [set_solver|]. by split. }
  cbv zeta in Hrun.
  apply runs_bind_inv in Hrun
    as (ip & ? & t6 & [_ ->]%runs_mustString_inv & Hrun & ->).
  apply runs_bind_inv in Hrun as ([] & ? & t7 & _ & Hrun & ->).
  apply runs_bind_inv in Hrun as ([] & ? & t8 & _ & Hrun & ->).
  destruct (gosnmp.Connect d _) as [err|].
  { apply runs_bind_inv in Hrun as ([] & ? & ? & _ & [-> _]%runs_ret_inv & _).
    left. exists SNMPConnectFail. split; [set_solver|].
    split; [done|]. by intros [|]. }
  apply runs_deferClose_inv in Hrun as (t9 & Hrun & ->). cbv zeta in Hrun.
  apply runs_bind_inv in Hrun as ([] & ? & t10 & _ & Hrun & ->).
  apply runs_bind_inv in Hrun as ([] & ? & t11 & _ & Hrun & ->).
  destruct (gosnmp.Get d _ _) as [err|variables].
  { apply runs_ret_inv in Hrun as [-> _].
    left. exists SNMPGetFail. split; [set_solver|]. split; [done|]. by intros [|]. }
  apply runs_bind_inv in Hrun as ([name|] & ? & t12 & _ & Hrun & ->).
  - apply runs_ret_inv in Hrun as [-> _]. right. by exists name.
  - apply runs_bind_inv in Hrun as ([] & ? & ? & _ & [-> _]%runs_ret_inv & _).
    left. exists SystemNameNotFound. split; [set_solver|].
    split; [done|]. by intros [|].
Qed.

(** X21. Every answer of [Discovery] of part_003 (first revision) is the
    request with status "fail" and, under "error", one of the five texts of
    the package, or the request with status "success" and, under "data",
    the system name.  When the error is "unsupported plugin type" or
    "unsupported SNMP version", nothing was asked of the device. *)
Theorem answer_of_a_discovery_job (d : gosnmp.Device)
    (reqData out : gmap string GoValue) (t : list Event) :
  runs (Discovery d reqData) out t ->
  (exists err,
     err ∈ [UnsupportedPlugin; UnsupportedSNMP; SNMPConnectFail; SNMPGetFail;
            SystemNameNotFound] /\
     out = <[Status := VString Fail]> (<[Errors := VString err]> reqData) /\
     (err = UnsupportedPlugin \/ err = UnsupportedSNMP -> networkCalls t = [])) \/
  (exists name,
     out = <[Status := VString Success]>
             (<[Data := VMap {[SystemName := VString name]}]> reqData)).
Proof. apply Discovery_shape. Qed.

(** X22. [Discovery] of part_003 (first revision) does not check that the
    fields it reads are there.  With a library that decodes OctetString
    bindings to byte slices, it returns an answer, rather than panics,
    exactly when the plug-in type is not the string "snmp" or the request
    has strings under "ip", "community" and "version" and a [float64] under
    "port". *)
Theorem discovery_job_is_answered_iff (d : gosnmp.Device)
    (reqData : gmap string GoValue) :
  gosnmp.decodes d ->
  (exists out t, runs (Discovery d reqData) out t) <->
  (reqData !! PluginType = Some (VString SNMPPlugin) ->
   hasString reqData IP = true /\ hasFloat64 reqData Port = true /\
   hasString reqData Community = true /\ hasString reqData Version = true).
Proof.
  intros Hdec. rewrite <- returns_runs. unfold Discovery.
  unfold hasString, hasFloat64, valueAt, eqString.
  destruct (reqData !! PluginType) as [[| plugin | | | | | | | |]|]; cbn [default from_option id negb];
    try (split; [by intros _ [=]|intros _; reflexivity]).
  destruct (String.eqb_spec plugin SNMPPlugin) as [->|Hne]; cbn [negb].
  2:{ split; [|intros _; reflexivity]. intros _ [= ?]. by subst. }
  rewrite returns_mustString.
  destruct (reqData !! IP) as [[| ip | | | | | | | |]|]; cbn [default from_option id];
    try (split; [done|intros H; by destruct (H eq_refl) as (? & ? & ? & ?)]).
  rewrite returns_mustFloat64.
  destruct (reqData !! Port) as [[| | | | | | | port | |]|]; cbn [default from_option id];
    try (split; [done|intros H; by destruct (H eq_refl) as (? & ? & ? & ?)]).
  rewrite returns_mustString.
  destruct (reqData !! Community) as [[| community | | | | | | | |]|]; cbn [default from_option id];
    try (split; [done|intros H; by destruct (H eq_refl) as (? & ? & ? & ?)]).
  rewrite returns_mustString.
  destruct (reqData !! Version) as [[| version | | | | | | | |]|]; cbn [default from_option id];
    try (split; [done|intros H; by destruct (H eq_refl) as (? & ? & ? & ?)]).
  split; [by intros _ _|]. intros _.
  destruct (switchVersion version) as [v|]; [|done]. cbv zeta.
  rewrite returns_mustString, !returns_emit.
  destruct (gosnmp.Connect d _) as [err|]; [done|].
  rewrite returns_deferClose. cbv zeta. rewrite !returns_emit.
  destruct (gosnmp.Get d _ _) as [err|variables] eqn:Hget; [done|].
  rewrite returns_bind.
  pose proof (returns_firstOctetString variables (Hdec _ _ _ Hget)) as Hname.
  unfold returns in Hname.
  destruct (Part003.firstOctetString variables).1 as [[name|]|]; done.
Qed.

End Discovery003.

Section Discovery003b.
Import Part003b.

Lemma ValidateRequest_notEmpty (reqData : gmap string GoValue) :
  ValidateRequest reqData =
    notEmpty reqData IP && notEmpty reqData PluginType && notEmpty reqData RequestID.
Proof.
  unfold ValidateRequest, notEmpty. cbn [anyMissing].
  destruct (reqData !! IP) as [v1|]; [destruct (eqString v1 EmptyString)|];
    (destruct (reqData !! PluginType) as [v2|];
       [destruct (eqString v2 EmptyString)|]);
    (destruct (reqData !! RequestID) as [v3|];
       [destruct (eqString v3 EmptyString)|]); reflexivity.
Qed.

(** X23. [Discovery] of the second revision in part_003 tests
    [ValidateRequest] without a negation.  [ValidateRequest] holds exactly
    when "ip", "pluginType" and "requestID" are present and are not the
    empty string; every request for which it holds is answered with status
    "fail" and error "field missing", without a call to the device; and an
    answer with status "success" is only given to a request of the SNMP
    plug-in whose "requestID" is absent or empty, or whose "ip" is the
    empty string. *)
Theorem complete_discovery_request_rejected (d : gosnmp.Device)
    (reqData : gmap string GoValue) :
  ValidateRequest reqData =
    notEmpty reqData IP && notEmpty reqData PluginType &&
    notEmpty reqData RequestID /\
  (ValidateRequest reqData = true ->
   runs (Discovery d reqData)
        (<[Status := VString Fail]> (<[Error_ := VString FieldMissing]> reqData))
        []) /\
  (forall out t,
     runs (Discovery d reqData) out t ->
     out !! Status = Some (VString Success) ->
     reqData !! PluginType = Some (VString SNMPPlugin) /\
     (reqData !! IP = Some (VString EmptyString) \/ notEmpty reqData RequestID = false)).
Proof.
  split; [apply ValidateRequest_notEmpty|]. split.
  - intros Hv. unfold Discovery. rewrite Hv. apply runs_ret.
  - intros out t Hrun Hstatus. revert Hrun. unfold Discovery.
    rewrite ValidateRequest_notEmpty.
    destruct (notEmpty reqData IP && notEmpty reqData PluginType &&
              notEmpty reqData RequestID) eqn:Hv.
    { intros [-> _]%runs_ret_inv. unfold failWith in Hstatus; by rewrite lookup_insert_eq in Hstatus. }
    unfold valueAt at 1.
    destruct (reqData !! PluginType) as [[| plugin | | | | | | | |]|] eqn:Hp;
      cbn [default from_option id eqString negb];
      try (intros ([] & ? & ? & _ & [-> _]%runs_ret_inv & _)%runs_bind_inv;
           unfold failWith in Hstatus; by rewrite lookup_insert_eq in Hstatus).
    destruct (String.eqb_spec plugin SNMPPlugin) as [->|Hne]; cbn [negb].
    2:{ intros ([] & ? & ? & _ & [-> _]%runs_ret_inv & _)%runs_bind_inv.
        unfold failWith in Hstatus; by rewrite lookup_insert_eq in Hstatus. }
    intros (ip & ? & t1 & [Hip _]%runs_mustString_inv & _)%runs_bind_inv.
    apply valueAt_string in Hip. split; [done|].
    unfold notEmpty in Hv |- *. rewrite Hip, Hp in Hv. cbn [eqString] in Hv.
    destruct (String.eqb_spec ip EmptyString) as [Heq|Hne];
      [left; by rewrite Hip, Heq|right].
    exact Hv.
Qed.

End Discovery003b.

Section RouterFacts.

Lemma Router_reply (rt : Runtime) (d : gosnmp.Device)
    (req : string) (err : option string) (reqData : gmap string GoValue)
    (reply : string + gmap string GoValue) (t : list Event) :
  runs (Router.serve (Part003.Discovery d) (Part004.FetchSNMPData rt d)
          req err reqData) reply t ->
  (req = "health_check" /\ reply = inl "ok") \/
  (exists e id,
     err = Some e /\ reqData !! "request_id" = Some (VString id) /\ t = [] /\
     reply = inr (<["status" := VString "fail"]>
                  (<["details" := VString e]>
                  (<["error" := VString "Invalid request format"]>
                  {["request_id" := VString id]})))) \/
  (exists out,
     err = None /\ reply = inr out /\
     (out !! "status" = Some (VString "success") \/
      out !! "status" = Some (VString "fail")) /\
     forall k, k ∉ ["status"; "error"; "data"; "port"] -> out !! k = reqData !! k).
Proof.
  unfold Router.serve. destruct (String.eqb_spec req "health_check") as [->|Hreq].
  { intros [-> _]%runs_ret_inv. by left. }
  destruct err as [e|].
  { intros (id & ? & ? & [Hid ->]%runs_mustString_inv & [-> ->]%runs_ret_inv & ->)
      %runs_bind_inv.
    right; left. exists e, id. split; [done|]. split; [|done].
    unfold valueAt in Hid. change Router.requestID with "request_id" in Hid.
    destruct (reqData !! "request_id") as [v|]; [|done]. by rewrite <- Hid. }
  cbv zeta.
  intros (ty & ? & t1 & _ & Hrun & ->)%runs_bind_inv.
  right; right.
  assert (forall k, k ∉ ["status"; "error"; "data"; "port"] ->
            k <> "status" /\ k <> "error" /\ k <> "data") as Hkeys.
  { intros k Hk. rewrite !not_elem_of_cons in Hk. tauto. }
  destruct (String.eqb (ToLower ty) Router.discovery).
  { apply runs_bind_inv in Hrun as (out & t2 & ? & Hrun & [-> _]%runs_ret_inv & _).
    exists out. split; [done|]. split; [done|].
    destruct (Discovery_shape d reqData out t2 Hrun)
      as [(e & _ & -> & _)|(name & ->)].
    - split; [right; apply lookup_insert_eq|]. intros k (? & ? & ?)%Hkeys.
      by rewrite !lookup_insert_ne.
    - split; [left; apply lookup_insert_eq|]. intros k (? & ? & ?)%Hkeys.
      by rewrite !lookup_insert_ne. }
  destruct (String.eqb (ToLower ty) Router.polling).
  { apply runs_bind_inv in Hrun as (out & t2 & ? & Hrun & [-> _]%runs_ret_inv & _).
    exists out. split; [done|]. split; [done|].
    destruct (FetchSNMPData_shape rt d reqData out t2 Hrun) as [Hshape Hecho].
    split; [|exact Hecho].
    destruct Hshape as [(e & _ & _ & ->)|(status & data & g & t' & [->| ->] & _ & ->)].
    - right. apply lookup_insert_eq.
    - left. apply lookup_insert_eq.
    - right. apply lookup_insert_eq. }
  apply runs_ret_inv in Hrun as [-> _]. eexists. split; [done|]. split; [done|].
  split; [right; apply lookup_insert_eq|]. intros k (? & ? & ?)%Hkeys.
  by rewrite !lookup_insert_ne.
Qed.

(** X24. The worker of server.go (lines 167 to 365), with [Discovery] of
    part_003 and [FetchSNMPData] of part_004.  A reply is the "ok" of a
    health check; or, for a message that [json.Unmarshal] refused, the four
    keys "request_id", "error", "details" and "status" = "fail", which needs
    a string under "request_id" in the map that was left; or, for a decoded
    message, the request with a status "success" or "fail" and every key
    other than "status", "error", "data" and "port" at the value it had.  A
    refused message whose map has no string under "request_id" (the nil map
    of a text that is not JSON) gets no reply, with any [Discovery] and
    [FetchSNMPData]: the worker panics while it builds the reply. *)
Theorem every_reply_has_a_status (rt : Runtime) (d : gosnmp.Device)
    (req : string) (err : option string) (reqData : gmap string GoValue) :
  (forall reply t,
     runs (Router.serve (Part003.Discovery d) (Part004.FetchSNMPData rt d)
             req err reqData) reply t ->
     (req = "health_check" /\ reply = inl "ok") \/
     (exists e id,
        err = Some e /\ reqData !! "request_id" = Some (VString id) /\ t = [] /\
        reply = inr (<["status" := VString "fail"]>
                     (<["details" := VString e]>
                     (<["error" := VString "Invalid request format"]>
                     {["request_id" := VString id]})))) \/
     (exists out,
        err = None /\ reply = inr out /\
        (out !! "status" = Some (VString "success") \/
         out !! "status" = Some (VString "fail")) /\
        forall k, k ∉ ["status"; "error"; "data"; "port"] ->
          out !! k = reqData !! k)) /\
  (req <> "health_check" -> hasString reqData "request_id" = false ->
   forall e Discovery FetchSNMPData,
     Router.serve Discovery FetchSNMPData req (Some e) reqData
     = (Panic TypeAssertion, [])).
Proof.
  split; [apply Router_reply|].
  intros Hreq Hid e Discovery FetchSNMPData. unfold Router.serve.
  destruct (String.eqb_spec req "health_check") as [|_]; [done|].
  unfold hasString in Hid. unfold valueAt.
  change Router.requestID with "request_id".
  destruct (reqData !! "request_id") as [[]|]; done.
Qed.

End RouterFacts.

Section MoreSamples.
Import Part003 Lab Cases.

Lemma interfaceOrder_keys : keysOf util.InterfaceOids interfaceOrder.
Proof. unfold keysOf. apply (bool_decide_unpack _). vm_compute. reflexivity. Qed.

Lemma interfaceOrder_keys_config : keysOf config.InterfaceOids interfaceOrder.
Proof. unfold keysOf. apply (bool_decide_unpack _). vm_compute. reflexivity. Qed.

Lemma inOrder_lists : listsTheKeys inOrder.
Proof. split; [apply systemOrder_keys|intros index; apply interfaceOrder_keys]. Qed.

Lemma backwards_lists : listsTheKeys backwards.
Proof.
  split; [|intros index]; unfold keysOf; apply (bool_decide_unpack _);
    vm_compute; reflexivity.
Qed.

Lemma agent_answersEachOid (uptime : gosnmp.SnmpPDU) (rows : list Z) :
  answersEachOid (agent uptime rows).
Proof. by exists (fun _ => answer uptime). Qed.

Lemma answer_of_a_polling_job_witness :
  exists out t,
    runs (Part004.FetchSNMPData inOrder (agent ticks [1; 2]) (request "2c")) out t /\
    out !! "requestId" = Some (VString "42") /\
    out !! "requestType" = Some (VString "polling").
Proof.
  eexists _, _. split; [reflexivity|].
  destruct (answer_of_a_polling_job inOrder (agent ticks [1; 2]) (request "2c")
              _ _ eq_refl) as [_ Hecho].
  split; (rewrite Hecho; [reflexivity|]);
    rewrite !not_elem_of_cons; repeat split; try discriminate; apply not_elem_of_nil.
Defined.

Lemma polling_job_is_answered_iff_witness :
  gosnmp.bounded (agent ticks [1; 2]) /\
  exists out t,
    runs (Part004.FetchSNMPData inOrder (agent ticks [1; 2]) (request "2c")) out t.
Proof.
  split; [apply agent_bounded|].
  apply (polling_job_is_answered_iff inOrder (agent ticks [1; 2]) (request "2c")
           (agent_bounded _ _)).
  intros _. split; reflexivity.
Defined.

Lemma failed_walk_enumerates_nothing_witness :
  runs (Part004.getInterfaceIndexes noWalk g2c)
       (inl "SNMP walk failed: request timeout") [Walked g2c Part004.targetOID] /\
  runs (Part004.getInterfaceIndexes oddWalk g2c)
       (inl ("SNMP walk failed: failed to parse index: " +:+
             "strconv.Atoi: parsing " +:+ Quote "x" +:+ ": invalid syntax"))
       [Walked g2c Part004.targetOID].
Proof.
  destruct (failed_walk_enumerates_nothing noWalk g2c) as [Hwalk _].
  destruct (failed_walk_enumerates_nothing oddWalk g2c) as [_ Hparse].
  split.
  - apply (Hwalk [] "request timeout" eq_refl). constructor.
  - apply (Hparse
             [pdu (Part004.targetOID +:+ ".1") gosnmp.OctetString (gosnmp.DBytes "port1")]
             (pdu (Part004.targetOID +:+ ".x") gosnmp.OctetString (gosnmp.DBytes "portx"))
             [pdu (Part004.targetOID +:+ ".3") gosnmp.OctetString (gosnmp.DBytes "port3")]
             None _ eq_refl); [by repeat constructor|reflexivity].
Defined.

Lemma noWalk_scalars (g : gosnmp.GoSNMP) :
  runs (Part004.fetchSNMPSystemData systemOrder noWalk g)
       (inr scalars) [Got g systemOrder].
Proof. reflexivity. Qed.

Lemma failed_walk_is_reported_witness :
  exists out data,
    runs (Part004.FetchSNMPData inOrder noWalk (request "2c")) out
         [Connected g2c; Got g2c systemOrder; Walked g2c Part004.targetOID; Closed] /\
    out !! "status" = Some (VString "success") /\
    out !! "data" = Some (VMap data) /\
    data !! "system.interfaces" = Some (VInt 0) /\
    data !! "interfaces.error" =
      Some (VString "Error fetching interface indexes: SNMP walk failed: request timeout") /\
    data !! "interfaces" = None.
Proof.
  apply (failed_walk_is_reported inOrder noWalk (request "2c") (validated "2c")
           "192.0.2.7" "public" "2c" gosnmp.Version2c scalars [Got g2c systemOrder]
           "SNMP walk failed: request timeout"
           (request_validated "2c") eq_refl eq_refl eq_refl eq_refl eq_refl
           (noWalk_scalars _) eq_refl).
Defined.

Lemma enumerated_rows_are_the_rows_asked_for_witness :
  runs (Part004.getInterfaceIndexes (agent ticks [5; 9]) g2c) (inr [5; 9])
       [Walked g2c Part004.targetOID] /\
  Atoi (lastPart (Split ("1.3.6.1.2.1.2.2.1.10" +:+ "." +:+ itoa 9))) = (9, None).
Proof.
  destruct (enumerated_rows_are_the_rows_asked_for (agent ticks [5; 9]) g2c [5; 9]
              (gosnmp.Walk (agent ticks [5; 9]) g2c Part004.targetOID).1)
    as [Hwalk Hasked].
  - repeat constructor; lia.
  - repeat constructor; by eexists.
  - reflexivity.
  - split; [exact Hwalk|].
    apply (Hasked ["1.3.6.1.2.1.2.2.1.10"] 9).
    + apply elem_of_cons. right. apply elem_of_cons. by left.
    + apply elem_of_cons. by left.
Defined.

Lemma physical_address_text_witness :
  Part004.formatMac
    (String (ascii_of_N 0) (String (ascii_of_N 26) (String (ascii_of_N 43)
    (String (ascii_of_N 60) (String (ascii_of_N 77) (String (ascii_of_N 94)
    (String (ascii_of_N 255) EmptyString))))))) = "00:1A:2B:3C:4D:5E" /\
  Part004.formatMac (String (ascii_of_N 10) (String (ascii_of_N 255) EmptyString)) =
    "0AFF".
Proof.
  destruct (physical_address_text (ascii_of_N 0) (ascii_of_N 26) (ascii_of_N 43)
              (ascii_of_N 60) (ascii_of_N 77) (ascii_of_N 94)
              (String (ascii_of_N 255) EmptyString)
              (String (ascii_of_N 10) (String (ascii_of_N 255) EmptyString)))
    as [Hsix Hshort].
  split; [exact Hsix|]. destruct Hshort as [Htext _]; [simpl; lia|exact Htext].
Defined.

Lemma agent_row (oids : list string) :
  gosnmp.Get (agent ticks [1; 2]) g2c oids = inr (answer ticks <$> oids).
Proof. reflexivity. Qed.

Lemma interface_fields_stored_by_position_witness :
  keysOf util.InterfaceOids interfaceOrder /\
  exists data,
    runs (Part004.getInterface interfaceOrder (agent ticks [1; 2]) 2 g2c) (data, None)
         [Got g2c (Part004.interfaceOids interfaceOrder 2)] /\
    data !! "index" = Some (VString "2") /\
    data !! "interface.operational.status" = Some (VInt 2).
Proof.
  split; [apply interfaceOrder_keys|].
  destruct (interface_fields_stored_by_position interfaceOrder (agent ticks [1; 2])
              2 g2c _ interfaceOrder_keys (agent_row _))
    as (data & Hrun & Hindex & Hpos & _).
  - by rewrite length_fmap.
  - exists data. split; [exact Hrun|]. split; [exact Hindex|].
    exact (Hpos 0%nat "1.3.6.1.2.1.2.2.1.8" _ eq_refl eq_refl).
Defined.

Lemma reported_index_replaces_the_index_witness :
  keysOf config.InterfaceOids interfaceOrder /\
  exists interfaceData,
    runs (Snmpfetcher.getInterface interfaceOrder (agent ticks [5; 9]) 1 g2)
         interfaceData [Got g2 (Snmpfetcher.interfaceOids interfaceOrder 1)] /\
    interfaceData !! "Index" = Some (itoa 1).
Proof.
  split; [apply interfaceOrder_keys_config|].
  destruct (reported_index_replaces_the_index interfaceOrder (agent ticks [5; 9])
              1 g2 _ interfaceOrder_keys_config eq_refl)
    as (_ & interfaceData & Hrun & Hpos & _).
  - by rewrite length_fmap.
  - exists interfaceData. split; [exact Hrun|].
    exact (Hpos 1%nat _ eq_refl eq_refl).
Defined.

Lemma ValidateRequest_characterised_witness :
  ValidateRequest (request "2c") = (true, validated "2c") /\
  validated "2c" !! "port" = Some (VInt 161) /\
  toInt (inject_Z (2 ^ 70)) = - 2 ^ 63.
Proof.
  destruct (ValidateRequest_characterised (request "2c")) as [Hv Hint].
  split; [rewrite Hv; reflexivity|]. split; [reflexivity|].
  destruct (Hint (inject_Z (2 ^ 70))) as (_ & _ & Hleast).
  apply Hleast. right. vm_compute. discriminate.
Defined.

Lemma session_of_a_polling_job_is_closed_witness :
  exists out t,
    runs (Snmpfetcher.FetchSNMPData inOrder bare "192.0.2.7" "public" "2c") out t /\
    hygienic bare t = true /\ last t = Some Closed.
Proof.
  eexists _, _. split; [reflexivity|].
  destruct (session_of_a_polling_job_is_closed inOrder bare) as (_ & _ & Hfirst).
  split; [eapply (Hfirst "192.0.2.7" "public" "2c"); reflexivity|reflexivity].
Defined.

Lemma answer_of_the_first_poller_witness :
  exists out t,
    runs (Snmpfetcher.FetchSNMPData inOrder unreachable "192.0.2.7" "public" "2c")
         out t /\
    out !! "interfaces.error" = None /\
    out = {["error" := VString ("Error connecting to SNMP target: " +:+
                                "dial udp: no route to host")]}.
Proof.
  eexists _, _. split; [reflexivity|].
  destruct (answer_of_the_first_poller inOrder unreachable "192.0.2.7" "public" "2c"
              _ _ eq_refl) as [Hnone _].
  split; [exact Hnone|reflexivity].
Defined.




Lemma worker_checks_before_it_polls_witness :
  runs (Handler.serve inOrder (agent ticks [1; 2]) (delete "community" (job "polling")))
       (<["details" := VMap {["community" := VString "Missing or null field"]}]>
          {["error" := VString "Missing or null field"]}) [] /\
  Handler.serve inOrder (agent ticks [1; 2]) (job "polling") =
    Snmpfetcher.FetchSNMPData inOrder (agent ticks [1; 2]) "192.0.2.7" "public" "2c".
Proof.
  destruct (worker_checks_before_it_polls inOrder (agent ticks [1; 2])
              (delete "community" (job "polling"))) as [Hmissing _].
  destruct (worker_checks_before_it_polls inOrder (agent ticks [1; 2])
              (job "polling")) as [_ Hcomplete].
  split.
  - destruct (Hmissing eq_refl) as [Hrun _]. exact Hrun.
  - exact (Hcomplete eq_refl).
Defined.

Lemma polling_is_never_dispatched_witness :
  isASCII "SNMP" = true /\ isASCII "Polling" = true /\
  runs (Worker003.serve (Snmpfetcher.FetchSNMPData inOrder (agent ticks [1; 2]))
          (agent ticks [1; 2]) (job "Polling"))
       (Worker003.notSupported "Request type not supported currently") [].
Proof.
  split; [reflexivity|]. split; [reflexivity|].
  destruct (polling_is_never_dispatched
              (Snmpfetcher.FetchSNMPData inOrder (agent ticks [1; 2]))
              (agent ticks [1; 2]) (job "Polling") eq_refl eq_refl) as [_ Hrefused].
  apply Hrefused; reflexivity.
Defined.

Lemma answer_of_a_discovery_job_witness :
  exists out t,
    runs (Part003.Discovery (agent ticks [1; 2]) (request "2c")) out t /\
    out = <["status" := VString "success"]>
            (<["data" := VMap {["systemName" := VString "core-sw1"]}]> (request "2c")).
Proof.
  eexists _, _. split; [reflexivity|].
  destruct (answer_of_a_discovery_job (agent ticks [1; 2]) (request "2c") _ _ eq_refl)
    as [(err & _ & Hout & _)|(name & Hout)]; [discriminate Hout|reflexivity].
Defined.

Lemma discovery_job_is_answered_iff_witness :
  gosnmp.decodes (agent ticks [1; 2]) /\
  exists out t, runs (Part003.Discovery (agent ticks [1; 2]) (request "2c")) out t.
Proof.
  split; [apply agent_decodes|].
  apply (discovery_job_is_answered_iff (agent ticks [1; 2]) (request "2c")
           (agent_decodes _)).
  intros _. repeat split; reflexivity.
Defined.

Lemma complete_discovery_request_rejected_witness :
  Part003b.ValidateRequest (<["requestID" := VString "42"]> (request "2c")) = true /\
  runs (Part003b.Discovery (agent ticks [1; 2])
          (<["requestID" := VString "42"]> (request "2c")))
       (<["status" := VString "fail"]>
          (<["error" := VString "field missing"]>
             (<["requestID" := VString "42"]> (request "2c")))) [].
Proof.
  split; [reflexivity|].
  destruct (complete_discovery_request_rejected (agent ticks [1; 2])
              (<["requestID" := VString "42"]> (request "2c"))) as (_ & Hrejected & _).
  exact (Hrejected eq_refl).
Defined.

Lemma uptime_text_is_the_tick_count_in_seconds_witness :
  0 <= 864005900 < 2 ^ 32 /\
  exists days hours minutes seconds,
    uptimeString 864005900 =
      "Uptime: " +:+ itoa days +:+ " days, " +:+ itoa02 hours +:+ " hours, " +:+
      itoa02 minutes +:+ " minutes, " +:+ itoa02 seconds +:+ " seconds" /\
    0 <= days <= 497 /\ 0 <= hours < 24 /\ 0 <= minutes < 60 /\ 0 <= seconds < 60 /\
    ((days * 24 + hours) * 60 + minutes) * 60 + seconds = 864005900 / 100.
Proof.
  split; [lia|]. apply (uptime_text_is_the_tick_count_in_seconds 864005900). lia.
Defined.

Lemma scalar_fetch_panics_iff_response_is_longer_witness :
  gosnmp.Get chatty g2c systemOrder =
    inr ((answer ticks <$> systemOrder) ++ [ticks]) /\
  Part004.fetchSNMPSystemData systemOrder chatty g2c =
    (Panic IndexOutOfRange, [Got g2c systemOrder]).
Proof.
  split; [reflexivity|].
  destruct (scalar_fetch_panics_iff_response_is_longer systemOrder chatty g2c
              ((answer ticks <$> systemOrder) ++ [ticks]))
    as (_ & _ & _ & Hpanic); [discriminate|reflexivity|].
  apply Hpanic. simpl. lia.
Defined.

Lemma answer_does_not_depend_on_the_order_of_the_tables_witness :
  answersEachOid (agent ticks [1; 2]) /\ listsTheKeys inOrder /\
  listsTheKeys backwards /\
  (Part004.FetchSNMPData inOrder (agent ticks [1; 2]) (request "2c")).1 =
  (Part004.FetchSNMPData backwards (agent ticks [1; 2]) (request "2c")).1.
Proof.
  split; [apply agent_answersEachOid|]. split; [apply inOrder_lists|].
  split; [apply backwards_lists|].
  apply (answer_does_not_depend_on_the_order_of_the_tables inOrder backwards
           (agent ticks [1; 2]) (request "2c") (agent_answersEachOid _ _)
           inOrder_lists backwards_lists).
Defined.

Lemma every_reply_has_a_status_witness :
  runs (Router.serve (Part003.Discovery (agent ticks [1; 2]))
          (Part004.FetchSNMPData inOrder (agent ticks [1; 2]))
          "{...}" None (request "4"))
       (inr (<["status" := VString "fail"]>
               (<["error" := VString "unsupported SNMP version"]> (validated "4"))))
       [] /\
  (<["status" := VString "fail"]>
     (<["error" := VString "unsupported SNMP version"]> (validated "4")))
    !! "requestId" = request "4" !! "requestId" /\
  Router.serve (Part003.Discovery (agent ticks [1; 2]))
    (Part004.FetchSNMPData inOrder (agent ticks [1; 2]))
    "{" (Some "unexpected end of JSON input") ∅
  = (Panic TypeAssertion, []).
Proof.
  assert (runs (Router.serve (Part003.Discovery (agent ticks [1; 2]))
                  (Part004.FetchSNMPData inOrder (agent ticks [1; 2]))
                  "{...}" None (request "4"))
               (inr (<["status" := VString "fail"]>
                       (<["error" := VString "unsupported SNMP version"]>
                          (validated "4"))))
               []) as Hrun by reflexivity.
  split; [exact Hrun|]. split.
  - destruct (every_reply_has_a_status inOrder (agent ticks [1; 2]) "{...}"
                None (request "4")) as [Hreply _].
    destruct (Hreply _ _ Hrun)
      as [[Hreq _]|[(e & id & He & _)|(out & _ & Hout & _ & Hecho)]];
      [discriminate Hreq|discriminate He|].
    injection Hout as <-. apply Hecho.
    rewrite !not_elem_of_cons; repeat split; try discriminate; apply not_elem_of_nil.
  - destruct (every_reply_has_a_status inOrder (agent ticks [1; 2]) "{"
                (Some "unexpected end of JSON input") ∅) as [_ Hpanic].
    apply Hpanic; [discriminate|reflexivity].
Defined.

End MoreSamples.
